(** * DECY: intent matching, recommendation fallback chain, conversation
      policy and catalog discovery

    A shallow embedding of the JavaScript services of the repository
    ([services/intelligence.js], [services/recommendation.js],
    [services/scraper.js] and the earlier revision of the recommendation
    engine that carries the budget short-circuit) together with the
    properties the specification states about them.

    Conventions of the embedding.
    - JavaScript strings are [string]s of 8-bit characters.  Case mapping
      and the whitespace class are the ASCII ones, so the model is exact on
      ASCII text.
    - A JavaScript object used as a dictionary whose iteration order the code
      relies on ([tools.categories]) is an association list in insertion
      order; a [Set] of strings is a [gset string].
    - [Array.prototype.sort] is stable; with a comparator [b.k - a.k] it
      is the stable sort by descending key, modelled by [sortDesc].
    - External effects (page fetch, completion service, file writes, the
      clock) are explicit: either an oracle argument or an interaction
      tree-like program whose nodes are the external calls. *)

From Stdlib Require Import String Ascii List ZArith QArith Qminmax Lia Bool Sorted.
From stdpp Require Import base gmap strings.
Import ListNotations.

Local Open Scope string_scope.
Local Open Scope Z_scope.

(** ** JavaScript string primitives *)

Module JS.

(** [\s] on ASCII text: space, TAB, LF, VT, FF, CR.  Strings are read
    byte by byte; the whitespace of JavaScript outside ASCII (U+00A0,
    U+2028, ...) takes several bytes and is not recognised here, nor is
    the case mapping outside ASCII by [lowerChar].  Where a statement
    depends on either for arbitrary texts, it is made for ASCII texts. *)
Definition isSpace (c : ascii) : bool :=
  let n := nat_of_ascii c in
  (Nat.eqb n 32 || (Nat.leb 9 n && Nat.leb n 13))%bool.

(** [\w] restricted to ASCII: letters, digits and underscore. *)
Definition isWordChar (c : ascii) : bool :=
  let n := nat_of_ascii c in
  ((Nat.leb 48 n && Nat.leb n 57) || (Nat.leb 65 n && Nat.leb n 90)
   || (Nat.leb 97 n && Nat.leb n 122) || Nat.eqb n 95)%bool.

Definition lowerChar (c : ascii) : ascii :=
  let n := nat_of_ascii c in
  if (Nat.leb 65 n && Nat.leb n 90)%bool then ascii_of_nat (n + 32) else c.

(** [s.toLowerCase()] *)
Fixpoint toLowerCase (s : string) : string :=
  match s with
  | EmptyString => EmptyString
  | String c r => String (lowerChar c) (toLowerCase r)
  end.

(** [s.startsWith(p)] *)
Fixpoint startsWith (p s : string) : bool :=
  match p, s with
  | EmptyString, _ => true
  | String _ _, EmptyString => false
  | String a p', String b s' => (Ascii.eqb a b && startsWith p' s')%bool
  end.

(** [s.includes(p)]: [p] occurs in [s] at some position. *)
Fixpoint includes (s p : string) : bool :=
  (startsWith p s ||
   match s with
   | EmptyString => false
   | String _ r => includes r p
   end)%bool.

Fixpoint trimStart (s : string) : string :=
  match s with
  | EmptyString => EmptyString
  | String c r => if isSpace c then trimStart r else s
  end.

Fixpoint trimEnd (s : string) : string :=
  match s with
  | EmptyString => EmptyString
  | String c r =>
      match trimEnd r with
      | EmptyString => if isSpace c then EmptyString else String c EmptyString
      | t => String c t
      end
  end.

(** [s.trim()] *)
Definition trim (s : string) : string := trimEnd (trimStart s).

Definition headIsSpace (s : string) : bool :=
  match s with
  | EmptyString => false
  | String c _ => isSpace c
  end.

Definition consHead (c : ascii) (l : list string) : list string :=
  match l with
  | [] => [String c EmptyString]
  | w :: ws => String c w :: ws
  end.

(** [s.split(/\s+/)]: the pieces between maximal runs of whitespace.  A
    leading or trailing run leaves an empty piece at that end, and the
    empty string splits into one empty piece. *)
Fixpoint splitWs (s : string) : list string :=
  match s with
  | EmptyString => [EmptyString]
  | String c r =>
      if isSpace c
      then (if headIsSpace r then splitWs r else EmptyString :: splitWs r)
      else consHead c (splitWs r)
  end.

(** [s.split(' ')]: split at every single space. *)
Fixpoint splitSpace (s : string) : list string :=
  match s with
  | EmptyString => [EmptyString]
  | String c r =>
      if Ascii.eqb c " "%char then EmptyString :: splitSpace r
      else consHead c (splitSpace r)
  end.

(** [l.includes(x)] on an array of strings. *)
Definition arrayIncludes (l : list string) (x : string) : bool :=
  existsb (String.eqb x) l.

(** [a || b] on strings: the empty string is falsy. *)
Definition orStr (a b : string) : string :=
  if String.eqb a EmptyString then b else a.

(** [a || b] where [a] may be absent. *)
Definition orOpt (a : option string) (b : string) : string :=
  match a with
  | Some s => orStr s b
  | None => b
  end.

(** [s] without its prefix [p], when it has that prefix. *)
Fixpoint stripPrefix (p s : string) : option string :=
  match p, s with
  | EmptyString, _ => Some s
  | String _ _, EmptyString => None
  | String a p', String b s' => if Ascii.eqb a b then stripPrefix p' s' else None
  end.

Definition headIsWord (s : string) : bool :=
  match s with
  | EmptyString => false
  | String c _ => isWordChar c
  end.

Fixpoint lastIsWord (dflt : bool) (s : string) : bool :=
  match s with
  | EmptyString => dflt
  | String c r => lastIsWord (isWordChar c) r
  end.

(** The literal [alt] matches at the head of [s] with a word boundary
    [\b] on both sides; [prevIsWord] tells whether the character before
    [s] is a word character. *)
Definition boundedAt (prevIsWord : bool) (alt s : string) : bool :=
  match stripPrefix alt s with
  | Some rest =>
      (xorb prevIsWord (headIsWord s)
       && xorb (lastIsWord prevIsWord alt) (headIsWord rest))%bool
  | None => false
  end.

Fixpoint boundedFrom (prevIsWord : bool) (alts : list string) (s : string) : bool :=
  (existsb (fun alt => boundedAt prevIsWord alt s) alts ||
   match s with
   | EmptyString => false
   | String c r => boundedFrom (isWordChar c) alts r
   end)%bool.

(** [/\b(a1|a2|...)\b/i.test(s)] for lowercase literals [a1, a2, ...]. *)
Definition testBoundedWords (alts : list string) (s : string) : bool :=
  boundedFrom false alts (toLowerCase s).

(** The UTF-8 encoding of the en dash. *)
Definition enDash : string :=
  String (ascii_of_nat 226) (String (ascii_of_nat 128) (String (ascii_of_nat 147) EmptyString)).

(** [s.split(/[-\u2013|]/)[0]]: the text before the first hyphen, en dash
    or vertical bar. *)
Fixpoint firstSegment (s : string) : string :=
  match s with
  | EmptyString => EmptyString
  | String c r =>
      if (Ascii.eqb c "-"%char || Ascii.eqb c "|"%char || startsWith enDash s)%bool
      then EmptyString
      else String c (firstSegment r)
  end.

(** [s.split(sep)[0]] for a one-character separator. *)
Fixpoint beforeChar (sep : ascii) (s : string) : string :=
  match s with
  | EmptyString => EmptyString
  | String c r => if Ascii.eqb c sep then EmptyString else String c (beforeChar sep r)
  end.

(** [l.slice(-n)] *)
Definition sliceLast {A} (n : nat) (l : list A) : list A :=
  skipn (List.length l - n) l.

(** [l.filter(p).slice(-1)[0]] *)
Definition lastWhere {A} (p : A -> bool) (l : list A) : option A :=
  List.last (map Some (List.filter p l)) None.

(** The one-character string holding a double quote. *)
Definition dquote : string := String (ascii_of_nat 34) EmptyString.

(** [l.join(sep)] *)
Definition join (sep : string) (l : list string) : string := String.concat sep l.

(** [l.slice(0, n)] *)
Definition slice0 {A} (n : nat) (l : list A) : list A := firstn n l.

(** Stable insertion of [x], which precedes every element of [l] in the
    original order, into [l] sorted by descending key. *)
Fixpoint insertDesc {A} (key : A -> Z) (x : A) (l : list A) : list A :=
  match l with
  | [] => [x]
  | y :: r => if key x <? key y then y :: insertDesc key x r else x :: l
  end.

(** [l.sort((a, b) => key(b) - key(a))] *)
Definition sortDesc {A} (key : A -> Z) (l : list A) : list A :=
  fold_right (insertDesc key) [] l.

End JS.

(** ** The catalog document ([data/tools.json]) *)

Record Pricing := { free : bool; premium : option string }.

Record Deploy := { available : bool; deploy_type : string; note : string }.

Record Tool := {
  tool_id : string;
  tool_name : string;
  bestFor : string;
  deploy : option Deploy;
  limits : option string;
  pricing : Pricing;
  whySuitsYou : option string;
  ease : option Z;
  url : string;
  acceptsPrompt : bool;
  promptHint : option string
}.

Record Category := {
  cat_name : string;
  cat_icon : string;
  keywords : list string;
  tools : list Tool
}.

Record Metadata := { totalTools : Z; lastUpdated : string }.

(** [categories] lists the entries of the [categories] object in
    [Object.entries] order. *)
Record Catalog := {
  categories : list (string * Category);
  metadata : Metadata
}.

(** [tools.categories[key]] for a key the object holds itself: the entry
    of [key], or [None] where the object has no such entry.  (A key such
    as [constructor] or [toString], which every JavaScript object
    inherits, indexes to a truthy value that is no category; see
    [ownOrPlain] below.) *)
Fixpoint lookupCategory (cats : list (string * Category)) (key : string) : option Category :=
  match cats with
  | [] => None
  | (k, c) :: r => if String.eqb k key then Some c else lookupCategory r key
  end.

(** [tool.ease || 3]: an absent or zero ease counts as 3. *)
Definition easeOr3 (t : Tool) : Z :=
  match ease t with
  | Some e => if e =? 0 then 3 else e
  | None => 3
  end.

(** Every tool of the catalog, category by category. *)
Definition allTools (c : Catalog) : list Tool :=
  flat_map (fun kc => tools (snd kc)) (categories c).

(** ** The recommendation engine ([services/recommendation.js]) *)

Module RecommendationEngine.

(** [{...tool, category: category.name, categoryIcon: category.icon}] *)
Record RecTool := {
  base : Tool;
  category : string;
  categoryIcon : string
}.

Definition enrich (c : Category) (t : Tool) : RecTool :=
  {| base := t; category := cat_name c; categoryIcon := cat_icon c |}.

Record Recommendation := {
  source : string;
  rec_category : option string;
  reasoning : string;
  rec_tools : list RecTool
}.

(** The parsed [{category, tools, reasoning}] object of the completion
    service. *)
Record GeminiResponse := {
  g_category : option string;
  g_tools : list string;
  g_reasoning : string
}.

(** What one call of [getGeminiRecommendation] can observe of the
    completion service. *)
Inductive GeminiOutcome :=
| GeminiThrows
| GeminiUnparsable
| GeminiParsed (r : GeminiResponse).

Section Engine.

Variable db : Catalog.

(** [budgetType === 'free'] *)
Definition isFree (budgetType : string) : bool := String.eqb budgetType "free".

Definition budgetOk (budgetType : string) (t : Tool) : bool :=
  if isFree budgetType then free (pricing t) else true.

Fixpoint findInCategories (cats : list (string * Category)) (toolId : string)
  : option RecTool :=
  match cats with
  | [] => None
  | (_, c) :: r =>
      match find (fun t => String.eqb (tool_id t) toolId) (tools c) with
      | Some t => Some (enrich c t)
      | None => findInCategories r toolId
      end
  end.

Definition findToolById (toolId : string) : option RecTool :=
  findInCategories (categories db) toolId.

Fixpoint getToolsByIds (toolIds : list string) (budgetType : string) : list RecTool :=
  match toolIds with
  | [] => []
  | i :: r =>
      match findToolById i with
      | Some t =>
          if (isFree budgetType && negb (free (pricing (base t))))%bool
          then getToolsByIds r budgetType
          else t :: getToolsByIds r budgetType
      | None => getToolsByIds r budgetType
      end
  end.

Definition intentTable : list (string * string) :=
  [ ("website", "building a website"); ("web", "building a website");
    ("app", "building applications"); ("image", "working with images");
    ("video", "video creation"); ("code", "coding and development");
    ("write", "writing and content"); ("design", "design and graphics");
    ("graphic", "design and graphics"); ("logo", "logo and branding");
    ("present", "creating presentations"); ("music", "audio and music");
    ("voice", "voice and audio"); ("research", "research and learning");
    ("automate", "automation"); ("build", "building your project");
    ("create", "creating your project"); ("edit", "editing content");
    ("startup", "your startup project") ].

Definition extractKeyIntent (query : string) : string :=
  match find (fun ki => JS.includes query (fst ki)) intentTable with
  | Some ki => snd ki
  | None => "your project"
  end.

Definition getDefaultRecommendation (budgetType : string) : Recommendation :=
  let generalTools :=
    flat_map (fun i =>
                match findToolById i with
                | Some t =>
                    if (negb (isFree budgetType) || free (pricing (base t)))%bool
                    then [t] else []
                | None => []
                end)
             ["chatgpt"; "perplexity"; "canva"] in
  {| source := "default";
     rec_category := Some "General AI";
     reasoning := "Here are versatile AI tools that can help with many tasks.";
     rec_tools := JS.slice0 3 generalTools |}.

(** One keyword of a category: 10 when the query contains it, then 3
    for every query word that contains it or is contained in it. *)
Definition keywordStep (query : string) (words : list string)
    (score : Z) (keyword : string) : Z :=
  let kw := JS.toLowerCase keyword in
  let s1 := if JS.includes query kw then score + 10 else score in
  fold_left (fun s word =>
               if (JS.includes kw word || JS.includes word kw)%bool then s + 3 else s)
            words s1.

(** One tool of a category: 15 when the query contains its name, 5
    when it contains its description. *)
Definition toolStep (query : string) (score : Z) (t : Tool) : Z :=
  let s1 := if JS.includes query (JS.toLowerCase (tool_name t)) then score + 15 else score in
  if JS.includes query (JS.toLowerCase (bestFor t)) then s1 + 5 else s1.

(** The score the fallback gives one category. *)
Definition categoryScore (query : string) (words : list string) (c : Category) : Z :=
  fold_left (toolStep query) (tools c)
    (fold_left (keywordStep query words) (keywords c) 0).

(** [categoryScores]: the entries with a positive score, in catalog
    order, each with its score. *)
Definition categoryScores (query : string) : list (string * (Z * Category)) :=
  let words := JS.splitWs query in
  flat_map (fun kc =>
              let score := categoryScore query words (snd kc) in
              if 0 <? score then [(fst kc, (score, snd kc))] else [])
           (categories db).

Definition topTools (budgetType : string) (c : Category) : list RecTool :=
  map (enrich c)
      (JS.slice0 3 (JS.sortDesc easeOr3 (List.filter (budgetOk budgetType) (tools c)))).

Definition getFallbackRecommendation (userQuery budgetType : string) : Recommendation :=
  let query := JS.toLowerCase userQuery in
  let sortedCategories :=
    JS.sortDesc (fun e => fst (snd e)) (categoryScores query) in
  match sortedCategories with
  | [] => getDefaultRecommendation budgetType
  | (_, (_, c)) :: _ =>
      {| source := "fallback";
         rec_category := Some (cat_name c);
         reasoning := "Based on your query about " ++ JS.dquote ++ extractKeyIntent query
                      ++ JS.dquote ++ ", these tools are best suited for your needs.";
         rec_tools := topTools budgetType c |}
  end.

Definition getToolsFromCategory (categoryKey budgetType userQuery : string)
  : Recommendation :=
  match lookupCategory (categories db) categoryKey with
  | None => getFallbackRecommendation userQuery budgetType
  | Some c =>
      {| source := "ai_category";
         rec_category := Some (cat_name c);
         reasoning := "Here are the best " ++ budgetType ++ " tools for "
                      ++ extractKeyIntent (JS.toLowerCase userQuery) ++ ":";
         rec_tools := topTools budgetType c |}
  end.

Definition enrichRecommendations (geminiResponse : GeminiResponse) (budgetType : string)
  : Recommendation :=
  let recommendations :=
    flat_map (fun kc =>
                flat_map (fun t =>
                            if JS.arrayIncludes (g_tools geminiResponse) (tool_id t)
                            then (if (isFree budgetType && negb (free (pricing t)))%bool
                                  then [] else [enrich (snd kc) t])
                            else [])
                         (tools (snd kc)))
             (categories db) in
  {| source := "gemini";
     rec_category := g_category geminiResponse;
     reasoning := g_reasoning geminiResponse;
     rec_tools := JS.slice0 3 recommendations |}.

(** [getGeminiRecommendation]: [None] stands for the [null] result and
    for a thrown error, which the caller treats alike. *)
Definition getGeminiRecommendation (o : GeminiOutcome) (budgetType : string)
  : option Recommendation :=
  match o with
  | GeminiParsed r => Some (enrichRecommendations r budgetType)
  | GeminiUnparsable | GeminiThrows => None
  end.

(** [getRecommendations]: [gemini] is [None] when no completion service
    is configured. *)
Definition getRecommendations (gemini : option GeminiOutcome)
    (userQuery budgetType : string) (category : option string) : Recommendation :=
  let viaFallback := getFallbackRecommendation userQuery budgetType in
  let viaAI :=
    match gemini with
    | Some o =>
        match getGeminiRecommendation o budgetType with
        | Some r => match rec_tools r with [] => viaFallback | _ => r end
        | None => viaFallback
        end
    | None => viaFallback
    end in
  match category with
  | Some key =>
      if String.eqb key EmptyString then viaAI
      else match lookupCategory (categories db) key with
           | Some _ => getToolsFromCategory key budgetType userQuery
           | None => viaAI
           end
  | None => viaAI
  end.

End Engine.

End RecommendationEngine.

(** ** The intent matcher ([services/intelligence.js]) *)

Module DecyIntelligence.

Record Pattern := {
  intents : list string;
  category : string;
  context : string;
  priority : list string
}.

(** [{...tool, categoryKey, categoryName, categoryKeywords, searchText}];
    [matchScore] is only present on the copies [searchAllTools] makes. *)
Record FlatTool := {
  base : Tool;
  categoryKey : string;
  categoryName : string;
  categoryKeywords : list string;
  searchText : string;
  matchScore : option Z
}.

Record Intent := {
  matched : bool;
  isGuidance : bool;
  int_category : option string;
  int_tool : option FlatTool;
  int_context : string;
  confidence : Q;
  int_tools : list FlatTool
}.

Definition buildIntentMap : list Pattern :=
  [ {| intents := ["portfolio"; "personal website"; "personal site"; "showcase my work"; "online presence"];
       category := "app_building";
       context := "The user wants to build a personal portfolio website to showcase their work. Recommend app/website builders that are easy to use and produce professional-looking sites.";
       priority := ["lovable"; "bolt"; "v0"] |};
    {| intents := ["landing page"; "saas"; "startup website"; "product page"; "business website"];
       category := "app_building";
       context := "The user wants to build a professional landing page or business website. Recommend tools that can create polished, conversion-optimized pages.";
       priority := ["lovable"; "bolt"; "v0"] |};
    {| intents := ["app"; "mobile app"; "web app"; "build app"; "create app"; "develop app"; "mvp"; "prototype"];
       category := "app_building";
       context := "The user wants to build a functional application. Recommend no-code/low-code builders that can create real, deployable apps.";
       priority := ["lovable"; "bolt"; "replit"] |};
    {| intents := ["logo"; "brand identity"; "branding"; "brand kit"; "company logo"];
       category := "design";
       context := "The user needs logo/branding design. Recommend AI tools specifically built for logo creation.";
       priority := ["looka"; "canva_design"; "kittl"] |};
    {| intents := ["poster"; "flyer"; "banner"; "social media post"; "instagram post"; "thumbnail"; "cover image"; "marketing material"];
       category := "design";
       context := "The user wants to create visual marketing content. Recommend design tools with templates for social media and marketing.";
       priority := ["canva_design"; "kittl"; "figma"] |};
    {| intents := ["ui design"; "wireframe"; "mockup"; "prototype design"; "user interface"; "figma"];
       category := "design";
       context := "The user needs to design user interfaces or wireframes. Recommend professional UI/UX design tools.";
       priority := ["figma"; "uizard"; "canva_design"] |};
    {| intents := ["generate image"; "create image"; "ai art"; "artwork"; "illustration"; "picture"; "image generation"; "ai image"; "draw"];
       category := "image_generation";
       context := "The user wants to generate images from text descriptions. Recommend AI image generators.";
       priority := ["ideogram"; "leonardo"; "midjourney"] |};
    {| intents := ["edit photo"; "remove background"; "enhance photo"; "photo editing"; "retouch"; "upscale image"];
       category := "image_editing";
       context := "The user wants to edit or enhance existing photos. Recommend photo editing AI tools.";
       priority := ["canva"; "remove_bg"; "clipdrop"] |};
    {| intents := ["video"; "edit video"; "reel"; "short"; "youtube"; "tiktok"; "clip"; "montage"];
       category := "video_creation";
       context := "The user wants to create or edit video content. Recommend video editing tools.";
       priority := ["capcut"; "descript"; "invideo"] |};
    {| intents := ["generate video"; "text to video"; "ai video"; "animate"; "motion"; "video from text"];
       category := "video_creation";
       context := "The user wants to generate video from text or images using AI. Recommend AI video generators.";
       priority := ["runway"; "pika"; "invideo"] |};
    {| intents := ["talking head"; "avatar video"; "spokesperson"; "virtual presenter"];
       category := "video_creation";
       context := "The user wants AI-generated talking head or avatar videos. Recommend avatar video tools.";
       priority := ["heygen"; "synthesia"; "d-id"] |};
    {| intents := ["write"; "blog"; "article"; "essay"; "content"; "copywriting"; "email"; "marketing copy"];
       category := "writing";
       context := "The user wants to write or generate text content. Recommend AI writing tools.";
       priority := ["notion_ai"; "copy_ai"; "jasper"] |};
    {| intents := ["grammar"; "proofread"; "spelling"; "editing text"; "paraphrase"; "rewrite"];
       category := "writing";
       context := "The user wants to check grammar, paraphrase, or improve existing text. Recommend editing/grammar tools.";
       priority := ["grammarly"; "quillbot"; "wordtune"] |};
    {| intents := ["code"; "programming"; "debug"; "developer"; "coding assistant"; "autocomplete"; "copilot"];
       category := "coding_assistance";
       context := "The user needs help with coding or programming. Recommend AI coding assistants.";
       priority := ["cursor"; "github_copilot"; "chatgpt"] |};
    {| intents := ["presentation"; "slides"; "pitch deck"; "ppt"; "powerpoint"; "keynote"; "slide deck"];
       category := "presentation";
       context := "The user wants to create a presentation or slide deck. Recommend AI presentation tools.";
       priority := ["gamma"; "tome"; "beautiful_ai"] |};
    {| intents := ["voice"; "voiceover"; "text to speech"; "narration"; "dubbing"; "voice clone"];
       category := "audio";
       context := "The user needs text-to-speech, voiceovers, or voice generation. Recommend voice AI tools.";
       priority := ["elevenlabs"; "murf"; "play_ht"] |};
    {| intents := ["music"; "song"; "beat"; "soundtrack"; "jingle"; "compose"];
       category := "music_generation";
       context := "The user wants to create music or audio content. Recommend AI music tools.";
       priority := ["suno"; "udio"; "aiva"] |};
    {| intents := ["meeting notes"; "transcribe"; "summarize meeting"; "meeting summary"];
       category := "productivity";
       context := "The user wants to transcribe or summarize meetings. Recommend meeting AI tools.";
       priority := ["otter"; "fireflies"; "granola"] |};
    {| intents := ["research"; "find information"; "academic"; "papers"; "study"];
       category := "research";
       context := "The user needs help with research or finding information. Recommend AI research tools.";
       priority := ["perplexity"; "elicit"; "consensus"] |};
    {| intents := ["resume"; "cv"; "cover letter"; "job application"];
       category := "design";
       context := "The user wants to create a resume or CV. Recommend design tools with resume templates, AND website builders for online portfolios.";
       priority := ["canva_design"; "lovable"; "notion_ai"] |} ].

Definition guidanceSignals : list string :=
  [ "how to use"; "how to create"; "how to build"; "how to make";
    "how do i use"; "how does"; "guide me"; "teach me"; "help me use";
    "steps to use"; "tutorial"; "how to start with"; "getting started";
    "using the"; "using it"; "how can i use"; "what can i do with";
    "tips for"; "how to get started" ].

Section Matcher.

Variable db : Catalog.

(** The constructor's [this.intentMap]. *)
Definition intentMap : list Pattern := buildIntentMap.

Definition flatten (catKey : string) (cat : Category) (t : Tool) : FlatTool :=
  {| base := t;
     categoryKey := catKey;
     categoryName := cat_name cat;
     categoryKeywords := keywords cat;
     searchText :=
       JS.toLowerCase
         (JS.join " " ([tool_name t; bestFor t; JS.orOpt (whySuitsYou t) EmptyString;
                        JS.orOpt (limits t) EmptyString] ++ keywords cat));
     matchScore := None |}.

Definition flattenTools : list FlatTool :=
  flat_map (fun kc => map (flatten (fst kc) (snd kc)) (tools (snd kc))) (categories db).

(** The constructor's [this.allToolsFlat]. *)
Definition allToolsFlat : list FlatTool := flattenTools.

Definition guidanceContext (t : FlatTool) : string :=
  "The user is asking for guidance on HOW TO USE " ++ tool_name (base t)
  ++ ". DO NOT recommend other tools. Instead, give a clear step-by-step guide on how to use "
  ++ tool_name (base t)
  ++ " effectively. Include: 1) How to get started 2) Key features to use 3) Tips for best results. Tool details: "
  ++ bestFor (base t) ++ ". URL: " ++ url (base t).

Definition detectToolGuidance (query : string) : option Intent :=
  if negb (existsb (fun signal => JS.includes query signal) guidanceSignals) then None
  else
    match find (fun t => (JS.includes query (JS.toLowerCase (tool_name (base t)))
                          || JS.includes query (JS.toLowerCase (tool_id (base t))))%bool)
               allToolsFlat with
    | Some t =>
        Some {| matched := true; isGuidance := true;
                int_category := Some (categoryKey t);
                int_tool := Some t;
                int_context := guidanceContext t;
                confidence := 1;
                int_tools := [t] |}
    | None => None
    end.

(** First loop of [getRelevantTools]: the priority picks, each id at
    most once. *)
Fixpoint addPriority (ids : list string) (acc : list FlatTool) (addedIds : gset string)
  : list FlatTool * gset string :=
  match ids with
  | [] => (acc, addedIds)
  | priorityId :: r =>
      match find (fun t => String.eqb (tool_id (base t)) priorityId) allToolsFlat with
      | Some t =>
          if bool_decide (tool_id (base t) ∈ addedIds)
          then addPriority r acc addedIds
          else addPriority r (acc ++ [t]) ({[ tool_id (base t) ]} ∪ addedIds)
      | None => addPriority r acc addedIds
      end
  end.

(** Second loop of [getRelevantTools]: fill up to six. *)
Fixpoint fillCategory (cands : list FlatTool) (acc : list FlatTool) : list FlatTool :=
  match cands with
  | [] => acc
  | t :: r => if (6 <=? length acc)%nat then acc else fillCategory r (acc ++ [t])
  end.

Definition getRelevantTools (pattern : Pattern) (query : string) : list FlatTool :=
  let '(picked, addedIds) := addPriority (priority pattern) [] ∅ in
  let categoryTools :=
    JS.sortDesc (fun t => easeOr3 (base t))
      (List.filter (fun t => (String.eqb (categoryKey t) (category pattern)
                              && negb (bool_decide (tool_id (base t) ∈ addedIds)))%bool)
                   allToolsFlat) in
  fillCategory categoryTools picked.

Definition wordScore (query : string) (t : FlatTool) (score : Z) (word : string) : Z :=
  if (String.length word <? 3)%nat then score
  else
    let s1 := if JS.includes (searchText t) word then score + 5 else score in
    if JS.includes (JS.toLowerCase (tool_name (base t))) word then s1 + 15 else s1.

Definition withScore (t : FlatTool) (score : Z) : FlatTool :=
  {| base := base t; categoryKey := categoryKey t; categoryName := categoryName t;
     categoryKeywords := categoryKeywords t; searchText := searchText t;
     matchScore := Some score |}.

Definition scoreOf (t : FlatTool) : Z :=
  match matchScore t with Some z => z | None => 0 end.

Definition searchAllTools (query : string) : list FlatTool :=
  let queryWords := JS.splitWs (JS.toLowerCase query) in
  let scored :=
    flat_map (fun t =>
                let score := fold_left (wordScore query t) queryWords 0 in
                if 0 <? score then [withScore t score] else [])
             allToolsFlat in
  JS.slice0 6 (JS.sortDesc scoreOf scored).

(** The body of the inner loops of [analyzeIntent]: the score of one
    pattern. *)
Definition intentScore (query : string) (words : list string) (score : Z) (intent : string) : Z :=
  let s1 := if JS.includes query intent then score + 20 else score in
  fold_left (fun s iw => if JS.arrayIncludes words iw then s + 5 else s)
            (JS.splitSpace intent) s1.

Definition patternScore (query : string) (words : list string) (pattern : Pattern) : Z :=
  fold_left (intentScore query words) (intents pattern) 0.

(** One iteration of the outer loop on [(bestMatch, bestScore)]. *)
Definition scoreStep (query : string) (words : list string)
    (best : option Pattern * Z) (pattern : Pattern) : option Pattern * Z :=
  let score := patternScore query words pattern in
  if snd best <? score then (Some pattern, score) else best.

Definition analyzeIntent (userMessage : string) : Intent :=
  let query := JS.trim (JS.toLowerCase userMessage) in
  match detectToolGuidance query with
  | Some guidance => guidance
  | None =>
      let words := JS.splitWs query in
      let '(bestMatch, bestScore) :=
        fold_left (scoreStep query words) intentMap (None, 0) in
      let viaKeywords :=
        let fallbackTools := searchAllTools query in
        match fallbackTools with
        | _ :: _ =>
            {| matched := true; isGuidance := false;
               int_category := Some "mixed";
               int_tool := None;
               int_context := "The user is looking for: " ++ JS.dquote ++ query ++ JS.dquote
                              ++ ". Found tools by keyword match.";
               confidence := 3 # 10;
               int_tools := JS.slice0 6 fallbackTools |}
        | [] =>
            {| matched := false; isGuidance := false;
               int_category := None;
               int_tool := None;
               int_context := "Could not determine specific tool needs from the message.";
               confidence := 0;
               int_tools := [] |}
        end in
      match bestMatch with
      | Some pattern =>
          if 5 <=? bestScore
          then {| matched := true; isGuidance := false;
                  int_category := Some (category pattern);
                  int_tool := None;
                  int_context := context pattern;
                  confidence := Qmin (Qmake bestScore 20) 1;
                  int_tools := getRelevantTools pattern query |}
          else viaKeywords
      | None => viaKeywords
      end
  end.

End Matcher.

End DecyIntelligence.

(** ** The conversation policy (the engine revision with the budget
       short-circuit) *)

Module ConversationPolicy.

Record Message := { role : string; content : string }.

Record Response := {
  success : bool;
  type : string;
  budget : option string;
  originalQuery : option string;
  response : option string
}.

(** What a call of the completion service yields. *)
Inductive Reply :=
| Threw
| Text (t : string).

(** A computation that may call the completion service: the calls are the
    [Complete] nodes, [Raise] is an uncaught exception. *)
Inductive Prog (R : Type) :=
| Ret (r : R)
| Raise
| Complete (messages : list Message) (k : Reply -> Prog R).

Arguments Ret {R} r.
Arguments Raise {R}.
Arguments Complete {R} messages k.

(** [try { p } catch { h }] *)
Fixpoint tryCatch {R} (p : Prog R) (h : Prog R) : Prog R :=
  match p with
  | Ret r => Ret r
  | Raise => h
  | Complete m k => Complete m (fun x => tryCatch (k x) h)
  end.

(** The number of completion calls made when the service answers by
    [oracle], and the result ([None] for an uncaught exception). *)
Fixpoint run {R} (oracle : list Message -> Reply) (p : Prog R) : nat * option R :=
  match p with
  | Ret r => (0%nat, Some r)
  | Raise => (0%nat, None)
  | Complete m k => let '(n, r) := run oracle (k (oracle m)) in (S n, r)
  end.

Definition budgetWords : list string :=
  ["free"; "free tool"; "free tools"; "premium"; "paid"; "pro"].

Definition leadIns : list string :=
  ["i want"; "i prefer"; "i'll go with"; "go with"; "show me"; "give me"].

(** [(\s+tools?)?$] *)
Definition toolsTail (t : string) : bool :=
  (String.eqb t EmptyString
   || (JS.headIsSpace t
       && (String.eqb (JS.trimStart t) "tool" || String.eqb (JS.trimStart t) "tools")))%bool.

(** [\s*(free|premium|paid)(\s+tools?)?$] *)
Definition budgetPhrase (r : string) : bool :=
  existsb (fun b => match JS.stripPrefix b (JS.trimStart r) with
                    | Some t => toolsTail t
                    | None => false
                    end)
          ["free"; "premium"; "paid"].

(** The two regular expressions of [isStandaloneBudgetAnswer]. *)
Definition isStandaloneBudgetAnswer (lowerMessage : string) : bool :=
  (existsb (String.eqb lowerMessage) budgetWords
   || existsb (fun p => match JS.stripPrefix p lowerMessage with
                        | Some r => budgetPhrase r
                        | None => false
                        end)
              (EmptyString :: leadIns))%bool.

Definition isAssistant (m : Message) : bool := String.eqb (role m) "assistant".
Definition isUser (m : Message) : bool := String.eqb (role m) "user".

Definition wantsFreeWords : list string :=
  ["free"; "no cost"; "without paying"; "don't want to pay"; "i need free"; "want free"].
Definition wantsPremiumWords : list string :=
  ["premium"; "paid"; "pro"; "professional"; "best quality"; "money"; "budget"; "willing to pay"].
Definition toolRequestWords : list string :=
  ["tool"; "app"; "software"; "recommend"; "suggest"; "find"; "need"; "want to"; "help me";
   "looking for"; "create"; "build"; "make"; "design"; "edit"; "generate"].

Definition directRecommendation (budget originalQuery : string) : Response :=
  {| success := true; type := "direct_recommendation";
     budget := Some budget; originalQuery := Some originalQuery; response := None |}.

Section Engine.

(** The system prompt sent ahead of every conversation. *)
Variable systemPrompt : string.

(** Whether the first provider is configured, and the strategies
    [handleChat] tries after it. *)
Variable groq : bool.
Variable laterStrategies : string -> list Message -> Prog Response.

Definition getGroqResponse (message : string) (history : list Message) : Prog Response :=
  let lowerMessage := JS.trim (JS.toLowerCase message) in
  let shortCircuit :=
    if (isStandaloneBudgetAnswer lowerMessage && negb (Nat.eqb (List.length history) 0))%bool
    then
      match JS.lastWhere isAssistant history with
      | Some lastAssistant =>
          if (JS.includes (JS.toLowerCase (content lastAssistant)) "free"
              && JS.includes (JS.toLowerCase (content lastAssistant)) "premium")%bool
          then
            let budget := if JS.includes lowerMessage "free" then "free" else "premium" in
            let userMessages := List.filter isUser history in
            Some (directRecommendation budget
                    (match List.last (map Some userMessages) None with
                     | Some m => content m
                     | None => message
                     end))
          else None
      | None => None
      end
    else None in
  match shortCircuit with
  | Some r => Ret r
  | None =>
      let wantsFree := JS.testBoundedWords wantsFreeWords message in
      let wantsPremium := JS.testBoundedWords wantsPremiumWords message in
      let isToolRequest := JS.testBoundedWords toolRequestWords message in
      if ((wantsFree || wantsPremium) && isToolRequest)%bool
      then Ret (directRecommendation (if wantsFree then "free" else "premium") message)
      else
        let messages :=
          {| role := "system"; content := systemPrompt |}
          :: map (fun msg => {| role := if isUser msg then "user" else "assistant";
                                content := content msg |})
                 (JS.sliceLast 8 history)
          ++ [{| role := "user"; content := message |}] in
        Complete messages (fun reply =>
          match reply with
          | Threw => Raise
          | Text text =>
              let lower := JS.toLowerCase text in
              let askedBudgetQuestion :=
                (JS.includes lower "free" && JS.includes lower "premium"
                 && (JS.includes lower "prefer" || JS.includes lower "would you"))%bool in
              Ret {| success := true;
                     type := if askedBudgetQuestion then "tool_request" else "question";
                     budget := None; originalQuery := None;
                     response := Some text |}
          end)
  end.

Definition handleChat (message : string) (history : list Message) : Prog Response :=
  if groq
  then tryCatch (getGroqResponse message history) (laterStrategies message history)
  else laterStrategies message history.

End Engine.

End ConversationPolicy.

(** ** The chat strategy of [services/recommendation.js]

    The revision of [getGroqResponse] in [services/recommendation.js]
    sends every message to the completion service and reads the decision
    off its JSON answer; it has no budget short-circuit. *)

Module AIFirstChat.

Import ConversationPolicy.

(** The parsed answer [{action, message, budget, tools}]. *)
Record AIResponse := {
  action : option string;
  ai_message : option string;
  ai_budget : option string;
  ai_tools : option (list string)
}.

Record ChatResponse := {
  chat_success : bool;
  chat_type : string;
  chat_budget : option string;
  toolIds : option (list string);
  chat_response : string
}.

Section Engine.

Variable systemPrompt : string.

(** [JSON.parse]: [None] when it throws. *)
Variable parseJSON : string -> option AIResponse.

Definition chatOnly (text : string) : ChatResponse :=
  {| chat_success := true; chat_type := "chat"; chat_budget := None; toolIds := None;
     chat_response := text |}.

Definition getGroqResponse (message : string) (history : list Message) : Prog ChatResponse :=
  let messages :=
    {| role := "system"; content := systemPrompt |}
    :: map (fun msg => {| role := if isUser msg then "user" else "assistant";
                          content := content msg |})
           (JS.sliceLast 8 history)
    ++ [{| role := "user"; content := message |}] in
  Complete messages (fun reply =>
    match reply with
    | Threw => Raise
    | Text t =>
        let responseText := JS.orStr t "{}" in
        match parseJSON responseText with
        | Some aiResponse =>
            match action aiResponse, ai_budget aiResponse, ai_tools aiResponse with
            | Some act, Some b, Some ids =>
                if (String.eqb act "show_tools" && negb (String.eqb b EmptyString))%bool
                then Ret {| chat_success := true; chat_type := "show_tools";
                            chat_budget := Some b; toolIds := Some ids;
                            chat_response :=
                              JS.orOpt (ai_message aiResponse)
                                       "🔍 Here are the best tools for you!" |}
                else Ret (chatOnly (JS.orOpt (ai_message aiResponse)
                            "I'm here to help you find the perfect AI tool! What would you like to create or build?"))
            | _, _, _ =>
                Ret (chatOnly (JS.orOpt (ai_message aiResponse)
                       "I'm here to help you find the perfect AI tool! What would you like to create or build?"))
            end
        | None => Ret (chatOnly responseText)
        end
    end).

End Engine.

End AIFirstChat.

(** ** The discovery pipeline ([services/scraper.js]) *)

Module ToolScraper.

(** The hints extracted from a page, or a directory listing entry. *)
Record ToolData := {
  td_name : option string;
  td_title : option string;
  td_description : option string;
  td_url : option string;
  td_headline : string;
  td_subheadlines : list string;
  td_pricingHints : string;
  td_rawSnippet : string
}.

(** What [analyzeToolUrl] extracts from a fetched page. *)
Record Page := {
  pg_title : string;
  pg_description : string;
  pg_headline : string;
  pg_subheadlines : list string;
  pg_pricingHints : string;
  pg_rawSnippet : string
}.

(** The structured entry a classification produces. *)
Record Entry := {
  isAITool : bool;
  e_id : string;
  e_name : string;
  e_bestFor : string;
  e_category : string;
  e_deploy : option Deploy;
  e_limits : option string;
  e_pricing : Pricing;
  e_whySuitsYou : option string;
  e_ease : option Z;
  e_url : string;
  e_acceptsPrompt : bool;
  e_promptHint : option string
}.

(** What one call of the classification capability yields: a thrown
    error (also when its output does not parse) or the parsed object. *)
Inductive Classification :=
| ClassifyThrows
| Classified (e : Entry).

(** Everything outside the process that one discovery call observes. *)
Record World := {
  fetched : option Page;          (* [None]: the page could not be fetched *)
  groq : option Classification;   (* [None]: no API key configured *)
  toolsWritable : bool;           (* whether writing tools.json succeeds *)
  logWritable : bool;             (* whether writing discovered.json succeeds *)
  now : string                    (* [new Date().toISOString()] *)
}.

Record DiscoveryRecord := {
  dr_id : string;
  dr_name : string;
  dr_category : string;
  dr_discoveredAt : string;
  dr_url : string
}.

Record Discovered := {
  d_tools : list DiscoveryRecord;
  lastScrape : option string;
  totalDiscovered : Z
}.

(** The two persisted documents. *)
Record Files := {
  toolsFile : Catalog;
  discoveredFile : Discovered
}.

Record Result := {
  success : bool;
  error : option string;
  res_tool : option Entry;
  res_name : option string
}.

Definition failure (msg : string) (name : option string) : Result :=
  {| success := false; error := Some msg; res_tool := None; res_name := name |}.

Definition getExistingToolIds (fs : Files) : gset string :=
  fold_left (fun ids category =>
               fold_left (fun ids tool =>
                            {[ JS.toLowerCase (tool_name tool) ]} ∪ ({[ tool_id tool ]} ∪ ids))
                         (tools (snd category)) ids)
            (categories (toolsFile fs)) ∅.

Definition analyzeToolUrl (w : World) (url : string) : option ToolData :=
  match fetched w with
  | Some p =>
      Some {| td_name := None;
              td_title := Some (pg_title p);
              td_description := Some (pg_description p);
              td_url := Some url;
              td_headline := pg_headline p;
              td_subheadlines := pg_subheadlines p;
              td_pricingHints := pg_pricingHints p;
              td_rawSnippet := pg_rawSnippet p |}
  | None => None
  end.

Definition categoryKeywords : list (string * list string) :=
  [ ("app_building", ["app"; "website"; "build"; "deploy"; "full-stack"; "no-code"]);
    ("image_generation", ["image"; "picture"; "generate"; "art"; "illustration"]);
    ("image_editing", ["edit"; "photo"; "retouch"; "background"; "enhance"]);
    ("video_creation", ["video"; "animation"; "clip"; "movie"; "reel"]);
    ("coding_assistance", ["code"; "programming"; "developer"; "ide"; "debug"]);
    ("writing", ["write"; "content"; "blog"; "article"; "copy"]);
    ("design", ["design"; "graphic"; "logo"; "ui"; "template"]);
    ("presentation", ["presentation"; "slide"; "deck"; "pitch"]);
    ("audio", ["audio"; "music"; "voice"; "sound"; "speech"]) ].

(** [.replace(/[^a-z0-9]/g, '_')] *)
Fixpoint underscoreOthers (s : string) : string :=
  match s with
  | EmptyString => EmptyString
  | String c r =>
      let n := nat_of_ascii c in
      String (if ((Nat.leb 97 n && Nat.leb n 122) || (Nat.leb 48 n && Nat.leb n 57))%bool
              then c else "_"%char)
             (underscoreOthers r)
  end.

(** [.replace(/_+/g, '_')] *)
Fixpoint squeezeUnderscores (s : string) : string :=
  match s with
  | EmptyString => EmptyString
  | String c r =>
      if (Ascii.eqb c "_"%char && JS.startsWith "_" r)%bool
      then squeezeUnderscores r
      else String c (squeezeUnderscores r)
  end.

Section Scraper.

(** [JSON.stringify] on the extracted hints. *)
Variable stringify : ToolData -> string.

Definition basicCategorize (toolData : ToolData) : Entry :=
  let text := JS.toLowerCase (stringify toolData) in
  let '(bestCategory, _) :=
    fold_left (fun (best : string * Z) (ck : string * list string) =>
                 let score :=
                   fold_left (fun score keyword =>
                                if JS.includes text keyword then score + 1 else score)
                             (snd ck) 0 in
                 if snd best <? score then (fst ck, score) else best)
              categoryKeywords ("coding_assistance", 0) in
  {| isAITool := true;
     e_id := squeezeUnderscores
               (underscoreOthers (JS.toLowerCase (JS.orOpt (td_name toolData) "unknown")));
     e_name := JS.orOpt (td_name toolData) (JS.orOpt (td_title toolData) "Unknown Tool");
     e_bestFor := JS.orOpt (td_description toolData) "AI tool";
     e_category := bestCategory;
     e_deploy := Some {| available := false; deploy_type := "N/A"; note := "Check website" |};
     e_limits := Some "Check website for free tier details";
     e_pricing := {| free := true; premium := None |};
     e_whySuitsYou :=
       Some (JS.orOpt (td_description toolData) "An AI tool that might help with your project");
     e_ease := Some 3;
     e_url := JS.orOpt (td_url toolData) "#";
     e_acceptsPrompt := false;
     e_promptHint := None |}.

(** [categorizeWithAI]: [None] is the [null] returned for a candidate
    the classifier rejects. *)
Definition categorizeWithAI (w : World) (toolData : ToolData) : option Entry :=
  match groq w with
  | None => Some (basicCategorize toolData)
  | Some ClassifyThrows => Some (basicCategorize toolData)
  | Some (Classified result) => if negb (isAITool result) then None else Some result
  end.

Definition toolEntry (tool : Entry) : Tool :=
  {| tool_id := e_id tool;
     tool_name := e_name tool;
     bestFor := e_bestFor tool;
     deploy := e_deploy tool;
     limits := e_limits tool;
     pricing := e_pricing tool;
     whySuitsYou := e_whySuitsYou tool;
     ease := e_ease tool;
     url := e_url tool;
     acceptsPrompt := e_acceptsPrompt tool;
     promptHint :=
       if e_acceptsPrompt tool
       then Some (JS.orOpt (e_promptHint tool) "Describe what you want to create")
       else None |}.

(** [data.categories[key].tools.push(entry)] *)
Fixpoint pushTool (cats : list (string * Category)) (key : string) (entry : Tool)
  : list (string * Category) :=
  match cats with
  | [] => []
  | (k, c) :: r =>
      if String.eqb k key
      then (k, {| cat_name := cat_name c; cat_icon := cat_icon c;
                  keywords := keywords c; tools := tools c ++ [entry] |}) :: r
      else (k, c) :: pushTool r key entry
  end.

(** [Object.values(data.categories).reduce((sum, cat) => sum + cat.tools.length, 0)] *)
Definition countTools (cats : list (string * Category)) : Z :=
  fold_left (fun sum kc => sum + Z.of_nat (List.length (tools (snd kc)))) cats 0.

Definition addToolToDatabase (w : World) (tool : Entry) (fs : Files) : bool * Files :=
  let data := toolsFile fs in
  match lookupCategory (categories data) (e_category tool) with
  | None => (false, fs)
  | Some cat =>
      match find (fun t => String.eqb (tool_id t) (e_id tool)) (tools cat) with
      | Some _ => (false, fs)
      | None =>
          let cats := pushTool (categories data) (e_category tool) (toolEntry tool) in
          let data' :=
            {| categories := cats;
               metadata := {| totalTools := countTools cats;
                              lastUpdated := JS.beforeChar "T"%char (now w) |} |} in
          if toolsWritable w
          then (true, {| toolsFile := data'; discoveredFile := discoveredFile fs |})
          else (false, fs)
      end
  end.

Definition logDiscovery (w : World) (tool : Entry) (fs : Files) : Files :=
  let discovered := discoveredFile fs in
  let records :=
    (d_tools discovered
     ++ [{| dr_id := e_id tool; dr_name := e_name tool; dr_category := e_category tool;
            dr_discoveredAt := now w; dr_url := e_url tool |}])%list in
  if logWritable w
  then {| toolsFile := toolsFile fs;
          discoveredFile := {| d_tools := records;
                               lastScrape := Some (now w);
                               totalDiscovered := Z.of_nat (List.length records) |} |}
  else fs.

Definition discoverToolByUrl (w : World) (url : string) (fs : Files) : Result * Files :=
  let existingIds := getExistingToolIds fs in
  match analyzeToolUrl w url with
  | None => (failure "Could not access the website" None, fs)
  | Some rawData =>
      let toolName :=
        JS.trim (JS.firstSegment (JS.toLowerCase (JS.orOpt (td_title rawData) EmptyString))) in
      if bool_decide (toolName ∈ existingIds)
      then (failure "Tool already exists in database" (Some toolName), fs)
      else
        match categorizeWithAI w rawData with
        | None => (failure "Not identified as an AI tool" None, fs)
        | Some categorized =>
            let '(added, fs1) := addToolToDatabase w categorized fs in
            if added
            then ({| success := true; error := None;
                     res_tool := Some categorized; res_name := None |},
                  logDiscovery w categorized fs1)
            else (failure "Failed to add to database" None, fs1)
        end
  end.

End Scraper.

End ToolScraper.

(** ** The later chat strategies ([getSmartResponse], [getSmartFallback])

    The second provider and the rule-based responder that [handleChat]
    falls back to; they are the same in both revisions of the engine.  A
    call of the second provider, which takes one prompt text, is a
    [Complete] node with that text as its only message. *)

Module ChatFallback.

Import ConversationPolicy.

Definition question (text : string) : Response :=
  {| success := true; type := "question"; budget := None; originalQuery := None;
     response := Some text |}.

Definition toolRequest (text : string) : Response :=
  {| success := true; type := "tool_request"; budget := None; originalQuery := None;
     response := Some text |}.

(** [/^a|^b|.../.test(s)] *)
Definition startsWithAny (alts : list string) (s : string) : bool :=
  existsb (fun p => JS.startsWith p s) alts.

(** [/a|b|.../.test(s)] *)
Definition includesAny (alts : list string) (s : string) : bool :=
  existsb (JS.includes s) alts.

Definition followUpStarts : list string := ["is it"; "is that"; "does it"; "can it"].

(** The [info] texts of [toolInfo], by key. *)
Definition toolInfo : list (string * string) :=
  [ ("canva",
     "Yes! Canva has a generous free tier with tons of features. The Pro version adds more templates and features for $12.99/month.");
    ("midjourney",
     "No, Midjourney is paid only. Plans start at $10/month for the Basic tier.");
    ("chatgpt",
     "Yes! ChatGPT has a free tier. GPT-4 access requires ChatGPT Plus at $20/month.");
    ("figma",
     "Yes! Figma has a free tier for up to 3 projects. Professional plans start at $12/month.");
    ("bolt",
     "Bolt has a free tier for basic usage. Premium features require a subscription.");
    ("lovable",
     "Lovable offers some free features. Full access requires a subscription.");
    ("runway",
     "Runway has a limited free tier. Pro features need a subscription starting at $15/month.") ].

(** [hii+] needs at least one more [i] after [hi]. *)
Definition greetingStarts : list string :=
  ["hi"; "hello"; "hey"; "hii"; "hola"; "yo"; "greetings"; "sup"; "what's up"].

Definition smallTalk : list string :=
  ["how are you"; "how's it going"; "what's new"; "how do you do"].

Definition thanksWords : list string := ["thank"; "thanks"; "thx"; "appreciate"].

Definition identityQuestions : list string :=
  ["who are you"; "what are you"; "what can you do"; "how do you work"; "what is decy"].

Definition toolAnswers : list (string * string) :=
  [ ("canva",
     "Canva is an awesome design platform! 🎨 You can create graphics, presentations, social media posts, and more. It has a generous free tier, and Pro is $12.99/month. Would you like me to recommend similar tools?");
    ("midjourney",
     "Midjourney is one of the best AI image generators! 🖼️ It creates stunning, artistic images from text prompts. It's paid-only, starting at $10/month. Want me to suggest free alternatives?");
    ("chatgpt",
     "ChatGPT is OpenAI's conversational AI (like me but different 😄). The free version uses GPT-3.5, while Plus ($20/month) gets you GPT-4. What do you want to use it for?");
    ("figma",
     "Figma is a powerful design and prototyping tool! 🎯 Great for UI/UX design, wireframes, and collaboration. Has a free tier for up to 3 projects. Are you into design?");
    ("bolt",
     "Bolt is an AI app builder that helps you create apps quickly! ⚡ It writes code for you based on your descriptions. Has some free features. Want to build an app?");
    ("runway",
     "Runway is amazing for AI video editing and generation! 🎬 It can remove backgrounds, generate videos from text, and more. Limited free tier available. Interested in video creation?") ].

Definition requestPhrases : list string :=
  ["i want to"; "i need to"; "help me"; "looking for"; "recommend"].

Definition topicWords : list string :=
  ["app"; "website"; "code"; "program"; "software"; "video"; "image"; "photo"; "design";
   "logo"; "presentation"; "slide"; "music"; "audio"; "voice"; "write"; "blog"; "article"].

Definition budgetQuestionText : string :=
  "Nice! I can help with that 🚀 Would you prefer free tools or are you open to premium options?".

Definition getSmartFallback (message : string) (history : list Message) : Response :=
  let msg := JS.trim (JS.toLowerCase message) in
  let lastAssistantMsg := JS.lastWhere isAssistant history in
  let lastUserMsg := JS.lastWhere isUser history in
  let lowerContent := fun (m : option Message) =>
    match m with
    | Some x => JS.toLowerCase (content x)
    | None => EmptyString
    end in
  let followUp :=
    if startsWithAny followUpStarts msg
    then
      let context :=
        JS.orStr (lowerContent lastAssistantMsg) (JS.orStr (lowerContent lastUserMsg) EmptyString) in
      match find (fun ki => JS.includes context (fst ki)) toolInfo with
      | Some ki => Some (question (snd ki))
      | None => None
      end
    else None in
  match followUp with
  | Some r => r
  | None =>
      if startsWithAny greetingStarts msg
      then question "Hey there! 👋 I'm DECY, an AI assistant that knows 50+ AI tools inside-out. What are you working on today?"
      else if includesAny smallTalk msg
      then question "I'm doing great, thanks for asking! 😊 Ready to help you find the perfect AI tools. What's on your mind?"
      else if includesAny thanksWords msg
      then question "You're welcome! 😊 Anything else you'd like to know about AI tools?"
      else if includesAny identityQuestions msg
      then question "I'm DECY! 🤖 Think of me as your AI-savvy friend who knows 50+ tools like Canva, Midjourney, Bolt, Runway, and more. I can help you find the right tool for any project - just tell me what you're building!"
      else
        match find (fun ta => JS.includes msg (fst ta)) toolAnswers with
        | Some ta => question (snd ta)
        | None =>
            if (includesAny requestPhrases msg && includesAny topicWords msg)%bool
            then toolRequest budgetQuestionText
            else question "I'm here to chat and help! 😊 I know a ton about AI tools - from image generators to app builders. What's on your mind?"
        end
  end.

Definition newline : string := String (ascii_of_nat 10) EmptyString.

Section Gemini.

(** The system prompt of the second provider. *)
Variable systemPrompt : string.

Definition conversationHistory (history : list Message) : string :=
  if Nat.eqb (List.length history) 0 then EmptyString
  else newline ++ newline ++ "[Previous conversation]" ++ newline
       ++ JS.join newline
            (map (fun msg => (if isUser msg then "Human" else "DECY") ++ ": " ++ content msg)
                 (JS.sliceLast 8 history))
       ++ newline ++ "[End of previous conversation]" ++ newline.

Definition getSmartResponse (message : string) (history : list Message) : Prog Response :=
  let prompt :=
    systemPrompt ++ conversationHistory history ++ newline ++ "Human: " ++ message
    ++ newline ++ "DECY:" in
  Complete [{| role := "user"; content := prompt |}] (fun reply =>
    match reply with
    | Threw => Ret (getSmartFallback message history)
    | Text t =>
        let text := JS.trim t in
        let lower := JS.toLowerCase text in
        let isToolRequest :=
          (JS.includes lower "free" && JS.includes lower "premium"
           && JS.includes lower "prefer")%bool in
        Ret (if isToolRequest then toolRequest text else question text)
    end).

(** What [handleChat] does after the first provider: the second provider
    when [genAI] is configured, then the rule-based responder. *)
Definition afterGroq (genAI : bool) (message : string) (history : list Message)
  : Prog Response :=
  if genAI
  then tryCatch (getSmartResponse message history) (Ret (getSmartFallback message history))
  else Ret (getSmartFallback message history).

End Gemini.

End ChatFallback.

(** ** The chat handler of [services/recommendation.js]

    [handleChat] is the same chain of strategies in both revisions; in
    [services/recommendation.js] its first strategy is the
    [getGroqResponse] of that file ([AIFirstChat.getGroqResponse]).  What
    it returns is the object of whichever strategy answered. *)

Module ServiceChat.

Import ConversationPolicy.

Inductive Answer :=
| FromGroq (r : AIFirstChat.ChatResponse)
| FromLater (r : Response).

(** The [type] field of the answer. *)
Definition answerType (a : Answer) : string :=
  match a with
  | FromGroq r => AIFirstChat.chat_type r
  | FromLater r => type r
  end.

Fixpoint mapProg {A B} (f : A -> B) (p : Prog A) : Prog B :=
  match p with
  | Ret r => Ret (f r)
  | Raise => Raise
  | Complete m k => Complete m (fun x => mapProg f (k x))
  end.

Section Engine.

Variables systemPrompt geminiPrompt : string.
Variable parseJSON : string -> option AIFirstChat.AIResponse.

(** Whether the first and the second provider are configured. *)
Variables groq genAI : bool.

Definition handleChat (message : string) (history : list Message) : Prog Answer :=
  let later :=
    mapProg FromLater (ChatFallback.afterGroq geminiPrompt genAI message history) in
  if groq
  then tryCatch (mapProg FromGroq
                   (AIFirstChat.getGroqResponse systemPrompt parseJSON message history))
                later
  else later.

End Engine.

End ServiceChat.

(** ** Discovery by name and the statistics ([services/scraper.js]) *)

Module ToolScraperByName.

Import ToolScraper.

(** [.replace(/\s+/g, '')] *)
Fixpoint removeSpaces (s : string) : string :=
  match s with
  | EmptyString => EmptyString
  | String c r => if JS.isSpace c then removeSpaces r else String c (removeSpaces r)
  end.

Definition possibleUrls (toolName : string) : list string :=
  let host := removeSpaces (JS.toLowerCase toolName) in
  [ "https://" ++ host ++ ".com"; "https://" ++ host ++ ".ai";
    "https://" ++ host ++ ".io"; "https://www." ++ host ++ ".com" ].

Record Stats := {
  st_totalTools : Z;
  st_categories : Z;
  st_lastUpdated : string;
  st_totalDiscovered : Z;
  st_lastScrape : option string
}.

Definition getStats (fs : Files) : Stats :=
  {| st_totalTools := totalTools (metadata (toolsFile fs));
     st_categories := Z.of_nat (List.length (categories (toolsFile fs)));
     st_lastUpdated := lastUpdated (metadata (toolsFile fs));
     st_totalDiscovered := totalDiscovered (discoveredFile fs);
     st_lastScrape := lastScrape (discoveredFile fs) |}.

(** [getExistingCategories] *)
Definition getExistingCategories (fs : Files) : list (string * string) :=
  map (fun kc => (fst kc, cat_name (snd kc))) (categories (toolsFile fs)).

Section ByName.

Variable stringify : ToolData -> string.

(** What the process observes when it discovers a given URL. *)
Variable worlds : string -> World.

(** The loop over the candidate URLs. *)
Fixpoint tryUrls (toolName : string) (urls : list string) (fs : Files) : Result * Files :=
  match urls with
  | [] => (failure ("Could not find " ++ JS.dquote ++ toolName ++ JS.dquote ++ " online") None, fs)
  | url :: rest =>
      let '(result, fs1) := discoverToolByUrl stringify (worlds url) url fs in
      if success result then (result, fs1) else tryUrls toolName rest fs1
  end.

Definition discoverToolByName (toolName : string) (fs : Files) : Result * Files :=
  let existingIds := getExistingToolIds fs in
  if bool_decide (JS.toLowerCase toolName ∈ existingIds)
  then (failure "Tool already exists in database" (Some toolName), fs)
  else tryUrls toolName (possibleUrls toolName) fs.

End ByName.

End ToolScraperByName.

(** ** Follow-up suggestions ([getFollowUpSuggestions] of
       [services/intelligence.js]) *)

Module FollowUps.

Import DecyIntelligence.

Record Suggestion := { sug_text : string; sug_message : string }.

Section Suggestions.

Variable db : Catalog.

(** [this.allToolsFlat.find(t => t.id === id)] *)
Definition findFlat (i : string) : option FlatTool :=
  find (fun t => String.eqb (tool_id (base t)) i) (allToolsFlat db).

Definition howToUse (t : FlatTool) : Suggestion :=
  {| sug_text := "📋 How to use " ++ tool_name (base t);
     sug_message := "How to use " ++ tool_name (base t) |}.

Definition getFollowUpSuggestions (category : string) (toolIds : list string)
    (userQuery : string) : list Suggestion :=
  let topTool :=
    match toolIds with
    | i :: _ => findFlat i
    | [] => None
    end in
  let s1 :=
    match topTool with
    | Some t => [howToUse t]
    | None => []
    end in
  let s2 :=
    if String.eqb userQuery EmptyString then s1
    else (s1 ++ [{| sug_text := "🚀 Full workflow for this";
                    sug_message := "Give me a complete step-by-step workflow to "
                                   ++ userQuery |}])%list in
  let s3 :=
    match topTool with
    | Some t =>
        if acceptsPrompt (base t)
        then (s2 ++ [{| sug_text := "✨ Get a prompt for " ++ tool_name (base t);
                        sug_message := "Give me a ready-to-use prompt for "
                                       ++ tool_name (base t) ++ " to "
                                       ++ JS.orStr userQuery "get started" |}])%list
        else s2
    | None => s2
    end in
  let s4 :=
    match toolIds with
    | i :: j :: _ =>
        match findFlat i, findFlat j with
        | Some tool1, Some tool2 =>
            if (List.length s3 <? 3)%nat
            then (s3 ++ [{| sug_text := "⚖️ Compare " ++ tool_name (base tool1) ++ " vs "
                                        ++ tool_name (base tool2);
                            sug_message := "Compare " ++ tool_name (base tool1) ++ " vs "
                                           ++ tool_name (base tool2)
                                           ++ " - which is better for me?" |}])%list
            else s3
        | _, _ => s3
        end
    | _ => s3
    end in
  JS.slice0 3 s4.

End Suggestions.

End FollowUps.

(** * Notions used to state the properties *)

(** [x] is the first element of [l] whose key is maximal. *)
Definition firstMax {A} (key : A -> Z) (x : A) (l : list A) : Prop :=
  exists pre post, l = (pre ++ x :: post)%list
    /\ Forall (fun y => key y < key x) pre
    /\ Forall (fun y => key y <= key x) post.

(** A list of recommended tools leaves the catalog tool [t] out. *)
Definition excludes (t : Tool) (l : list RecommendationEngine.RecTool) : Prop :=
  forall r, In r l -> RecommendationEngine.base r <> t.

(** Every recommended tool has a free tier. *)
Definition freeOnly (l : list RecommendationEngine.RecTool) : Prop :=
  forall r, In r l -> free (pricing (RecommendationEngine.base r)) = true.

(** The ids of all tools of a catalog, with repetitions. *)
Definition catalogIds (c : Catalog) : list string := map tool_id (allTools c).

(** The sum of the sizes of the category buckets. *)
Definition sumOfBuckets (c : Catalog) : Z :=
  fold_right Z.add 0 (map (fun kc => Z.of_nat (List.length (tools (snd kc)))) (categories c)).

(** ** A small catalog and a page, for concrete runs *)

Definition mkTool (i n b : string) (isFree : bool) (e : Z) : Tool :=
  {| tool_id := i; tool_name := n; bestFor := b; deploy := None; limits := None;
     pricing := {| free := isFree; premium := if isFree then None else Some "$10/month" |};
     whySuitsYou := None; ease := Some e; url := "https://example.com/" ++ i;
     acceptsPrompt := false; promptHint := None |}.

Definition lovable : Tool := mkTool "lovable" "Lovable" "full-stack web apps" true 5.
Definition bolt : Tool := mkTool "bolt" "Bolt" "apps in the browser" true 4.
Definition looka : Tool := mkTool "looka" "Looka" "logo creation" false 5.
Definition canva_design : Tool := mkTool "canva_design" "Canva" "templates" true 5.
Definition figma : Tool := mkTool "figma" "Figma" "interface layouts" true 3.
Definition chatgpt : Tool := mkTool "chatgpt" "ChatGPT" "general assistant" true 5.
Definition cursor : Tool := mkTool "cursor" "Cursor" "an editor with completions" false 4.

Definition demoCatalog : Catalog :=
  {| categories :=
       [ ("app_building",
          {| cat_name := "App Building"; cat_icon := "A";
             keywords := ["website"; "application"]; tools := [lovable; bolt] |});
         ("design",
          {| cat_name := "Design"; cat_icon := "D";
             keywords := ["design"; "graphic"]; tools := [looka; canva_design; figma] |});
         ("coding_assistance",
          {| cat_name := "Coding"; cat_icon := "C";
             keywords := ["code"; "programming"]; tools := [chatgpt; cursor] |}) ];
     metadata := {| totalTools := 7; lastUpdated := "2026-01-01" |} |}.

Definition demoFiles : ToolScraper.Files :=
  {| ToolScraper.toolsFile := demoCatalog;
     ToolScraper.discoveredFile :=
       {| ToolScraper.d_tools := []; ToolScraper.lastScrape := None;
          ToolScraper.totalDiscovered := 0 |} |}.

(** A serializer standing in for [JSON.stringify] in concrete runs: the
    title and the description, which is all the keyword count looks at. *)
Definition demoStringify (d : ToolScraper.ToolData) : string :=
  JS.orOpt (ToolScraper.td_title d) EmptyString ++ " "
  ++ JS.orOpt (ToolScraper.td_description d) EmptyString.

(** The name [discoverToolByUrl] derives from a page title for its
    duplicate check. *)
Definition pageToolName (p : ToolScraper.Page) : string :=
  JS.trim (JS.firstSegment (JS.toLowerCase (JS.orStr (ToolScraper.pg_title p) EmptyString))).

Definition mkEntry (i n c : string) (ai : bool) : ToolScraper.Entry :=
  {| ToolScraper.isAITool := ai; ToolScraper.e_id := i; ToolScraper.e_name := n;
     ToolScraper.e_bestFor := "writing help"; ToolScraper.e_category := c;
     ToolScraper.e_deploy := None; ToolScraper.e_limits := None;
     ToolScraper.e_pricing := {| free := true; premium := None |};
     ToolScraper.e_whySuitsYou := None; ToolScraper.e_ease := Some 4;
     ToolScraper.e_url := "https://example.com"; ToolScraper.e_acceptsPrompt := false;
     ToolScraper.e_promptHint := None |}.

Definition mkPage (title : string) : ToolScraper.Page :=
  {| ToolScraper.pg_title := title; ToolScraper.pg_description := "An assistant";
     ToolScraper.pg_headline := title; ToolScraper.pg_subheadlines := [];
     ToolScraper.pg_pricingHints := "free plan"; ToolScraper.pg_rawSnippet := title |}.

Definition mkWorld (title : string) (c : option ToolScraper.Classification) : ToolScraper.World :=
  {| ToolScraper.fetched := Some (mkPage title); ToolScraper.groq := c;
     ToolScraper.toolsWritable := true; ToolScraper.logWritable := true;
     ToolScraper.now := "2026-03-04T10:00:00.000Z" |}.

(** A page about a writing extension that the classifier files under
    [design] with the id of an existing coding tool. *)
Definition writerWorld : ToolScraper.World :=
  mkWorld "ChatGPT Writer - write faster"
          (Some (ToolScraper.Classified (mkEntry "chatgpt" "ChatGPT Writer" "design" true))).

(** A page whose title does not start with the product name. *)
Definition welcomeWorld : ToolScraper.World :=
  mkWorld "Welcome to Foo | Home"
          (Some (ToolScraper.Classified (mkEntry "foo" "Foo" "design" true))).

(** A page the classifier rejects. *)
Definition blogWorld : ToolScraper.World :=
  mkWorld "A cooking blog"
          (Some (ToolScraper.Classified (mkEntry "blog" "Blog" "writing" false))).

(** The most recent assistant turn asked the budget question: its text
    mentions both words. *)
Definition asksBudget (m : ConversationPolicy.Message) : bool :=
  (JS.includes (JS.toLowerCase (ConversationPolicy.content m)) "free"
   && JS.includes (JS.toLowerCase (ConversationPolicy.content m)) "premium")%bool.

Definition userSays (t : string) : ConversationPolicy.Message :=
  {| ConversationPolicy.role := "user"; ConversationPolicy.content := t |}.
Definition assistantSays (t : string) : ConversationPolicy.Message :=
  {| ConversationPolicy.role := "assistant"; ConversationPolicy.content := t |}.

Definition budgetQuestion : ConversationPolicy.Message :=
  assistantSays "Would you prefer free tools or are you open to premium options?".

(** ** The matching algorithm as a composition of list functions

    The intent matcher without its loops and accumulators: scores by
    counting, the first maximum, the priority picks without repetition.
    [DecyIntelligence.analyzeIntent] is compared with it first. *)

Module IntentSpec.

Import DecyIntelligence.

(** How many elements satisfy [p]. *)
Definition count {A} (p : A -> bool) (l : list A) : Z :=
  Z.of_nat (List.length (List.filter p l)).

(** The first element of maximal score, if any. *)
Fixpoint firstArgmax {A} (score : A -> Z) (l : list A) : option A :=
  match l with
  | [] => None
  | x :: r =>
      match firstArgmax score r with
      | Some y => if score x <? score y then Some y else Some x
      | None => Some x
      end
  end.

(** 20 for each intent phrase that is a substring of the query, plus 5
    for each word of an intent phrase that is a whole word of the
    query. *)
Definition patternScoreSpec (query : string) (p : Pattern) : Z :=
  20 * count (JS.includes query) (intents p)
  + 5 * count (JS.arrayIncludes (JS.splitWs query))
              (flat_map JS.splitSpace (intents p)).

(** Keep the first tool of each id. *)
Fixpoint dedupIds (seen : list string) (l : list FlatTool) : list FlatTool :=
  match l with
  | [] => []
  | t :: r =>
      if existsb (String.eqb (tool_id (base t))) seen then dedupIds seen r
      else t :: dedupIds (tool_id (base t) :: seen) r
  end.

Section Spec.

Variable db : Catalog.

(** The priority ids resolved to tools, in order; an id that resolves
    to nothing is skipped. *)
Definition resolve (ids : list string) : list FlatTool :=
  flat_map (fun i =>
              match find (fun t => String.eqb (tool_id (base t)) i) (allToolsFlat db) with
              | Some t => [t]
              | None => []
              end) ids.

(** Priority tools, deduplicated, then same-category tools by
    descending ease until there are six. *)
Definition relevantToolsSpec (p : Pattern) : list FlatTool :=
  let picks := dedupIds [] (resolve (priority p)) in
  let filler :=
    JS.sortDesc (fun t => easeOr3 (base t))
      (List.filter (fun t => (String.eqb (categoryKey t) (category p)
                              && negb (existsb (String.eqb (tool_id (base t)))
                                               (map (fun u => tool_id (base u)) picks)))%bool)
                   (allToolsFlat db)) in
  (picks ++ firstn (6 - List.length picks) filler)%list.

(** 5 for each query word of length at least 3 found in the searchable
    text, 15 for each such word found in the name. *)
Definition toolScoreSpec (query : string) (t : FlatTool) : Z :=
  let words := List.filter (fun w => (3 <=? String.length w)%nat) (JS.splitWs query) in
  5 * count (JS.includes (searchText t)) words
  + 15 * count (JS.includes (JS.toLowerCase (tool_name (base t)))) words.

(** The six best-scoring tools among those that score above 0. *)
Definition keywordSearchSpec (query : string) : list FlatTool :=
  firstn 6
    (JS.sortDesc scoreOf
       (map (fun t => withScore t (toolScoreSpec query t))
            (List.filter (fun t => 0 <? toolScoreSpec query t) (allToolsFlat db)))).

Definition analyzeIntentSpec (userMessage : string) : Intent :=
  let query := JS.trim (JS.toLowerCase userMessage) in
  let byKeywords :=
    match keywordSearchSpec query with
    | [] =>
        {| matched := false; isGuidance := false; int_category := None; int_tool := None;
           int_context := "Could not determine specific tool needs from the message.";
           confidence := 0; int_tools := [] |}
    | found =>
        {| matched := true; isGuidance := false; int_category := Some "mixed";
           int_tool := None;
           int_context := "The user is looking for: " ++ JS.dquote ++ query ++ JS.dquote
                          ++ ". Found tools by keyword match.";
           confidence := 3 # 10; int_tools := found |}
    end in
  match firstArgmax (patternScoreSpec query) buildIntentMap with
  | Some best =>
      if 5 <=? patternScoreSpec query best
      then {| matched := true; isGuidance := false;
              int_category := Some (category best); int_tool := None;
              int_context := context best;
              confidence := Qmin (Qmake (patternScoreSpec query best) 20) 1;
              int_tools := relevantToolsSpec best |}
      else byKeywords
  | None => byKeywords
  end.

End Spec.

End IntentSpec.

(** ** The matching algorithm in words

    The algorithm of section 4.1, steps 2 and 3, written from the prose
    with notions of its own: what whitespace is, how a query falls into
    words, how a phrase falls into words, what the ease of a tool is and
    how a score is attached to a tool.  The prose leaves two things open,
    which a [Reading] fixes: when a phrase word appears as a whole word in
    the query, and which query words earn the bonus for the tool name. *)

Module IntentWords.

Import DecyIntelligence IntentSpec.

(** Tab, line feed, vertical tab, form feed, carriage return, space. *)
Definition whitespace (c : ascii) : bool :=
  existsb (Nat.eqb (nat_of_ascii c)) [9; 10; 11; 12; 13; 32]%nat.

(** The pieces of [s] between maximal runs of whitespace, read from left
    to right; [cur] is the piece being read. *)
Fixpoint piecesFrom (cur s : string) : list string :=
  match s with
  | EmptyString => [cur]
  | String c r =>
      if whitespace c
      then match r with
           | String d _ => if whitespace d then piecesFrom cur r
                           else cur :: piecesFrom EmptyString r
           | EmptyString => cur :: piecesFrom EmptyString r
           end
      else piecesFrom (cur ++ String c EmptyString) r
  end.

Definition pieces (s : string) : list string := piecesFrom EmptyString s.

(** [cur] put in front of the first of the pieces [l]. *)
Definition prepend (cur : string) (l : list string) : list string :=
  match l with
  | [] => [cur]
  | w :: ws => (cur ++ w) :: ws
  end.

(** The words of a phrase: its pieces between single spaces. *)
Fixpoint wordsFrom (cur s : string) : list string :=
  match s with
  | EmptyString => [cur]
  | String c r =>
      if Ascii.eqb c " "%char then cur :: wordsFrom EmptyString r
      else wordsFrom (cur ++ String c EmptyString) r
  end.

Definition phraseWords (s : string) : list string := wordsFrom EmptyString s.

(** The ease of a tool; a tool without one, or with ease 0, counts as 3. *)
Definition easeOf (t : Tool) : Z :=
  match ease t with
  | None | Some 0 => 3
  | Some e => e
  end.

(** The tool with its score attached. *)
Definition scored (t : FlatTool) (score : Z) : FlatTool :=
  {| base := base t; categoryKey := categoryKey t; categoryName := categoryName t;
     categoryKeywords := categoryKeywords t; searchText := searchText t;
     matchScore := Some score |}.

Record Reading := {
  wholeWord : string -> string -> bool;   (* the query, the phrase word *)
  nameBonus : string -> bool              (* the query word *)
}.

(** The reading of the code: a whole word of the query is one of its
    pieces between whitespace, and only query words of length 3 or more
    earn the name bonus. *)
Definition asCoded : Reading :=
  {| wholeWord := fun query w => existsb (String.eqb w) (pieces query);
     nameBonus := fun w => (3 <=? String.length w)%nat |}.

(** The reading of the claim's words: a whole word is an occurrence
    between word boundaries, and every query word earns the name bonus,
    the length bound being stated for the searchable text only. *)
Definition asWorded : Reading :=
  {| wholeWord := fun query w =>
       (negb (String.eqb w EmptyString) && JS.boundedFrom false [w] query)%bool;
     nameBonus := fun w => negb (String.eqb w EmptyString) |}.

Section Algorithm.

Variable db : Catalog.
Variable rd : Reading.

(** 20 for each intent phrase that is a substring of the query, plus 5
    for each word of an intent phrase that is a whole word of the
    query. *)
Definition patternScore (query : string) (p : Pattern) : Z :=
  20 * count (JS.includes query) (intents p)
  + 5 * count (wholeWord rd query) (flat_map phraseWords (intents p)).

(** The priority ids resolved in order, each tool once, then the other
    tools of the category by descending ease until there are six. *)
Definition relevantTools (p : Pattern) : list FlatTool :=
  let picks := dedupIds [] (resolve db (priority p)) in
  let others :=
    List.filter (fun t => (String.eqb (categoryKey t) (category p)
                           && negb (existsb (String.eqb (tool_id (base t)))
                                            (map (fun u => tool_id (base u)) picks)))%bool)
                (allToolsFlat db) in
  (picks ++ firstn (6 - List.length picks)
                   (JS.sortDesc (fun t => easeOf (base t)) others))%list.

(** 5 for each query word of length 3 or more found in the searchable
    text, 15 for each query word with the name bonus found in the
    lowercased name. *)
Definition toolScore (query : string) (t : FlatTool) : Z :=
  5 * count (JS.includes (searchText t))
            (List.filter (fun w => (3 <=? String.length w)%nat) (pieces query))
  + 15 * count (JS.includes (JS.toLowerCase (tool_name (base t))))
               (List.filter (nameBonus rd) (pieces query)).

(** The six best among the tools that score above 0, each with its
    score. *)
Definition keywordSearch (query : string) : list FlatTool :=
  map (fun ts => scored (fst ts) (snd ts))
      (firstn 6
         (JS.sortDesc snd
            (List.filter (fun ts : FlatTool * Z => 0 <? snd ts)
                         (map (fun t => (t, toolScore query t)) (allToolsFlat db))))).

Definition analyzeIntentAs (userMessage : string) : Intent :=
  let query := JS.trim (JS.toLowerCase userMessage) in
  let byKeywords :=
    match keywordSearch query with
    | [] =>
        {| matched := false; isGuidance := false; int_category := None; int_tool := None;
           int_context := "Could not determine specific tool needs from the message.";
           confidence := 0; int_tools := [] |}
    | found =>
        {| matched := true; isGuidance := false; int_category := Some "mixed";
           int_tool := None;
           int_context := "The user is looking for: " ++ JS.dquote ++ query ++ JS.dquote
                          ++ ". Found tools by keyword match.";
           confidence := 3 # 10; int_tools := found |}
    end in
  match firstArgmax (patternScore query) buildIntentMap with
  | Some best =>
      if 5 <=? patternScore query best
      then {| matched := true; isGuidance := false;
              int_category := Some (category best); int_tool := None;
              int_context := context best;
              confidence := Qmin (Qmake (patternScore query best) 20) 1;
              int_tools := relevantTools best |}
      else byKeywords
  | None => byKeywords
  end.

End Algorithm.

End IntentWords.

(** ** The keyword fallback of the orchestrator, by counting *)

Module FallbackSpec.

Import IntentSpec.

(** A keyword and a query word, one of which contains the other. *)
Definition containment (kw : string * string) : bool :=
  (JS.includes (JS.toLowerCase (fst kw)) (snd kw)
   || JS.includes (snd kw) (JS.toLowerCase (fst kw)))%bool.

(** 10 per category keyword contained in the query, 3 per pair of a
    keyword and a query word one of which contains the other, 15 per tool
    whose name the query contains, 5 per tool whose description it
    contains. *)
Definition categoryScoreSpec (query : string) (c : Category) : Z :=
  10 * count (fun k => JS.includes query (JS.toLowerCase k)) (keywords c)
  + 3 * count containment (list_prod (keywords c) (JS.splitWs query))
  + 15 * count (fun t => JS.includes query (JS.toLowerCase (tool_name t))) (tools c)
  + 5 * count (fun t => JS.includes query (JS.toLowerCase (bestFor t))) (tools c).

(** What the specification asks of the fallback: the tools of the intent
    matcher, restricted to the budget, by descending ease, at most
    three. *)
Definition intentMatcherTools (db : Catalog) (userQuery budgetType : string) : list Tool :=
  firstn 3
    (JS.sortDesc easeOr3
       (List.filter (RecommendationEngine.budgetOk budgetType)
          (map DecyIntelligence.base
               (DecyIntelligence.int_tools (DecyIntelligence.analyzeIntent db userQuery))))).

End FallbackSpec.

Fixpoint endsWithSpace (s : string) : bool :=
  match s with
  | EmptyString => false
  | String c EmptyString => JS.isSpace c
  | String _ r => endsWithSpace r
  end.

(** A non-empty phrase without surrounding whitespace, as all phrases of
    the pattern table are. *)
Definition tightPhrase (p : string) : bool :=
  (negb (String.eqb p EmptyString) && negb (JS.headIsSpace p) && negb (endsWithSpace p))%bool.

(** ** Notions for the further properties *)

(** A recommended tool is a tool of the catalog under the name and icon of
    its category. *)
Definition fromCatalog (db : Catalog) (r : RecommendationEngine.RecTool) : Prop :=
  exists kc, In kc (categories db) /\ In (RecommendationEngine.base r) (tools (snd kc))
             /\ RecommendationEngine.category r = cat_name (snd kc)
             /\ RecommendationEngine.categoryIcon r = cat_icon (snd kc).

(** The property names every object inherits from [Object.prototype]. *)
Definition inheritedKeys : list string :=
  [ "constructor"; "hasOwnProperty"; "isPrototypeOf"; "propertyIsEnumerable";
    "toLocaleString"; "toString"; "valueOf"; "__proto__";
    "__defineGetter__"; "__defineSetter__"; "__lookupGetter__"; "__lookupSetter__" ].

(** The category a caller supplies indexes the catalog as [lookupCategory]
    says: it is absent, or a key of the catalog, or no inherited property
    name.  For an inherited name that is no key of the catalog,
    [categories[category]] is a truthy value without [tools], and
    [getToolsFromCategory] throws a [TypeError] instead of returning. *)
Definition ownOrPlain (db : Catalog) (category : option string) : bool :=
  match category with
  | None => true
  | Some key =>
      match lookupCategory (categories db) key with
      | Some _ => true
      | None => negb (JS.arrayIncludes inheritedKeys key)
      end
  end.

(** By non-increasing ease. *)
Definition easierFirst (x y : RecommendationEngine.RecTool) : Prop :=
  easeOr3 (RecommendationEngine.base y) <= easeOr3 (RecommendationEngine.base x).

(** The id of a tool of the flat index. *)
Definition flatId (t : DecyIntelligence.FlatTool) : string :=
  tool_id (DecyIntelligence.base t).

(** The three kinds of answer of the chat handler. *)
Definition chatTypes : list string := ["direct_recommendation"; "tool_request"; "question"].

(** An answer of the chat handler as its callers expect it: it reports
    success, its type is one of the three kinds, and a [tool_request]
    carries a text that mentions both budgets. *)
Definition wellFormed (r : ConversationPolicy.Response) : Prop :=
  ConversationPolicy.success r = true
  /\ In (ConversationPolicy.type r) chatTypes
  /\ (ConversationPolicy.type r = "tool_request" ->
      exists text, ConversationPolicy.response r = Some text
                   /\ asksBudget (assistantSays text) = true).

(** What the first provider is sent for one turn of the history. *)
Definition asSent (m : ConversationPolicy.Message) : ConversationPolicy.Message :=
  {| ConversationPolicy.role := if ConversationPolicy.isUser m then "user" else "assistant";
     ConversationPolicy.content := ConversationPolicy.content m |}.

(** The errors a discovery by URL reports. *)
Definition discoveryErrors : list string :=
  [ "Could not access the website"; "Tool already exists in database";
    "Not identified as an AI tool"; "Failed to add to database" ].

(** The ids of each category are pairwise distinct. *)
Definition distinctWithin (c : Catalog) : Prop :=
  Forall (fun kc : string * Category => NoDup (map tool_id (tools (snd kc)))) (categories c).

(** The record the discovery log gets for a committed entry. *)
Definition recordOf (w : ToolScraper.World) (e : ToolScraper.Entry)
  : ToolScraper.DiscoveryRecord :=
  {| ToolScraper.dr_id := ToolScraper.e_id e;
     ToolScraper.dr_name := ToolScraper.e_name e;
     ToolScraper.dr_category := ToolScraper.e_category e;
     ToolScraper.dr_discoveredAt := ToolScraper.now w;
     ToolScraper.dr_url := ToolScraper.e_url e |}.

(** The count of the discovery log is the number of its records. *)
Definition logCounted (fs : ToolScraper.Files) : Prop :=
  ToolScraper.totalDiscovered (ToolScraper.discoveredFile fs)
  = Z.of_nat (List.length (ToolScraper.d_tools (ToolScraper.discoveredFile fs))).

(** No classifier answers: no key is configured, or the call throws. *)
Definition noClassifier (w : ToolScraper.World) : bool :=
  match ToolScraper.groq w with
  | None | Some ToolScraper.ClassifyThrows => true
  | Some (ToolScraper.Classified _) => false
  end.

(** [/^[a-z0-9_]*$/] *)
Definition isIdChar (c : ascii) : bool :=
  let n := nat_of_ascii c in
  ((Nat.leb 97 n && Nat.leb n 122) || (Nat.leb 48 n && Nat.leb n 57) || Ascii.eqb c "_"%char)%bool.

Fixpoint allChars (p : ascii -> bool) (s : string) : bool :=
  match s with
  | EmptyString => true
  | String c r => (p c && allChars p r)%bool
  end.

(** What the first provider of [services/recommendation.js] is sent. *)
Definition sentToGroq (systemPrompt message : string)
    (history : list ConversationPolicy.Message) : list ConversationPolicy.Message :=
  ({| ConversationPolicy.role := "system"; ConversationPolicy.content := systemPrompt |}
   :: map asSent (JS.sliceLast 8 history)
   ++ [{| ConversationPolicy.role := "user"; ConversationPolicy.content := message |}])%list.

(** [JSON.parse] on the one text used in concrete runs: the empty object. *)
Definition demoParse (text : string) : option AIFirstChat.AIResponse :=
  if String.eqb text "{}"
  then Some {| AIFirstChat.action := None; AIFirstChat.ai_message := None;
               AIFirstChat.ai_budget := None; AIFirstChat.ai_tools := None |}
  else None.

(** A text of ASCII characters only.  On such texts the byte-wise
    [JS.toLowerCase], [JS.trim] and [JS.splitWs] are the operations of
    JavaScript, whose case mapping and whitespace go beyond ASCII. *)
Definition asciiText (s : string) : bool :=
  allChars (fun c => (nat_of_ascii c <? 128)%nat) s.

(** The texts of the catalog that the intent matcher reads are ASCII. *)
Definition asciiCatalog (db : Catalog) : bool :=
  forallb (fun kc : string * Category =>
             (forallb asciiText (keywords (snd kc))
              && forallb (fun t =>
                            (asciiText (tool_id t) && asciiText (tool_name t)
                             && asciiText (bestFor t)
                             && asciiText (JS.orOpt (whySuitsYou t) EmptyString)
                             && asciiText (JS.orOpt (limits t) EmptyString))%bool)
                         (tools (snd kc)))%bool)
          (categories db).

(** The tool [figma] with another ease. *)
Definition withEase (e : option Z) : Tool :=
  {| tool_id := tool_id figma; tool_name := tool_name figma; bestFor := bestFor figma;
     deploy := deploy figma; limits := limits figma; pricing := pricing figma;
     whySuitsYou := whySuitsYou figma; ease := e; url := url figma;
     acceptsPrompt := acceptsPrompt figma; promptHint := promptHint figma |}.

(** A catalog with a tool whose name has two characters. *)
Definition v0 : Tool := mkTool "v0" "v0" "UI generation from prompts" true 4.

Definition v0Catalog : Catalog :=
  {| categories :=
       [ ("app_building",
          {| cat_name := "App Building"; cat_icon := "A"; keywords := ["app"; "website"];
             tools := [lovable; v0] |}) ];
     metadata := {| totalTools := 2; lastUpdated := "2026-01-01" |} |}.

(** What of a result the examples show: whether it matched, the category,
    the confidence in lowest terms and the ids of the tools. *)
Definition shown (r : DecyIntelligence.Intent) : bool * option string * Q * list string :=
  (DecyIntelligence.matched r, DecyIntelligence.int_category r,
   Qred (DecyIntelligence.confidence r), map flatId (DecyIntelligence.int_tools r)).

(** A site that cannot be reached, and a web in which only one address
    answers. *)
Definition offlineWorld : ToolScraper.World :=
  {| ToolScraper.fetched := None; ToolScraper.groq := None;
     ToolScraper.toolsWritable := true; ToolScraper.logWritable := true;
     ToolScraper.now := "2026-03-04T10:00:00.000Z" |}.

Definition demoWorlds (url : string) : ToolScraper.World :=
  if String.eqb url "https://foo.ai" then welcomeWorld else offlineWorld.

(** A page met without a classifier. *)
Definition plainWorld : ToolScraper.World := mkWorld "Sketchy - draw with AI" None.

(** The query names the tool: it contains its lowercased name or id. *)
Definition namedIn (query : string) (t : DecyIntelligence.FlatTool) : bool :=
  (JS.includes query (JS.toLowerCase (tool_name (DecyIntelligence.base t)))
   || JS.includes query (JS.toLowerCase (tool_id (DecyIntelligence.base t))))%bool.

(** * Properties *)

(** ** Sanity checks of the string primitives *)

Example splitWs_ex1 : JS.splitWs " a  b " = [""; "a"; "b"; ""].
Proof. reflexivity. Qed.
Example splitWs_ex2 : JS.splitWs "" = [""].
Proof. reflexivity. Qed.
Example splitSpace_ex : JS.splitSpace "a  b" = ["a"; ""; "b"].
Proof. reflexivity. Qed.
Example trim_ex : JS.trim "  Hi There " = "Hi There".
Proof. reflexivity. Qed.
Example lower_ex : JS.toLowerCase "Landing PAGE_1" = "landing page_1".
Proof. reflexivity. Qed.
Example includes_ex : JS.includes "i need a logo" "logo" = true /\ JS.includes "" "" = true.
Proof. split; reflexivity. Qed.
Example sortDesc_ex :
  JS.sortDesc fst [(1, "a"); (3, "b"); (1, "c"); (3, "d")] = [(3, "b"); (3, "d"); (1, "a"); (1, "c")].
Proof. reflexivity. Qed.
Example bounded_ex :
  JS.testBoundedWords ["free"; "no cost"] "A FREE tool" = true
  /\ JS.testBoundedWords ["pro"] "a professional" = false
  /\ JS.testBoundedWords ["app"] "happy" = false.
Proof. repeat split; reflexivity. Qed.
Example easeOr3_ex : map easeOr3 [withEase None; withEase (Some 0); withEase (Some 5)] = [3; 3; 5].
Proof. reflexivity. Qed.
Example withScore_ex :
  map (fun t => DecyIntelligence.scoreOf (DecyIntelligence.withScore t 20))
      (DecyIntelligence.allToolsFlat demoCatalog)
  = [20; 20; 20; 20; 20; 20; 20]
  /\ map DecyIntelligence.scoreOf (DecyIntelligence.allToolsFlat demoCatalog)
     = [0; 0; 0; 0; 0; 0; 0].
Proof. split; reflexivity. Qed.
Example firstSegment_ex : JS.trim (JS.firstSegment "midjourney - ai art") = "midjourney".
Proof. reflexivity. Qed.

(** ** Lists: slices and the stable descending sort *)

Lemma in_slice0 {A} (x : A) n l : In x (JS.slice0 n l) -> In x l.
Proof.
  unfold JS.slice0. revert l. induction n as [|n IH]; intros [|y l]; simpl; try tauto.
  intros [->|H]; auto.
Qed.

Section SortFacts.

Context {A : Type} (key : A -> Z).

Lemma in_insertDesc x y l : In y (JS.insertDesc key x l) <-> y = x \/ In y l.
Proof.
  induction l as [|z l IH]; simpl.
  - intuition congruence.
  - destruct (key x <? key z); simpl; rewrite ?IH; intuition congruence.
Qed.

Lemma in_sortDesc y l : In y (JS.sortDesc key l) <-> In y l.
Proof.
  induction l as [|x l IH]; simpl; [tauto|].
  rewrite in_insertDesc, IH. intuition congruence.
Qed.

(** The head of a stably sorted list is the first element of maximal
    key. *)
Lemma firstMax_bound x l y : firstMax key x l -> In y l -> key y <= key x.
Proof.
  intros (pre & post & -> & Hpre & Hpost) Hy.
  rewrite List.Forall_forall in Hpre, Hpost.
  apply in_app_or in Hy. destruct Hy as [Hy|[->|Hy]]; [|lia|auto].
  specialize (Hpre _ Hy). simpl in Hpre. lia.
Qed.

Lemma sortDesc_head l :
  l = [] \/ exists h t, JS.sortDesc key l = h :: t /\ firstMax key h l.
Proof.
  induction l as [|x l IH]; [left; reflexivity|right].
  simpl. destruct IH as [->|(h & t & E & H)].
  - exists x, []. split; [reflexivity|]. exists [], []. repeat split; constructor.
  - rewrite E. simpl. destruct (key x <? key h) eqn:C.
    + apply Z.ltb_lt in C. eexists _, _. split; [reflexivity|].
      destruct H as (pre & post & -> & Hpre & Hpost).
      exists (x :: pre), post. repeat split; [constructor|]; assumption.
    + apply Z.ltb_ge in C. eexists _, _. split; [reflexivity|].
      exists [], l. repeat split; [constructor|].
      apply List.Forall_forall. intros y Hy.
      pose proof (firstMax_bound _ _ _ H Hy). lia.
Qed.

End SortFacts.

(** ** Budget filtering of every recommendation path *)

Section BudgetFilter.

Import RecommendationEngine.

Variable db : Catalog.

Lemma freeOnly_excludes t l : freeOnly l -> free (pricing t) = false -> excludes t l.
Proof. intros Hl Ht r Hr E. rewrite <- E, (Hl _ Hr) in Ht. discriminate. Qed.

Lemma freeOnly_slice0 n l : freeOnly l -> freeOnly (JS.slice0 n l).
Proof. intros H r Hr. apply H. eapply in_slice0. exact Hr. Qed.

Lemma topTools_free c : freeOnly (topTools "free" c).
Proof.
  intros r Hr. unfold topTools in Hr. apply in_map_iff in Hr.
  destruct Hr as (t & <- & Ht). apply in_slice0 in Ht.
  apply in_sortDesc in Ht. apply filter_In in Ht. destruct Ht as [_ Ht].
  exact Ht.
Qed.

Lemma findInCategories_base cats i r :
  findInCategories cats i = Some r ->
  exists kc, In kc cats /\ In (base r) (tools (snd kc)) /\ r = enrich (snd kc) (base r)
             /\ tool_id (base r) = i.
Proof.
  induction cats as [|[k c] cats IH]; simpl; [discriminate|].
  destruct (find _ (tools c)) as [t|] eqn:E.
  - intros [= <-]. apply find_some in E. destruct E as [Hin Hid].
    apply String.eqb_eq in Hid. exists (k, c). simpl. auto.
  - intros H. destruct (IH H) as (kc & ? & ?). exists kc. auto.
Qed.

Lemma getToolsByIds_free ids : freeOnly (getToolsByIds db ids "free").
Proof.
  induction ids as [|i ids IH]; simpl; [intros r []|].
  destruct (findToolById db i) as [t|]; [|exact IH].
  destruct (free (pricing (base t))) eqn:E; simpl; [|exact IH].
  intros r [<-|Hr]; [exact E|exact (IH _ Hr)].
Qed.

Lemma getDefaultRecommendation_free : freeOnly (rec_tools (getDefaultRecommendation db "free")).
Proof.
  unfold getDefaultRecommendation. cbn [rec_tools]. apply freeOnly_slice0.
  intros r Hr. apply in_flat_map in Hr. destruct Hr as (i & _ & Hr).
  destruct (findToolById db i) as [t|]; [|destruct Hr].
  simpl in Hr. destruct (free (pricing (base t))) eqn:E; [|destruct Hr].
  destruct Hr as [<-|[]]. exact E.
Qed.

Lemma getFallbackRecommendation_free q :
  freeOnly (rec_tools (getFallbackRecommendation db q "free")).
Proof.
  unfold getFallbackRecommendation.
  destruct (JS.sortDesc _ _) as [|[k [z c]] rest].
  - apply getDefaultRecommendation_free.
  - simpl. apply topTools_free.
Qed.

Lemma getToolsFromCategory_free key q :
  freeOnly (rec_tools (getToolsFromCategory db key "free" q)).
Proof.
  unfold getToolsFromCategory. destruct (lookupCategory _ key).
  - simpl. apply topTools_free.
  - apply getFallbackRecommendation_free.
Qed.

Lemma enrichRecommendations_free g : freeOnly (rec_tools (enrichRecommendations db g "free")).
Proof.
  unfold enrichRecommendations. cbn [rec_tools]. apply freeOnly_slice0.
  intros r Hr. apply in_flat_map in Hr. destruct Hr as (kc & _ & Hr).
  apply in_flat_map in Hr. destruct Hr as (t & _ & Hr).
  destruct (JS.arrayIncludes _ _); [|destruct Hr].
  simpl in Hr. destruct (free (pricing t)) eqn:E; simpl in Hr; [|destruct Hr].
  destruct Hr as [<-|[]]. exact E.
Qed.

Lemma getRecommendations_free gemini q cat :
  freeOnly (rec_tools (getRecommendations db gemini q "free" cat)).
Proof.
  assert (Hai : freeOnly (rec_tools
            match gemini with
            | Some o =>
                match getGeminiRecommendation db o "free" with
                | Some r => match rec_tools r with
                            | [] => getFallbackRecommendation db q "free"
                            | _ => r
                            end
                | None => getFallbackRecommendation db q "free"
                end
            | None => getFallbackRecommendation db q "free"
            end)).
  { destruct gemini as [[| |g]|]; cbn [getGeminiRecommendation];
      try apply getFallbackRecommendation_free.
    destruct (rec_tools (enrichRecommendations db g "free")) eqn:E.
    - apply getFallbackRecommendation_free.
    - apply enrichRecommendations_free. }
  unfold getRecommendations. destruct cat as [key|]; [|exact Hai].
  destruct (String.eqb key EmptyString); [exact Hai|].
  destruct (lookupCategory _ key); [|exact Hai].
  apply getToolsFromCategory_free.
Qed.

(** C1.  A tool without a free tier is left out of what every
    recommendation path returns for budget 'free': direct category
    resolution, enrichment of an AI result, the keyword fallback, the
    default set, look-up by id list, and the orchestrator as a whole. *)
Theorem free_budget_excludes_paid_tools (t : Tool) :
  free (pricing t) = false ->
  (forall key q, excludes t (rec_tools (getToolsFromCategory db key "free" q)))
  /\ (forall g, excludes t (rec_tools (enrichRecommendations db g "free")))
  /\ (forall q, excludes t (rec_tools (getFallbackRecommendation db q "free")))
  /\ excludes t (rec_tools (getDefaultRecommendation db "free"))
  /\ (forall ids, excludes t (getToolsByIds db ids "free"))
  /\ (forall gemini q cat, excludes t (rec_tools (getRecommendations db gemini q "free" cat))).
Proof.
  intros Ht. repeat split; intros; (apply freeOnly_excludes; [|exact Ht]).
  - apply getToolsFromCategory_free.
  - apply enrichRecommendations_free.
  - apply getFallbackRecommendation_free.
  - apply getDefaultRecommendation_free.
  - apply getToolsByIds_free.
  - apply getRecommendations_free.
Qed.

End BudgetFilter.

Lemma free_budget_excludes_paid_tools_witness :
  free (pricing looka) = false
  /\ excludes looka
       (RecommendationEngine.rec_tools
          (RecommendationEngine.getToolsFromCategory demoCatalog "design" "free" "a logo")).
Proof.
  split; [reflexivity|].
  apply (free_budget_excludes_paid_tools demoCatalog looka); reflexivity.
Defined.

(** The filter is not vacuous: the free tools of the category are
    returned, easiest first. *)
Example getToolsFromCategory_demo :
  map (fun r => tool_id (RecommendationEngine.base r))
      (RecommendationEngine.rec_tools
         (RecommendationEngine.getToolsFromCategory demoCatalog "design" "free" "a logo"))
  = ["canva_design"; "figma"]
  /\ map (fun r => tool_id (RecommendationEngine.base r))
         (RecommendationEngine.rec_tools
            (RecommendationEngine.getToolsFromCategory demoCatalog "design" "premium" "a logo"))
     = ["looka"; "canva_design"; "figma"].
Proof. split; reflexivity. Qed.

(** ** The discovery commit *)

Section Discovery.

Import ToolScraper.

Variable stringify : ToolData -> string.

Lemma countTools_from (cats : list (string * Category)) a :
  fold_left (fun sum kc => sum + Z.of_nat (List.length (tools (snd kc)))) cats a
  = a + Z.of_nat (List.length (flat_map (fun kc => tools (snd kc)) cats)).
Proof.
  revert a. induction cats as [|kc cats IH]; intros a; simpl; [lia|].
  rewrite IH, length_app. lia.
Qed.

Lemma countTools_allTools cats md :
  countTools cats = Z.of_nat (List.length (allTools {| categories := cats; metadata := md |})).
Proof. unfold countTools, allTools. rewrite countTools_from. simpl. lia. Qed.

Lemma sumOfBuckets_allTools c : sumOfBuckets c = Z.of_nat (List.length (allTools c)).
Proof.
  unfold sumOfBuckets, allTools. induction (categories c) as [|kc cats IH]; simpl; [reflexivity|].
  rewrite IH, length_app. lia.
Qed.

Lemma length_pushTool cats key entry c md md' :
  lookupCategory cats key = Some c ->
  List.length (allTools {| categories := pushTool cats key entry; metadata := md |})
  = S (List.length (allTools {| categories := cats; metadata := md' |})).
Proof.
  unfold allTools. simpl. induction cats as [|[k c0] cats IH]; simpl; [discriminate|].
  destruct (String.eqb k key); simpl; intros H; rewrite !length_app.
  - simpl. lia.
  - rewrite (IH H). lia.
Qed.

Lemma addToolToDatabase_true w tool fs fs' :
  addToolToDatabase w tool fs = (true, fs') ->
  exists cat,
    lookupCategory (categories (toolsFile fs)) (e_category tool) = Some cat
    /\ find (fun t => String.eqb (tool_id t) (e_id tool)) (tools cat) = None
    /\ categories (toolsFile fs')
       = pushTool (categories (toolsFile fs)) (e_category tool) (toolEntry tool)
    /\ totalTools (metadata (toolsFile fs')) = countTools (categories (toolsFile fs'))
    /\ discoveredFile fs' = discoveredFile fs.
Proof.
  unfold addToolToDatabase.
  destruct (lookupCategory _ _) as [cat|]; [|discriminate].
  destruct (find _ (tools cat)) eqn:F; [discriminate|].
  destruct (toolsWritable w); [|discriminate].
  intros [= <-]. exists cat. simpl. auto.
Qed.

Lemma addToolToDatabase_false w tool fs fs' :
  addToolToDatabase w tool fs = (false, fs') -> fs' = fs.
Proof.
  unfold addToolToDatabase.
  destruct (lookupCategory _ _) as [cat|]; [|congruence].
  destruct (find _ (tools cat)); [congruence|].
  destruct (toolsWritable w); congruence.
Qed.

(** C6.  After a commit that reports success, the persisted
    [metadata.totalTools] is the number of tools in the category buckets
    of the persisted catalog, whatever the count stored before. *)
Theorem totalTools_recomputed w tool fs fs' :
  addToolToDatabase w tool fs = (true, fs') ->
  totalTools (metadata (toolsFile fs')) = sumOfBuckets (toolsFile fs')
  /\ totalTools (metadata (toolsFile fs')) = Z.of_nat (List.length (allTools (toolsFile fs')))
  /\ List.length (allTools (toolsFile fs')) = S (List.length (allTools (toolsFile fs))).
Proof.
  intros H. apply addToolToDatabase_true in H.
  destruct H as (cat & Hl & _ & Hc & Ht & _). rewrite Ht.
  destruct (toolsFile fs') as [cats md], (toolsFile fs) as [cats0 md0]. simpl in *.
  split; [|split].
  - rewrite (countTools_allTools cats md). symmetry. apply sumOfBuckets_allTools.
  - apply countTools_allTools.
  - subst cats. eapply length_pushTool. exact Hl.
Qed.

(** C8.  When the classifier answers [isAITool: false] for a fetched
    page, discovery reports failure and both persisted documents, the
    catalog and the discovery log, are left as they were. *)
Theorem rejected_candidate_leaves_state w url fs page e :
  fetched w = Some page ->
  groq w = Some (Classified e) ->
  isAITool e = false ->
  let '(r, fs') := discoverToolByUrl stringify w url fs in
  success r = false
  /\ fs' = fs
  /\ totalTools (metadata (toolsFile fs')) = totalTools (metadata (toolsFile fs))
  /\ d_tools (discoveredFile fs') = d_tools (discoveredFile fs)
  /\ (error r = Some "Not identified as an AI tool"
      \/ error r = Some "Tool already exists in database").
Proof.
  intros Hp Hg He. unfold discoverToolByUrl, analyzeToolUrl, categorizeWithAI.
  rewrite Hp, Hg, He. cbn [negb].
  destruct (bool_decide _); simpl; auto 10.
Qed.

(** C10.  The deterministic categorizer accepts every candidate with the
    conservative defaults, so without a usable classifier discovery
    never turns a fetched candidate away as not being an AI tool. *)
Theorem basicCategorize_never_rejects w toolData :
  isAITool (basicCategorize stringify toolData) = true
  /\ e_pricing (basicCategorize stringify toolData) = {| free := true; premium := None |}
  /\ e_ease (basicCategorize stringify toolData) = Some 3
  /\ (groq w = None \/ groq w = Some ClassifyThrows ->
      categorizeWithAI stringify w toolData = Some (basicCategorize stringify toolData)
      /\ forall url fs,
           error (fst (discoverToolByUrl stringify w url fs))
           <> Some "Not identified as an AI tool").
Proof.
  assert (Hb : forall d, isAITool (basicCategorize stringify d) = true
                         /\ e_pricing (basicCategorize stringify d)
                            = {| free := true; premium := None |}
                         /\ e_ease (basicCategorize stringify d) = Some 3).
  { intros d. unfold basicCategorize. destruct (fold_left _ _ _). simpl. auto. }
  destruct (Hb toolData) as (H1 & H2 & H3). repeat split; auto.
  - unfold categorizeWithAI. destruct H as [-> | ->]; reflexivity.
  - intros url fs. unfold discoverToolByUrl.
    destruct (analyzeToolUrl w url) as [raw|]; [|simpl; discriminate].
    destruct (bool_decide _); [simpl; discriminate|].
    assert (Hc : categorizeWithAI stringify w raw = Some (basicCategorize stringify raw)).
    { unfold categorizeWithAI. destruct H as [-> | ->]; reflexivity. }
    rewrite Hc. destruct (addToolToDatabase _ _ _) as [[|] fs1]; simpl; discriminate.
Qed.

End Discovery.

Lemma totalTools_recomputed_witness :
  let fs' := snd (ToolScraper.addToolToDatabase welcomeWorld
                    (mkEntry "foo" "Foo" "design" true) demoFiles) in
  ToolScraper.addToolToDatabase welcomeWorld (mkEntry "foo" "Foo" "design" true) demoFiles
  = (true, fs')
  /\ totalTools (metadata (ToolScraper.toolsFile fs'))
     = Z.of_nat (List.length (allTools (ToolScraper.toolsFile fs'))).
Proof.
  intros fs'. split; [reflexivity|].
  apply (proj1 (proj2 (totalTools_recomputed welcomeWorld (mkEntry "foo" "Foo" "design" true)
                         demoFiles _ eq_refl))).
Defined.

(** The stored count is recomputed even when the previous one had
    drifted. *)
Example totalTools_recomputed_demo :
  let drifted :=
    {| ToolScraper.toolsFile :=
         {| categories := categories demoCatalog;
            metadata := {| totalTools := 40; lastUpdated := "2025-12-31" |} |};
       ToolScraper.discoveredFile := ToolScraper.discoveredFile demoFiles |} in
  metadata (ToolScraper.toolsFile
              (snd (ToolScraper.addToolToDatabase welcomeWorld
                      (mkEntry "foo" "Foo" "design" true) drifted)))
  = {| totalTools := 8; lastUpdated := "2026-03-04" |}.
Proof. reflexivity. Qed.

Lemma rejected_candidate_leaves_state_witness :
  ToolScraper.success
    (fst (ToolScraper.discoverToolByUrl demoStringify blogWorld "https://blog.example" demoFiles))
  = false
  /\ snd (ToolScraper.discoverToolByUrl demoStringify blogWorld "https://blog.example" demoFiles)
     = demoFiles.
Proof.
  pose proof (rejected_candidate_leaves_state demoStringify blogWorld "https://blog.example"
                demoFiles (mkPage "A cooking blog") (mkEntry "blog" "Blog" "writing" false)
                eq_refl eq_refl eq_refl) as H.
  destruct (ToolScraper.discoverToolByUrl _ _ _ _) as [r fs'].
  destruct H as (H1 & H2 & _). split; assumption.
Defined.

Lemma basicCategorize_never_rejects_witness :
  ToolScraper.groq (mkWorld "Foo" None) = None
  /\ ToolScraper.error
       (fst (ToolScraper.discoverToolByUrl demoStringify (mkWorld "Foo" None)
               "https://foo.example" demoFiles))
     <> Some "Not identified as an AI tool".
Proof.
  split; [reflexivity|].
  apply (proj2 (proj2 (proj2 (basicCategorize_never_rejects demoStringify (mkWorld "Foo" None)
           {| ToolScraper.td_name := None; ToolScraper.td_title := None;
              ToolScraper.td_description := None; ToolScraper.td_url := None;
              ToolScraper.td_headline := EmptyString; ToolScraper.td_subheadlines := [];
              ToolScraper.td_pricingHints := EmptyString;
              ToolScraper.td_rawSnippet := EmptyString |})))).
  left. reflexivity.
Defined.

(** Without a classifier the page is filed by keyword count, with the
    fixed id the fallback derives when the hints carry no name. *)
Example basicCategorize_demo :
  let e := ToolScraper.basicCategorize demoStringify
             {| ToolScraper.td_name := None; ToolScraper.td_title := Some "Pixel Art Maker";
                ToolScraper.td_description := Some "Generate an image or a picture";
                ToolScraper.td_url := None;
                ToolScraper.td_headline := EmptyString; ToolScraper.td_subheadlines := [];
                ToolScraper.td_pricingHints := EmptyString;
                ToolScraper.td_rawSnippet := EmptyString |} in
  (ToolScraper.e_id e, ToolScraper.e_name e, ToolScraper.e_category e, ToolScraper.e_url e)
  = ("unknown", "Pixel Art Maker", "image_generation", "#").
Proof. reflexivity. Qed.

(** ** Discovering the same URL again *)

Section Rediscovery.

Import ToolScraper.

Variable stringify : ToolData -> string.

Lemma lookupCategory_pushTool cats key entry c :
  lookupCategory cats key = Some c ->
  lookupCategory (pushTool cats key entry) key
  = Some {| cat_name := cat_name c; cat_icon := cat_icon c; keywords := keywords c;
            tools := tools c ++ [entry] |}.
Proof.
  induction cats as [|[k c0] cats IH]; simpl; [discriminate|].
  destruct (String.eqb k key) eqn:E; simpl; rewrite E.
  - intros [= ->]. reflexivity.
  - exact IH.
Qed.

Lemma in_pushTool cats key entry c md :
  lookupCategory cats key = Some c ->
  In entry (allTools {| categories := pushTool cats key entry; metadata := md |}).
Proof.
  unfold allTools. simpl. induction cats as [|[k c0] cats IH]; simpl; [discriminate|].
  destruct (String.eqb k key); simpl; intros H; apply in_or_app.
  - left. apply in_or_app. right. left. reflexivity.
  - right. auto.
Qed.

Lemma existing_inner_mono (l : list Tool) (ids : gset string) x :
  x ∈ ids ->
  x ∈ fold_left (fun ids tool =>
                   {[ JS.toLowerCase (tool_name tool) ]} ∪ ({[ tool_id tool ]} ∪ ids)) l ids.
Proof.
  revert ids. induction l as [|t l IH]; intros ids H; simpl; [exact H|].
  apply IH. set_solver.
Qed.

Lemma existing_inner_in (l : list Tool) (ids : gset string) t x :
  In t l -> x = tool_id t \/ x = JS.toLowerCase (tool_name t) ->
  x ∈ fold_left (fun ids tool =>
                   {[ JS.toLowerCase (tool_name tool) ]} ∪ ({[ tool_id tool ]} ∪ ids)) l ids.
Proof.
  revert ids. induction l as [|t0 l IH]; intros ids Hin Hx; simpl in *; [tauto|].
  destruct Hin as [->|Hin].
  - apply existing_inner_mono.
    destruct Hx as [->| ->]; [apply elem_of_union_r, elem_of_union_l|apply elem_of_union_l];
      apply elem_of_singleton; reflexivity.
  - apply IH; assumption.
Qed.

Lemma existing_outer (cats : list (string * Category)) (ids : gset string) x :
  x ∈ ids \/ (exists t, In t (flat_map (fun kc => tools (snd kc)) cats)
                        /\ (x = tool_id t \/ x = JS.toLowerCase (tool_name t))) ->
  x ∈ fold_left (fun ids category =>
                   fold_left (fun ids tool =>
                                {[ JS.toLowerCase (tool_name tool) ]}
                                ∪ ({[ tool_id tool ]} ∪ ids))
                             (tools (snd category)) ids) cats ids.
Proof.
  revert ids. induction cats as [|kc cats IH]; intros ids; simpl.
  - intros [H|(t & [] & _)]. exact H.
  - intros [H|(t & Ht & Hx)]; apply IH.
    + left. apply existing_inner_mono. exact H.
    + apply in_app_or in Ht. destruct Ht as [Ht|Ht].
      * left. eapply existing_inner_in; eassumption.
      * right. eauto.
Qed.

(** Every id and every lowercased name of the catalog is in the set the
    duplicate check consults. *)
Lemma getExistingToolIds_has fs t x :
  In t (allTools (toolsFile fs)) ->
  x = tool_id t \/ x = JS.toLowerCase (tool_name t) ->
  x ∈ getExistingToolIds fs.
Proof. intros Ht Hx. apply existing_outer. right. eauto. Qed.

Lemma existing_inner_inv (l : list Tool) (ids : gset string) x :
  x ∈ fold_left (fun ids tool =>
                   {[ JS.toLowerCase (tool_name tool) ]} ∪ ({[ tool_id tool ]} ∪ ids)) l ids ->
  x ∈ ids \/ exists t, In t l /\ (x = tool_id t \/ x = JS.toLowerCase (tool_name t)).
Proof.
  revert ids. induction l as [|t0 l IH]; intros ids H; simpl in *; [left; exact H|].
  apply IH in H. destruct H as [H|(t & Ht & Hx)]; [|right; eauto].
  apply elem_of_union in H. destruct H as [H|H].
  - apply elem_of_singleton in H. right. exists t0. auto.
  - apply elem_of_union in H. destruct H as [H|H]; [|left; exact H].
    apply elem_of_singleton in H. right. exists t0. auto.
Qed.

Lemma existing_outer_inv (cats : list (string * Category)) (ids : gset string) x :
  x ∈ fold_left (fun ids category =>
                   fold_left (fun ids tool =>
                                {[ JS.toLowerCase (tool_name tool) ]}
                                ∪ ({[ tool_id tool ]} ∪ ids))
                             (tools (snd category)) ids) cats ids ->
  x ∈ ids \/ (exists t, In t (flat_map (fun kc => tools (snd kc)) cats)
                        /\ (x = tool_id t \/ x = JS.toLowerCase (tool_name t))).
Proof.
  revert ids. induction cats as [|kc cats IH]; intros ids H; simpl in *; [left; exact H|].
  apply IH in H. destruct H as [H|(t & Ht & Hx)].
  - apply existing_inner_inv in H. destruct H as [H|(t & Ht & Hx)]; [left; exact H|].
    right. exists t. split; [apply in_or_app; left; exact Ht|exact Hx].
  - right. exists t. split; [apply in_or_app; right; exact Ht|exact Hx].
Qed.

Lemma getExistingToolIds_inv fs x :
  x ∈ getExistingToolIds fs ->
  exists t, In t (allTools (toolsFile fs))
            /\ (x = tool_id t \/ x = JS.toLowerCase (tool_name t)).
Proof.
  intros H. apply existing_outer_inv in H. destruct H as [H|H]; [|exact H].
  apply elem_of_empty in H. destruct H.
Qed.

Lemma in_allTools_pushTool cats key entry t :
  In t (flat_map (fun kc : string * Category => tools (snd kc)) (pushTool cats key entry)) ->
  t = entry \/ In t (flat_map (fun kc : string * Category => tools (snd kc)) cats).
Proof.
  induction cats as [|[k c] cats IH]; simpl; [tauto|].
  destruct (String.eqb k key); simpl; rewrite !in_app_iff.
  - simpl. intros [[H|[H|[]]]|H]; auto.
  - intros [H|H]; [auto|]. destruct (IH H); auto.
Qed.

Lemma toolsFile_logDiscovery w e fs : toolsFile (logDiscovery w e fs) = toolsFile fs.
Proof. unfold logDiscovery. destruct (logWritable w); reflexivity. Qed.

Lemma getExistingToolIds_logDiscovery w e fs :
  getExistingToolIds (logDiscovery w e fs) = getExistingToolIds fs.
Proof. unfold getExistingToolIds. rewrite toolsFile_logDiscovery. reflexivity. Qed.

(** What a successful discovery did. *)
Lemma discoverToolByUrl_success w url fs r fs1 :
  discoverToolByUrl stringify w url fs = (r, fs1) ->
  success r = true ->
  exists raw e fs0,
    analyzeToolUrl w url = Some raw
    /\ categorizeWithAI stringify w raw = Some e
    /\ addToolToDatabase w e fs = (true, fs0)
    /\ fs1 = logDiscovery w e fs0
    /\ res_tool r = Some e.
Proof.
  unfold discoverToolByUrl.
  destruct (analyzeToolUrl w url) as [raw|]; [|intros [= <- _]; discriminate].
  destruct (bool_decide _); [intros [= <- _]; discriminate|].
  destruct (categorizeWithAI stringify w raw) as [e|] eqn:Hc;
    [|intros [= <- _]; discriminate].
  destruct (addToolToDatabase w e fs) as [[|] fs0] eqn:Ha;
    [|intros [= <- _]; discriminate].
  intros [= <- <-] _. exists raw, e, fs0. auto.
Qed.

(** A successful discovery passed the name check. *)
Lemma discoverToolByUrl_name_checked w url fs r fs1 page :
  discoverToolByUrl stringify w url fs = (r, fs1) ->
  success r = true ->
  fetched w = Some page ->
  pageToolName page ∉ getExistingToolIds fs.
Proof.
  unfold discoverToolByUrl, analyzeToolUrl. intros H Hs Hp. rewrite Hp in H. cbn [td_title] in H.
  change (JS.trim (JS.firstSegment (JS.toLowerCase (JS.orOpt (Some (pg_title page)) EmptyString))))
    with (pageToolName page) in H.
  destruct (bool_decide (pageToolName page ∈ getExistingToolIds fs)) eqn:B.
  - injection H as <- _. discriminate.
  - apply bool_decide_eq_false in B. exact B.
Qed.

(** A second commit of the same entry is refused by the duplicate-id
    check of the target category. *)
Lemma addToolToDatabase_again w w' e fs fs0 :
  addToolToDatabase w e fs = (true, fs0) ->
  forall fs1, toolsFile fs1 = toolsFile fs0 -> addToolToDatabase w' e fs1 = (false, fs1).
Proof.
  intros H fs1 Hfs. apply addToolToDatabase_true in H.
  destruct H as (cat & Hl & _ & Hc & _).
  unfold addToolToDatabase. rewrite Hfs, Hc.
  rewrite (lookupCategory_pushTool _ _ _ _ Hl). simpl.
  destruct (find _ (tools cat ++ [toolEntry e])) eqn:F; [reflexivity|].
  exfalso.
  assert (Hin : In (toolEntry e) (tools cat ++ [toolEntry e])).
  { apply in_or_app. right. left. reflexivity. }
  pose proof (find_none _ _ F _ Hin) as F'. cbn in F'.
  rewrite String.eqb_refl in F'. discriminate.
Qed.


End Rediscovery.



(** The assumption that the classifier answers as before is needed: a
    second answer with another id is committed as one more tool. *)
Example rediscovery_with_other_answer :
  let '(r1, fs1) := ToolScraper.discoverToolByUrl demoStringify welcomeWorld
                      "https://foo.example" demoFiles in
  let '(r2, fs2) := ToolScraper.discoverToolByUrl demoStringify
                      (mkWorld "Welcome to Foo | Home"
                         (Some (ToolScraper.Classified (mkEntry "foo_ai" "Foo AI" "design" true))))
                      "https://foo.example" fs1 in
  ToolScraper.success r1 = true
  /\ ToolScraper.success r2 = true
  /\ totalTools (metadata (ToolScraper.toolsFile fs1)) = 8
  /\ totalTools (metadata (ToolScraper.toolsFile fs2)) = 9.
Proof. vm_compute. tauto. Qed.

(** ** Uniqueness of ids across the catalog *)

(** C7, the code at a failing input.  The catalog has pairwise distinct
    ids; the classifier files a new page under [design] with the id of a
    tool in [coding_assistance]; the commit only looks for that id within
    [design], so discovery succeeds and the id now occurs twice. *)
Lemma discovery_duplicates_id_across_categories :
  let '(r, fs') := ToolScraper.discoverToolByUrl demoStringify writerWorld
                     "https://writer.example" demoFiles in
  NoDup (catalogIds demoCatalog)
  /\ ToolScraper.success r = true
  /\ catalogIds (ToolScraper.toolsFile fs')
     = ["lovable"; "bolt"; "looka"; "canva_design"; "figma"; "chatgpt"; "chatgpt"; "cursor"]
  /\ ~ NoDup (catalogIds (ToolScraper.toolsFile fs')).
Proof.
  vm_compute. repeat split.
  - apply (bool_decide_unpack _). vm_compute. exact I.
  - apply (bool_decide_unpack _). vm_compute. exact I.
Qed.

(** The same slip through the commit step alone. *)
Lemma addToolToDatabase_duplicates_id :
  let '(added, fs') := ToolScraper.addToolToDatabase writerWorld
                         (mkEntry "chatgpt" "ChatGPT Writer" "design" true) demoFiles in
  added = true /\ ~ NoDup (catalogIds (ToolScraper.toolsFile fs')).
Proof.
  vm_compute. split; [reflexivity|].
  apply (bool_decide_unpack _). vm_compute. exact I.
Qed.

(** ** The budget short-circuit of the conversation policy *)

Section BudgetAnswer.

Import ConversationPolicy.

Variable systemPrompt : string.
Variable laterStrategies : string -> list Message -> Prog Response.

Lemma lastWhere_split {A} (p : A -> bool) before x after :
  p x = true -> forallb (fun y => negb (p y)) after = true ->
  JS.lastWhere p (before ++ x :: after) = Some x.
Proof.
  intros Hx Hafter. unfold JS.lastWhere.
  rewrite List.filter_app. simpl. rewrite Hx.
  assert (E : List.filter p after = []).
  { clear Hx. induction after as [|y l IH]; simpl in *; [reflexivity|].
    apply andb_prop in Hafter. destruct Hafter as [Hy Hl].
    destruct (p y); [discriminate|]. auto. }
  rewrite E, List.map_app. simpl. apply List.last_last.
Qed.

Lemma lastWhere_skip {A} (p : A -> bool) before x after :
  p x = false -> forallb (fun y => negb (p y)) after = true ->
  JS.lastWhere p (before ++ x :: after) = JS.lastWhere p before.
Proof.
  intros Hx Hafter. unfold JS.lastWhere.
  rewrite List.filter_app. simpl. rewrite Hx.
  assert (E : List.filter p after = []).
  { clear Hx. induction after as [|y l IH]; simpl in *; [reflexivity|].
    apply andb_prop in Hafter. destruct Hafter as [Hy Hl].
    destruct (p y); [discriminate|]. auto. }
  rewrite E, List.app_nil_r. reflexivity.
Qed.

Lemma assistant_not_user m : isAssistant m = true -> isUser m = false.
Proof.
  unfold isAssistant, isUser. intros H. apply String.eqb_eq in H. rewrite H. reflexivity.
Qed.

(** The short-circuit of [getGroqResponse] in the revision of
    [unnamed/part_001]. *)
Lemma getGroqResponse_short_circuit message before a after :
  isStandaloneBudgetAnswer (JS.trim (JS.toLowerCase message)) = true ->
  isAssistant a = true ->
  forallb (fun m => negb (isAssistant m)) after = true ->
  asksBudget a = true ->
  let history := (before ++ a :: after)%list in
  let budget :=
    if JS.includes (JS.trim (JS.toLowerCase message)) "free" then "free" else "premium" in
  exists query,
    getGroqResponse systemPrompt message history = Ret (directRecommendation budget query)
    /\ handleChat systemPrompt true laterStrategies message history
       = Ret (directRecommendation budget query)
    /\ (forall oracle,
          run oracle (handleChat systemPrompt true laterStrategies message history)
          = (0%nat, Some (directRecommendation budget query)))
    /\ (forall u, forallb (fun m => negb (isUser m)) after = true ->
                  JS.lastWhere isUser before = Some u -> query = content u)
    /\ (JS.lastWhere isUser history = None -> query = message).
Proof.
  intros Hmsg Ha Hafter Hask history budget.
  set (query := match JS.lastWhere isUser history with
                | Some m => content m
                | None => message
                end).
  exists query.
  assert (Hg : getGroqResponse systemPrompt message history
               = Ret (directRecommendation budget query)).
  { unfold getGroqResponse. rewrite Hmsg.
    assert (Hlen : Nat.eqb (List.length history) 0 = false).
    { unfold history. rewrite length_app. simpl. apply Nat.eqb_neq. lia. }
    rewrite Hlen. cbn [negb andb].
    unfold history at 1. rewrite (lastWhere_split isAssistant before a after Ha Hafter).
    unfold asksBudget in Hask. rewrite Hask. reflexivity. }
  split; [exact Hg|].
  assert (Hh : handleChat systemPrompt true laterStrategies message history
               = Ret (directRecommendation budget query)).
  { unfold handleChat. rewrite Hg. reflexivity. }
  split; [exact Hh|]. split; [intros oracle; rewrite Hh; reflexivity|]. split.
  - intros u Hu Hb. unfold query, history.
    rewrite (lastWhere_skip isUser before a after (assistant_not_user a Ha) Hu), Hb.
    reflexivity.
  - intros Hn. unfold query. rewrite Hn. reflexivity.
Qed.

End BudgetAnswer.

(** With a history that holds only the budget question there is no
    earlier user turn, and the original query is the literal answer. *)
Example budget_answer_without_user_turn :
  JS.lastWhere ConversationPolicy.isAssistant [budgetQuestion] = Some budgetQuestion
  /\ asksBudget budgetQuestion = true
  /\ ConversationPolicy.getGroqResponse "You are DECY" "free" [budgetQuestion]
     = ConversationPolicy.Ret (ConversationPolicy.directRecommendation "free" "free").
Proof. repeat split; reflexivity. Qed.

(** The original query is read off the last user entry of the whole
    history, although the source announces the message before the budget
    question: a user turn recorded after the question is taken instead. *)
Example budget_answer_later_user_turn :
  ConversationPolicy.getGroqResponse "You are DECY" "free"
    [userSays "I need a logo for my startup"; budgetQuestion; userSays "hmm"]
  = ConversationPolicy.Ret (ConversationPolicy.directRecommendation "free" "hmm").
Proof. reflexivity. Qed.

(** The revision in [services/recommendation.js] has no short-circuit:
    the same budget answer after the same budget question goes to the
    completion service. *)
Example ai_first_chat_calls_service :
  fst (ConversationPolicy.run (fun _ => ConversationPolicy.Text "{}")
         (AIFirstChat.getGroqResponse "You are DECY" (fun _ => None) "free"
            [userSays "I need a logo for my startup"; budgetQuestion]))
  = 1%nat.
Proof. reflexivity. Qed.

Example isStandaloneBudgetAnswer_ex :
  map ConversationPolicy.isStandaloneBudgetAnswer
      ["free"; "free tools"; "i'll go with premium tools"; "show me  paid"; "pro";
       "free stuff"; "i want pro"; "premium please"]
  = [true; true; true; true; true; false; false; false].
Proof. reflexivity. Qed.

(** Without a budget question in the history the same message goes to the
    completion service. *)
Example no_budget_question_calls_service :
  fst (ConversationPolicy.run (fun _ => ConversationPolicy.Text "Hello!")
         (ConversationPolicy.getGroqResponse "You are DECY" "free"
            [userSays "hi"; assistantSays "Hello, what are you building?"]))
  = 1%nat.
Proof. reflexivity. Qed.

(** ** The intent matcher against the specified algorithm *)

Section Counting.

Import IntentSpec.

Context {A : Type}.

Lemma count_nil (p : A -> bool) : count p [] = 0.
Proof. reflexivity. Qed.

Lemma count_cons (p : A -> bool) x l :
  count p (x :: l) = (if p x then 1 else 0) + count p l.
Proof. unfold count. simpl. destruct (p x); simpl List.length; lia. Qed.

Lemma count_app (p : A -> bool) l1 l2 : count p (l1 ++ l2) = count p l1 + count p l2.
Proof. unfold count. rewrite List.filter_app, List.length_app. lia. Qed.

Lemma count_nonneg (p : A -> bool) l : 0 <= count p l.
Proof. unfold count. lia. Qed.

Lemma count_pos (p : A -> bool) x l : In x l -> p x = true -> 1 <= count p l.
Proof.
  intros Hin Hp. assert (H : In x (List.filter p l)) by (apply filter_In; auto).
  unfold count. destruct (List.filter p l); [destruct H|]. simpl List.length. lia.
Qed.

(** A loop that adds [k] for every element satisfying [p]. *)
Lemma fold_left_count (p : A -> bool) (k : Z) l a :
  fold_left (fun s x => if p x then s + k else s) l a = a + k * count p l.
Proof.
  revert a. induction l as [|x l IH]; intros a; simpl.
  - rewrite count_nil. lia.
  - rewrite IH, count_cons. destruct (p x); lia.
Qed.

Lemma flat_map_if_singleton {B} (p : A -> bool) (f : A -> B) l :
  flat_map (fun x => if p x then [f x] else []) l = map f (List.filter p l).
Proof.
  induction l as [|x l IH]; simpl; [reflexivity|].
  destruct (p x); simpl; rewrite IH; reflexivity.
Qed.

Lemma firstArgmax_firstMax (score : A -> Z) l x :
  firstArgmax score l = Some x -> firstMax score x l.
Proof.
  revert x. induction l as [|y l IH]; intros x; simpl; [discriminate|].
  destruct (firstArgmax score l) as [z|] eqn:E.
  - specialize (IH z eq_refl). destruct (score y <? score z) eqn:C.
    + intros [= <-]. apply Z.ltb_lt in C.
      destruct IH as (pre & post & -> & Hpre & Hpost).
      exists (y :: pre), post. repeat split; [constructor|]; assumption.
    + intros [= <-]. apply Z.ltb_ge in C.
      exists [], l. repeat split; [constructor|].
      apply List.Forall_forall. intros u Hu.
      pose proof (firstMax_bound score z l u IH Hu). lia.
  - intros [= <-]. destruct l; [|simpl in E; destruct (firstArgmax score l); [destruct (_ <? _)|]; discriminate].
    exists [], []. repeat split; constructor.
Qed.

Lemma firstArgmax_some (score : A -> Z) l : l <> [] -> exists x, firstArgmax score l = Some x.
Proof.
  destruct l as [|y l]; [congruence|]. intros _. simpl.
  destruct (firstArgmax score l) as [z|]; [destruct (_ <? _)|]; eauto.
Qed.

(** The running maximum kept by a loop with a strict comparison ends on
    the first element of maximal score, provided that score beats the
    initial one. *)
Lemma fold_left_best (score : A -> Z) l (bm : option A) (bs : Z) :
  fold_left (fun (best : option A * Z) x =>
               if snd best <? score x then (Some x, score x) else best) l (bm, bs)
  = match firstArgmax score l with
    | Some x => if bs <? score x then (Some x, score x) else (bm, bs)
    | None => (bm, bs)
    end.
Proof.
  revert bm bs. induction l as [|y l IH]; intros bm bs; simpl; [reflexivity|].
  destruct (bs <? score y) eqn:C; rewrite IH; destruct (firstArgmax score l) as [z|]; simpl.
  - apply Z.ltb_lt in C. destruct (score y <? score z) eqn:D.
    + apply Z.ltb_lt in D. assert ((bs <? score z) = true) as -> by (apply Z.ltb_lt; lia).
      reflexivity.
    + rewrite (proj2 (Z.ltb_lt _ _) C). reflexivity.
  - rewrite C. reflexivity.
  - apply Z.ltb_ge in C. destruct (score y <? score z) eqn:D; [reflexivity|].
    apply Z.ltb_ge in D. assert ((bs <? score z) = false) as -> by (apply Z.ltb_ge; lia).
    assert ((bs <? score y) = false) as -> by (apply Z.ltb_ge; lia). reflexivity.
  - rewrite C. reflexivity.
Qed.

End Counting.

Lemma fold_left_pointwise {A B} (f g : A -> B -> A) l a :
  (forall s x, f s x = g s x) -> fold_left f l a = fold_left g l a.
Proof.
  intros H. revert a. induction l as [|x l IH]; intros a; simpl; [reflexivity|].
  rewrite H. apply IH.
Qed.

Lemma filter_cons_if {A} (p : A -> bool) x l :
  List.filter p (x :: l) = if p x then x :: List.filter p l else List.filter p l.
Proof. reflexivity. Qed.

Section CaseAndTrim.

Lemma lowerChar_idem c : JS.lowerChar (JS.lowerChar c) = JS.lowerChar c.
Proof. destruct c as [[] [] [] [] [] [] [] []]; reflexivity. Qed.

Lemma isSpace_lowerChar c : JS.isSpace (JS.lowerChar c) = JS.isSpace c.
Proof. destruct c as [[] [] [] [] [] [] [] []]; reflexivity. Qed.

Lemma toLowerCase_idem s : JS.toLowerCase (JS.toLowerCase s) = JS.toLowerCase s.
Proof. induction s as [|c s IH]; simpl; [reflexivity|]. rewrite lowerChar_idem, IH. reflexivity. Qed.

Lemma toLowerCase_trimStart s :
  JS.toLowerCase (JS.trimStart s) = JS.trimStart (JS.toLowerCase s).
Proof.
  induction s as [|c s IH]; simpl; [reflexivity|].
  rewrite isSpace_lowerChar. destruct (JS.isSpace c); [exact IH|reflexivity].
Qed.

Lemma toLowerCase_trimEnd s :
  JS.toLowerCase (JS.trimEnd s) = JS.trimEnd (JS.toLowerCase s).
Proof.
  induction s as [|c s IH]; simpl; [reflexivity|].
  rewrite <- IH, isSpace_lowerChar.
  destruct (JS.trimEnd s); simpl; [destruct (JS.isSpace c)|]; reflexivity.
Qed.

(** A lowercased, trimmed query is unchanged by lowercasing it again. *)
Lemma toLowerCase_query m :
  JS.toLowerCase (JS.trim (JS.toLowerCase m)) = JS.trim (JS.toLowerCase m).
Proof.
  unfold JS.trim. rewrite toLowerCase_trimEnd, toLowerCase_trimStart, toLowerCase_idem.
  reflexivity.
Qed.

End CaseAndTrim.

Section IntentRefinement.

Import DecyIntelligence IntentSpec.

Variable db : Catalog.

Lemma intentScore_fold query words l a :
  fold_left (intentScore query words) l a
  = a + 20 * count (JS.includes query) l
    + 5 * count (JS.arrayIncludes words) (flat_map JS.splitSpace l).
Proof.
  revert a. induction l as [|i l IH]; intros a; simpl.
  - rewrite !count_nil. lia.
  - rewrite IH. unfold intentScore. rewrite fold_left_count, count_cons, count_app.
    destruct (JS.includes query i); lia.
Qed.

Lemma patternScore_spec query p :
  patternScore query (JS.splitWs query) p = patternScoreSpec query p.
Proof.
  unfold patternScore, patternScoreSpec. rewrite intentScore_fold, Z.add_0_l. reflexivity.
Qed.

Lemma scoreStep_fold query l bm bs :
  fold_left (scoreStep query (JS.splitWs query)) l (bm, bs)
  = match firstArgmax (patternScoreSpec query) l with
    | Some x => if bs <? patternScoreSpec query x
                then (Some x, patternScoreSpec query x) else (bm, bs)
    | None => (bm, bs)
    end.
Proof.
  rewrite <- (fold_left_best (patternScoreSpec query) l bm bs).
  apply fold_left_pointwise. intros best x. unfold scoreStep.
  rewrite patternScore_spec. reflexivity.
Qed.

Lemma fillCategory_spec cands acc :
  fillCategory cands acc = (acc ++ firstn (6 - List.length acc) cands)%list.
Proof.
  revert acc. induction cands as [|t r IH]; intros acc.
  - simpl. rewrite firstn_nil, List.app_nil_r. reflexivity.
  - change (fillCategory (t :: r) acc)
      with (if (6 <=? List.length acc)%nat then acc else fillCategory r (acc ++ [t])).
    destruct (6 <=? List.length acc)%nat eqn:C.
    + apply Nat.leb_le in C. replace (6 - List.length acc)%nat with 0%nat by lia.
      simpl. rewrite List.app_nil_r. reflexivity.
    + apply Nat.leb_gt in C. rewrite IH, List.length_app. simpl List.length.
      replace (6 - List.length acc)%nat with (S (6 - (List.length acc + 1)))%nat by lia.
      simpl. rewrite <- List.app_assoc. reflexivity.
Qed.

Lemma has_id_seen (added : gset string) (seen : list string) x :
  (forall y, y ∈ added <-> In y seen) ->
  bool_decide (x ∈ added) = existsb (String.eqb x) seen.
Proof.
  intros H. destruct (existsb (String.eqb x) seen) eqn:E.
  - apply bool_decide_eq_true. apply H. apply existsb_exists in E.
    destruct E as (y & Hy & Hxy). apply String.eqb_eq in Hxy. subst y. exact Hy.
  - apply bool_decide_eq_false. intros Hin. apply H in Hin.
    assert (existsb (String.eqb x) seen = true).
    { apply existsb_exists. exists x. split; [exact Hin|apply String.eqb_refl]. }
    congruence.
Qed.

Lemma addPriority_spec ids acc (added : gset string) seen :
  (forall y, y ∈ added <-> In y seen) ->
  exists added',
    addPriority db ids acc added = ((acc ++ dedupIds seen (resolve db ids))%list, added')
    /\ (forall y, y ∈ added'
                  <-> In y (seen ++ map (fun u => tool_id (base u))
                                       (dedupIds seen (resolve db ids)))).
Proof.
  revert acc added seen. induction ids as [|i ids IH]; intros acc added seen Hinv.
  - exists added. simpl. rewrite !List.app_nil_r. auto.
  - simpl. destruct (find _ (allToolsFlat db)) as [t|]; simpl.
    + rewrite (has_id_seen added seen _ Hinv).
      destruct (existsb (String.eqb (tool_id (base t))) seen) eqn:E.
      * apply IH. exact Hinv.
      * destruct (IH (acc ++ [t])%list ({[ tool_id (base t) ]} ∪ added)
                     (tool_id (base t) :: seen)) as (added' & Heq & Hmem).
        { intros y. rewrite elem_of_union, elem_of_singleton, Hinv. simpl.
          intuition congruence. }
        exists added'. rewrite Heq, <- List.app_assoc. split; [reflexivity|].
        intros y. rewrite Hmem. simpl. rewrite !in_app_iff. simpl. tauto.
    + apply IH. exact Hinv.
Qed.

Lemma getRelevantTools_spec pattern query :
  getRelevantTools db pattern query = relevantToolsSpec db pattern.
Proof.
  unfold getRelevantTools, relevantToolsSpec.
  destruct (addPriority_spec (priority pattern) [] ∅ []) as (added' & Heq & Hmem).
  { intros y. rewrite elem_of_empty. simpl. tauto. }
  rewrite Heq. simpl in *. rewrite fillCategory_spec. f_equal. f_equal. f_equal.
  apply filter_ext. intros t. f_equal. f_equal.
  apply has_id_seen. exact Hmem.
Qed.

Lemma wordScore_fold query t l a :
  fold_left (wordScore query t) l a
  = a + 5 * count (JS.includes (searchText t))
                  (List.filter (fun w => (3 <=? String.length w)%nat) l)
    + 15 * count (JS.includes (JS.toLowerCase (tool_name (base t))))
                 (List.filter (fun w => (3 <=? String.length w)%nat) l).
Proof.
  revert a. induction l as [|w l IH]; intros a.
  - simpl. rewrite !count_nil. lia.
  - change (fold_left (wordScore query t) (w :: l) a)
      with (fold_left (wordScore query t) l (wordScore query t a w)).
    rewrite IH, filter_cons_if. unfold wordScore.
    destruct (String.length w <? 3)%nat eqn:C.
    + apply Nat.ltb_lt in C. assert ((3 <=? String.length w)%nat = false) as ->
        by (apply Nat.leb_gt; lia). lia.
    + apply Nat.ltb_ge in C. assert ((3 <=? String.length w)%nat = true) as ->
        by (apply Nat.leb_le; lia).
      rewrite !count_cons.
      destruct (JS.includes (searchText t) w), (JS.includes (JS.toLowerCase _) w); lia.
Qed.

Lemma searchAllTools_spec m :
  searchAllTools db (JS.trim (JS.toLowerCase m))
  = keywordSearchSpec db (JS.trim (JS.toLowerCase m)).
Proof.
  unfold searchAllTools, keywordSearchSpec, JS.slice0. rewrite toLowerCase_query.
  f_equal. f_equal.
  rewrite <- (flat_map_if_singleton
                (fun t => 0 <? toolScoreSpec (JS.trim (JS.toLowerCase m)) t)
                (fun t => withScore t (toolScoreSpec (JS.trim (JS.toLowerCase m)) t))).
  apply flat_map_ext. intros t. rewrite wordScore_fold. unfold toolScoreSpec.
  rewrite Z.add_0_l. reflexivity.
Qed.

(** On every message that does not trigger guidance detection,
    [analyzeIntent] is the composition of list functions. *)
Lemma analyzeIntent_spec userMessage :
  detectToolGuidance db (JS.trim (JS.toLowerCase userMessage)) = None ->
  analyzeIntent db userMessage = analyzeIntentSpec db userMessage.
Proof.
  intros Hg. unfold analyzeIntent, analyzeIntentSpec. rewrite Hg.
  unfold intentMap. rewrite scoreStep_fold, searchAllTools_spec.
  set (query := JS.trim (JS.toLowerCase userMessage)).
  assert (Hk : JS.slice0 6 (keywordSearchSpec db query) = keywordSearchSpec db query).
  { unfold keywordSearchSpec, JS.slice0. rewrite firstn_firstn. reflexivity. }
  destruct (firstArgmax (patternScoreSpec query) buildIntentMap) as [best|] eqn:E.
  - destruct (0 <? patternScoreSpec query best) eqn:C.
    + rewrite getRelevantTools_spec.
      destruct (5 <=? patternScoreSpec query best); [reflexivity|].
      destruct (keywordSearchSpec db query) as [|t l]; [reflexivity|].
      rewrite Hk. reflexivity.
    + apply Z.ltb_ge in C.
      assert ((5 <=? patternScoreSpec query best) = false) as -> by (apply Z.leb_gt; lia).
      destruct (keywordSearchSpec db query) as [|t l]; [reflexivity|].
      rewrite Hk. reflexivity.
  - destruct (keywordSearchSpec db query) as [|t l]; [reflexivity|].
    rewrite Hk. reflexivity.
Qed.

End IntentRefinement.

(** ** The intent matcher against the algorithm in words *)

Section IntentInWords.

Import DecyIntelligence IntentSpec IntentWords.

Variable db : Catalog.

Lemma whitespace_isSpace c : whitespace c = JS.isSpace c.
Proof. destruct c as [[] [] [] [] [] [] [] []]; reflexivity. Qed.

Lemma append_nil_r (s : string) : s ++ EmptyString = s.
Proof.
  induction s as [|c s IH]; [reflexivity|].
  change (String c (s ++ EmptyString) = String c s). rewrite IH. reflexivity.
Qed.

Lemma append_assoc (a b c : string) : (a ++ b) ++ c = a ++ (b ++ c).
Proof.
  induction a as [|x a IH]; [reflexivity|].
  change (String x ((a ++ b) ++ c) = String x (a ++ (b ++ c))). rewrite IH. reflexivity.
Qed.

Lemma prepend_consHead cur c l :
  prepend cur (JS.consHead c l) = prepend (cur ++ String c EmptyString) l.
Proof.
  destruct l as [|w ws]; cbn [JS.consHead prepend].
  - reflexivity.
  - rewrite append_assoc. reflexivity.
Qed.

Lemma splitWs_cons s : exists w ws, JS.splitWs s = w :: ws.
Proof.
  induction s as [|c r (w & ws & IH)]; simpl; [eauto|].
  destruct (JS.isSpace c).
  - destruct (JS.headIsSpace r); eauto.
  - rewrite IH. simpl. eauto.
Qed.

Lemma prepend_nil l : l <> [] -> prepend EmptyString l = l.
Proof. destruct l; [congruence|reflexivity]. Qed.

Lemma piecesFrom_splitWs cur s : piecesFrom cur s = prepend cur (JS.splitWs s).
Proof.
  revert cur. induction s as [|c r IH]; intros cur.
  - simpl. rewrite append_nil_r. reflexivity.
  - cbn [piecesFrom JS.splitWs]. rewrite whitespace_isSpace.
    destruct (JS.isSpace c).
    + assert (Hr : piecesFrom EmptyString r = JS.splitWs r).
      { rewrite IH. apply prepend_nil. destruct (splitWs_cons r) as (w & ws & ->). discriminate. }
      destruct r as [|d r'].
      * simpl. rewrite append_nil_r. reflexivity.
      * rewrite whitespace_isSpace. cbn [JS.headIsSpace].
        destruct (JS.isSpace d).
        -- apply IH.
        -- rewrite Hr. simpl. rewrite append_nil_r. reflexivity.
    + rewrite IH, prepend_consHead. reflexivity.
Qed.

Lemma pieces_splitWs s : pieces s = JS.splitWs s.
Proof.
  unfold pieces. rewrite piecesFrom_splitWs. apply prepend_nil.
  destruct (splitWs_cons s) as (w & ws & ->). discriminate.
Qed.

Lemma splitSpace_cons s : exists w ws, JS.splitSpace s = w :: ws.
Proof.
  induction s as [|c r (w & ws & IH)]; simpl; [eauto|].
  destruct (Ascii.eqb c " "%char); [eauto|]. rewrite IH. simpl. eauto.
Qed.

Lemma wordsFrom_splitSpace cur s : wordsFrom cur s = prepend cur (JS.splitSpace s).
Proof.
  revert cur. induction s as [|c r IH]; intros cur.
  - simpl. rewrite append_nil_r. reflexivity.
  - cbn [wordsFrom JS.splitSpace]. destruct (Ascii.eqb c " "%char).
    + rewrite IH, prepend_nil; [simpl; rewrite append_nil_r; reflexivity|].
      destruct (splitSpace_cons r) as (w & ws & ->). discriminate.
    + rewrite IH, prepend_consHead. reflexivity.
Qed.

Lemma phraseWords_splitSpace s : phraseWords s = JS.splitSpace s.
Proof.
  unfold phraseWords. rewrite wordsFrom_splitSpace. apply prepend_nil.
  destruct (splitSpace_cons s) as (w & ws & ->). discriminate.
Qed.

Lemma easeOf_easeOr3 t : easeOf t = easeOr3 t.
Proof. unfold easeOf, easeOr3. destruct (ease t) as [[| |]|]; reflexivity. Qed.

Lemma scored_withScore t z : scored t z = withScore t z.
Proof. reflexivity. Qed.

Lemma insertDesc_ext {A} (k1 k2 : A -> Z) x l :
  (forall y, k1 y = k2 y) -> JS.insertDesc k1 x l = JS.insertDesc k2 x l.
Proof.
  intros H. induction l as [|y l IH]; simpl; [reflexivity|].
  rewrite !H, IH. reflexivity.
Qed.

Lemma sortDesc_ext {A} (k1 k2 : A -> Z) l :
  (forall y, k1 y = k2 y) -> JS.sortDesc k1 l = JS.sortDesc k2 l.
Proof.
  intros H. unfold JS.sortDesc. induction l as [|x l IH]; simpl; [reflexivity|].
  rewrite IH. apply insertDesc_ext. exact H.
Qed.

Lemma insertDesc_map {A B} (f : A -> B) (k : B -> Z) x l :
  JS.insertDesc k (f x) (map f l) = map f (JS.insertDesc (fun a => k (f a)) x l).
Proof.
  induction l as [|y l IH]; simpl; [reflexivity|].
  destruct (k (f x) <? k (f y)); simpl; [rewrite IH|]; reflexivity.
Qed.

Lemma sortDesc_map {A B} (f : A -> B) (k : B -> Z) l :
  JS.sortDesc k (map f l) = map f (JS.sortDesc (fun a => k (f a)) l).
Proof.
  unfold JS.sortDesc. induction l as [|x l IH]; simpl; [reflexivity|].
  rewrite IH. apply insertDesc_map.
Qed.

Lemma filter_map_comm {A B} (f : A -> B) (p : B -> bool) l :
  List.filter p (map f l) = map f (List.filter (fun a => p (f a)) l).
Proof.
  induction l as [|x l IH]; simpl; [reflexivity|].
  destruct (p (f x)); simpl; rewrite IH; reflexivity.
Qed.

Lemma firstArgmax_ext {A} (k1 k2 : A -> Z) l :
  (forall y, k1 y = k2 y) -> firstArgmax k1 l = firstArgmax k2 l.
Proof.
  intros H. induction l as [|x l IH]; simpl; [reflexivity|].
  rewrite IH. destruct (firstArgmax k2 l); [rewrite !H|]; reflexivity.
Qed.

Lemma patternScore_asCoded query p :
  IntentWords.patternScore asCoded query p = patternScoreSpec query p.
Proof.
  unfold IntentWords.patternScore, patternScoreSpec. cbn [wholeWord asCoded].
  rewrite pieces_splitWs.
  rewrite (flat_map_ext phraseWords JS.splitSpace phraseWords_splitSpace). reflexivity.
Qed.

Lemma relevantTools_spec p : relevantTools db p = relevantToolsSpec db p.
Proof.
  unfold relevantTools, relevantToolsSpec. cbv zeta. f_equal. f_equal.
  apply sortDesc_ext. intros t. apply easeOf_easeOr3.
Qed.

Lemma toolScore_asCoded query t : toolScore asCoded query t = toolScoreSpec query t.
Proof.
  unfold toolScore, toolScoreSpec. cbn [nameBonus asCoded]. rewrite pieces_splitWs.
  reflexivity.
Qed.

Lemma keywordSearch_asCoded query :
  keywordSearch db asCoded query = keywordSearchSpec db query.
Proof.
  unfold keywordSearch, keywordSearchSpec.
  rewrite (filter_map_comm (fun t => (t, toolScore asCoded query t))
             (fun ts : FlatTool * Z => 0 <? snd ts)).
  rewrite (sortDesc_map (fun t => (t, toolScore asCoded query t)) snd).
  rewrite firstn_map, List.map_map. cbn [fst snd].
  rewrite (sortDesc_map (fun t => withScore t (toolScoreSpec query t)) scoreOf).
  rewrite firstn_map.
  rewrite (filter_ext (fun a => 0 <? toolScore asCoded query a)
             (fun t => 0 <? toolScoreSpec query t))
    by (intros a; rewrite toolScore_asCoded; reflexivity).
  rewrite (sortDesc_ext (fun a => toolScore asCoded query a)
             (fun a => scoreOf (withScore a (toolScoreSpec query a))))
    by (intros a; rewrite toolScore_asCoded; reflexivity).
  apply map_ext. intros t. rewrite toolScore_asCoded. reflexivity.
Qed.

Lemma analyzeIntentSpec_asCoded userMessage :
  analyzeIntentSpec db userMessage = analyzeIntentAs db asCoded userMessage.
Proof.
  unfold analyzeIntentSpec, analyzeIntentAs. cbv zeta.
  rewrite keywordSearch_asCoded.
  rewrite (firstArgmax_ext (IntentWords.patternScore asCoded _) (patternScoreSpec _) _
             (patternScore_asCoded _)).
  destruct (firstArgmax _ buildIntentMap) as [best|]; [|reflexivity].
  rewrite patternScore_asCoded, relevantTools_spec. reflexivity.
Qed.


End IntentInWords.

(** ** Queries that contain an intent phrase *)

Section Trimming.

Lemma startsWith_includes p s : JS.startsWith p s = true -> JS.includes s p = true.
Proof. intros H. destruct s; simpl; rewrite H; reflexivity. Qed.

Lemma includes_empty p : p <> EmptyString -> JS.includes EmptyString p = false.
Proof. destruct p; [congruence|reflexivity]. Qed.

Lemma startsWith_empty p : p <> EmptyString -> JS.startsWith p EmptyString = false.
Proof. destruct p; [congruence|reflexivity]. Qed.

Lemma startsWith_trimEnd p s :
  p <> EmptyString -> endsWithSpace p = false ->
  JS.startsWith p s = true -> JS.startsWith p (JS.trimEnd s) = true.
Proof.
  revert s. induction p as [|a p IH]; intros s Hne Hend H; [congruence|].
  destruct s as [|c r]; [discriminate|].
  simpl in H. apply andb_prop in H. destruct H as [Hac Hp].
  simpl JS.trimEnd. destruct p as [|b p'].
  - simpl in Hend. apply Ascii.eqb_eq in Hac. subst c. rewrite Hend.
    destruct (JS.trimEnd r); simpl; rewrite Ascii.eqb_refl; reflexivity.
  - assert (Ht : JS.startsWith (String b p') (JS.trimEnd r) = true).
    { apply IH; [discriminate|exact Hend|exact Hp]. }
    destruct (JS.trimEnd r) as [|d t]; [discriminate|].
    change (JS.startsWith (String a (String b p')) (String c (String d t)))
      with (Ascii.eqb a c && JS.startsWith (String b p') (String d t))%bool.
    rewrite Hac, Ht. reflexivity.
Qed.

Lemma includes_trimEnd p s :
  p <> EmptyString -> endsWithSpace p = false ->
  JS.includes s p = true -> JS.includes (JS.trimEnd s) p = true.
Proof.
  intros Hne Hend. induction s as [|c r IH]; intros H.
  - rewrite includes_empty in H by exact Hne. discriminate.
  - simpl in H. apply orb_prop in H. destruct H as [H|H].
    + apply startsWith_includes. apply startsWith_trimEnd; assumption.
    + specialize (IH H). simpl JS.trimEnd.
      destruct (JS.trimEnd r) as [|d t].
      * rewrite includes_empty in IH by exact Hne. discriminate.
      * change (JS.includes (String c (String d t)) p)
          with (JS.startsWith p (String c (String d t)) || JS.includes (String d t) p)%bool.
        rewrite IH. apply orb_true_r.
Qed.

Lemma includes_trimStart p s :
  JS.headIsSpace p = false -> p <> EmptyString ->
  JS.includes s p = true -> JS.includes (JS.trimStart s) p = true.
Proof.
  intros Hhead Hne. induction s as [|c r IH]; intros H; [exact H|].
  simpl JS.trimStart. destruct (JS.isSpace c) eqn:Hc; [|exact H].
  apply IH. simpl in H. apply orb_prop in H. destruct H as [H|H]; [|exact H].
  destruct p as [|a p']; [congruence|]. simpl in H, Hhead.
  apply andb_prop in H. destruct H as [Hac _]. apply Ascii.eqb_eq in Hac. congruence.
Qed.

(** Trimming a string keeps every occurrence of a tight phrase. *)
Lemma includes_trim p s :
  tightPhrase p = true -> JS.includes s p = true -> JS.includes (JS.trim s) p = true.
Proof.
  unfold tightPhrase. intros Ht H.
  apply andb_prop in Ht. destruct Ht as [Ht He]. apply andb_prop in Ht. destruct Ht as [Hn Hh].
  apply negb_true_iff in He, Hn, Hh. apply String.eqb_neq in Hn.
  unfold JS.trim. apply includes_trimEnd; [assumption..|].
  apply includes_trimStart; assumption.
Qed.

Lemma table_phrases_tight p phrase :
  In p DecyIntelligence.buildIntentMap -> In phrase (DecyIntelligence.intents p) ->
  tightPhrase phrase = true.
Proof.
  intros Hp Hphrase.
  assert (H : forallb (fun p => forallb tightPhrase (DecyIntelligence.intents p))
                      DecyIntelligence.buildIntentMap = true) by (vm_compute; reflexivity).
  rewrite forallb_forall in H. specialize (H _ Hp).
  rewrite forallb_forall in H. exact (H _ Hphrase).
Qed.

End Trimming.

Section PhraseMatch.

Import DecyIntelligence IntentSpec.

Variable db : Catalog.

Lemma detectToolGuidance_shape query g :
  detectToolGuidance db query = Some g ->
  matched g = true /\ isGuidance g = true /\ confidence g = 1%Q
  /\ exists t, int_tool g = Some t /\ int_category g = Some (categoryKey t)
                /\ int_tools g = [t].
Proof.
  unfold detectToolGuidance. destruct (negb _); [discriminate|].
  destruct (find _ _) as [t|]; [|discriminate].
  intros [= <-]. simpl. eauto 10.
Qed.

Lemma phrase_scores_twenty query p phrase :
  In phrase (intents p) -> JS.includes query phrase = true ->
  20 <= patternScoreSpec query p.
Proof.
  intros Hin Hinc. unfold patternScoreSpec.
  pose proof (count_pos (JS.includes query) phrase (intents p) Hin Hinc).
  pose proof (count_nonneg (JS.arrayIncludes (JS.splitWs query))
                (flat_map JS.splitSpace (intents p))).
  lia.
Qed.


End PhraseMatch.





(** The three outcomes of the algorithm on the small catalog: a pattern
    match with the priority pick first, a keyword match, and no match. *)
Example analyzeIntent_demo :
  let show := fun r =>
    (DecyIntelligence.matched r, DecyIntelligence.int_category r,
     map (fun t => tool_id (DecyIntelligence.base t)) (DecyIntelligence.int_tools r)) in
  show (DecyIntelligence.analyzeIntent demoCatalog "I need a logo for my startup")
  = (true, Some "design", ["looka"; "canva_design"; "figma"])
  /\ show (DecyIntelligence.analyzeIntent demoCatalog "something with canva templates")
     = (true, Some "mixed", ["canva_design"; "cursor"])
  /\ show (DecyIntelligence.analyzeIntent demoCatalog "zzz qqq") = (false, None, []).
Proof. vm_compute. tauto. Qed.

(** ** The keyword fallback of the orchestrator *)

Section ArgmaxFacts.

Import IntentSpec.

Context {A : Type} (key : A -> Z).

(** The head of the stably sorted list is the first element of maximal
    key. *)
Lemma sortDesc_hd l : hd_error (JS.sortDesc key l) = firstArgmax key l.
Proof.
  induction l as [|x l IH]; [reflexivity|].
  simpl. rewrite <- IH. destruct (JS.sortDesc key l) as [|y s]; [reflexivity|].
  simpl. destruct (key x <? key y); reflexivity.
Qed.

Lemma firstArgmax_max l x y : firstArgmax key l = Some x -> In y l -> key y <= key x.
Proof. intros H. apply firstMax_bound. apply firstArgmax_firstMax. exact H. Qed.

Lemma firstArgmax_in l x : firstArgmax key l = Some x -> In x l.
Proof.
  intros H. apply firstArgmax_firstMax in H. destruct H as (pre & post & -> & _).
  apply in_or_app. right. left. reflexivity.
Qed.

Lemma firstArgmax_map {B} (f : B -> A) l :
  firstArgmax key (map f l) = option_map f (firstArgmax (fun b => key (f b)) l).
Proof.
  induction l as [|b l IH]; [reflexivity|].
  simpl. rewrite IH. destruct (firstArgmax _ l) as [c|]; simpl; [|reflexivity].
  destruct (key (f b) <? key (f c)); reflexivity.
Qed.

(** Dropping the elements that do not score above 0 keeps the first
    maximum when it scores above 0, and leaves nothing otherwise. *)
Lemma firstArgmax_positive l :
  firstArgmax key (List.filter (fun x => 0 <? key x) l)
  = match firstArgmax key l with
    | Some x => if 0 <? key x then Some x else None
    | None => None
    end.
Proof.
  induction l as [|y l IH]; [reflexivity|].
  rewrite filter_cons_if. simpl firstArgmax at 2.
  destruct (firstArgmax key l) as [z|] eqn:E.
  - destruct (key y <? key z) eqn:D; destruct (0 <? key y) eqn:Cy;
      destruct (0 <? key z) eqn:Cz;
      simpl; rewrite ?IH, ?Cz; simpl; rewrite ?D, ?Cy, ?Cz;
      try reflexivity;
      repeat match goal with
             | H : (_ <? _) = true |- _ => apply Z.ltb_lt in H
             | H : (_ <? _) = false |- _ => apply Z.ltb_ge in H
             end;
      lia.
  - destruct (0 <? key y) eqn:Cy; simpl; rewrite IH, ?Cy; reflexivity.
Qed.

End ArgmaxFacts.

Section FallbackScoring.

Import RecommendationEngine IntentSpec FallbackSpec.

Lemma count_map {A B} (p : B -> bool) (f : A -> B) l :
  count p (map f l) = count (fun x => p (f x)) l.
Proof.
  induction l as [|x l IH]; [reflexivity|].
  simpl map. rewrite !count_cons, IH. reflexivity.
Qed.

Lemma keywordStep_count query words score k :
  keywordStep query words score k
  = score + (if JS.includes query (JS.toLowerCase k) then 10 else 0)
    + 3 * count containment (map (fun y => (k, y)) words).
Proof.
  unfold keywordStep. rewrite fold_left_count, count_map.
  change (fun x : string => containment (k, x))
    with (fun word : string =>
            (JS.includes (JS.toLowerCase k) word || JS.includes word (JS.toLowerCase k))%bool).
  destruct (JS.includes query (JS.toLowerCase k)); rewrite ?Z.add_0_r; reflexivity.
Qed.

Lemma keywordStep_fold query words ks a :
  fold_left (keywordStep query words) ks a
  = a + 10 * count (fun k => JS.includes query (JS.toLowerCase k)) ks
    + 3 * count containment (list_prod ks words).
Proof.
  revert a. induction ks as [|k ks IH]; intros a.
  - simpl. rewrite !count_nil. lia.
  - simpl fold_left. simpl list_prod.
    rewrite IH, keywordStep_count, count_cons, count_app.
    destruct (JS.includes query (JS.toLowerCase k)); lia.
Qed.

Lemma toolStep_fold query ts a :
  fold_left (toolStep query) ts a
  = a + 15 * count (fun t => JS.includes query (JS.toLowerCase (tool_name t))) ts
    + 5 * count (fun t => JS.includes query (JS.toLowerCase (bestFor t))) ts.
Proof.
  revert a. induction ts as [|t ts IH]; intros a.
  - simpl. rewrite !count_nil. lia.
  - simpl fold_left. rewrite IH, !count_cons. unfold toolStep.
    destruct (JS.includes query (JS.toLowerCase (tool_name t))),
             (JS.includes query (JS.toLowerCase (bestFor t))); lia.
Qed.

Lemma categoryScore_spec query c :
  categoryScore query (JS.splitWs query) c = categoryScoreSpec query c.
Proof.
  unfold categoryScore, categoryScoreSpec. rewrite toolStep_fold, keywordStep_fold.
  fold containment. lia.
Qed.

End FallbackScoring.

Section FallbackRanking.

Import RecommendationEngine IntentSpec FallbackSpec.

Variable db : Catalog.

Lemma categoryScores_spec query :
  categoryScores db query
  = map (fun kc => (fst kc, (categoryScoreSpec query (snd kc), snd kc)))
        (List.filter (fun kc => 0 <? categoryScoreSpec query (snd kc)) (categories db)).
Proof.
  unfold categoryScores. rewrite <- flat_map_if_singleton.
  apply flat_map_ext. intros kc. rewrite categoryScore_spec. reflexivity.
Qed.

Lemma best_category query :
  hd_error (JS.sortDesc (fun e : string * (Z * Category) => fst (snd e))
                        (categoryScores db query))
  = match firstArgmax (fun kc => categoryScoreSpec query (snd kc)) (categories db) with
    | Some kc =>
        if 0 <? categoryScoreSpec query (snd kc)
        then Some (fst kc, (categoryScoreSpec query (snd kc), snd kc))
        else None
    | None => None
    end.
Proof.
  rewrite sortDesc_hd, categoryScores_spec, firstArgmax_map. simpl.
  rewrite (firstArgmax_positive (fun kc : string * Category =>
                                   categoryScoreSpec query (snd kc))).
  destruct (firstArgmax _ (categories db)) as [kc|]; [|reflexivity].
  destruct (0 <? _); reflexivity.
Qed.


End FallbackRanking.


(** With no keyword of the catalog in the query the fallback gives the
    default set, although the intent matcher has a pattern for it. *)
Example fallback_default_demo :
  RecommendationEngine.source
    (RecommendationEngine.getFallbackRecommendation demoCatalog "portfolio" "free") = "default"
  /\ DecyIntelligence.int_category (DecyIntelligence.analyzeIntent demoCatalog "portfolio")
     = Some "app_building".
Proof. vm_compute. tauto. Qed.

(** * Further properties of the code *)

(** ** Look-up by id *)

Section Lookup.

Import RecommendationEngine.

Variable db : Catalog.

Lemma findInCategories_none cats i :
  findInCategories cats i = None
  <-> ~ In i (map tool_id (flat_map (fun kc : string * Category => tools (snd kc)) cats)).
Proof.
  induction cats as [|[k c] cats IH]; simpl; [tauto|].
  rewrite List.map_app, in_app_iff.
  destruct (find (fun t => String.eqb (tool_id t) i) (tools c)) as [t|] eqn:E.
  - apply find_some in E. destruct E as [Hin Hid]. apply String.eqb_eq in Hid.
    split; [discriminate|]. intros H. exfalso. apply H. left.
    apply in_map_iff. exists t. auto.
  - rewrite IH. split.
    + intros H [Hc|Hr]; [|tauto]. apply in_map_iff in Hc. destruct Hc as (t & Hid & Hin).
      pose proof (find_none _ _ E t Hin) as Hn. simpl in Hn.
      rewrite Hid, String.eqb_refl in Hn. discriminate.
    + tauto.
Qed.

(** X1.  [findToolById] finds a tool exactly when some tool of the catalog
    has the id; what it returns has that id, is a tool of the catalog, and
    carries the name and icon of the category that holds it. *)
Theorem findToolById_sound_and_complete i :
  (forall r, findToolById db i = Some r ->
             tool_id (base r) = i
             /\ exists kc, In kc (categories db) /\ In (base r) (tools (snd kc))
                           /\ category r = cat_name (snd kc)
                           /\ categoryIcon r = cat_icon (snd kc))
  /\ (findToolById db i = None <-> ~ In i (catalogIds db)).
Proof.
  split.
  - intros r H. apply findInCategories_base in H.
    destruct H as (kc & Hkc & Hin & Hr & Hid). split; [exact Hid|].
    exists kc. rewrite Hr. simpl. auto.
  - apply findInCategories_none.
Qed.

Lemma getToolsByIds_sublist ids b :
  sublist (map (fun r => tool_id (base r)) (getToolsByIds db ids b)) ids.
Proof.
  induction ids as [|i ids IH]; simpl; [constructor|].
  destruct (findToolById db i) as [t|] eqn:E; [|constructor; exact IH].
  destruct (isFree b && negb (free (pricing (base t))))%bool; [constructor; exact IH|].
  simpl. apply findInCategories_base in E. destruct E as (_ & _ & _ & _ & ->).
  constructor. exact IH.
Qed.

(** X2.  [getToolsByIds] answers in the order of the request: the ids of
    what it returns are the requested ids with some left out.  An id is
    left out only when no tool has it or, for budget 'free', when the tool
    found has no free tier; the list is not capped. *)
Theorem getToolsByIds_keeps_request_order ids b :
  sublist (map (fun r => tool_id (base r)) (getToolsByIds db ids b)) ids
  /\ (forall i t, In i ids -> findToolById db i = Some t ->
                  isFree b = false \/ free (pricing (base t)) = true ->
                  In t (getToolsByIds db ids b))
  /\ (forall t, In t (getToolsByIds db ids b) ->
                In (tool_id (base t)) ids /\ findToolById db (tool_id (base t)) = Some t).
Proof.
  split; [apply getToolsByIds_sublist|]. split.
  - intros i t Hin Hf Hb. induction ids as [|j ids IH]; [destruct Hin|].
    simpl. destruct Hin as [->|Hin].
    + rewrite Hf. destruct Hb as [-> | ->]; simpl; rewrite ?andb_false_r; left; reflexivity.
    + specialize (IH Hin). destruct (findToolById db j) as [u|]; [|exact IH].
      destruct (isFree b && negb (free (pricing (base u))))%bool; [exact IH|right; exact IH].
  - intros t. induction ids as [|j ids IH]; simpl; [tauto|].
    destruct (findToolById db j) as [u|] eqn:E.
    + assert (Hj : tool_id (base u) = j).
      { apply findInCategories_base in E. destruct E as (_ & _ & _ & _ & H). exact H. }
      destruct (isFree b && negb (free (pricing (base u))))%bool.
      * intros H. destruct (IH H). auto.
      * intros [<-|H]; [rewrite Hj; auto|]. destruct (IH H). auto.
    + intros H. destruct (IH H). auto.
Qed.

End Lookup.

Example getToolsByIds_demo :
  map (fun r => tool_id (RecommendationEngine.base r))
      (RecommendationEngine.getToolsByIds demoCatalog
         ["cursor"; "nope"; "figma"; "looka"; "bolt"; "lovable"; "figma"] "free")
  = ["figma"; "bolt"; "lovable"; "figma"].
Proof. reflexivity. Qed.

Lemma findToolById_sound_and_complete_witness :
  RecommendationEngine.findToolById demoCatalog "figma"
  = Some (RecommendationEngine.enrich
            {| cat_name := "Design"; cat_icon := "D"; keywords := ["design"; "graphic"];
               tools := [looka; canva_design; figma] |} figma)
  /\ RecommendationEngine.findToolById demoCatalog "nope" = None.
Proof.
  split; [reflexivity|].
  apply (proj2 (findToolById_sound_and_complete demoCatalog "nope")).
  vm_compute. intuition discriminate.
Defined.

Lemma getToolsByIds_keeps_request_order_witness :
  In (RecommendationEngine.enrich
        {| cat_name := "App Building"; cat_icon := "A"; keywords := ["website"; "application"];
           tools := [lovable; bolt] |} bolt)
     (RecommendationEngine.getToolsByIds demoCatalog ["looka"; "bolt"] "free").
Proof.
  apply (proj1 (proj2 (getToolsByIds_keeps_request_order demoCatalog ["looka"; "bolt"] "free"))
           "bolt").
  - right. left. reflexivity.
  - reflexivity.
  - right. reflexivity.
Defined.

(** ** Size, provenance and order of a recommendation *)

Section Shape.

Import RecommendationEngine.

Variable db : Catalog.

Lemma length_slice0 {A} n (l : list A) : (List.length (JS.slice0 n l) <= n)%nat.
Proof. unfold JS.slice0. rewrite length_firstn. lia. Qed.

Lemma lookupCategory_in cats key c : lookupCategory cats key = Some c -> In (key, c) cats.
Proof.
  induction cats as [|[k c0] cats IH]; simpl; [discriminate|].
  destruct (String.eqb k key) eqn:E.
  - apply String.eqb_eq in E. intros [= ->]. left. congruence.
  - intros H. right. auto.
Qed.

Lemma topTools_shape b k c :
  In (k, c) (categories db) ->
  (List.length (topTools b c) <= 3)%nat /\ forall r, In r (topTools b c) -> fromCatalog db r.
Proof.
  intros Hc. unfold topTools. split.
  - rewrite length_map. apply length_slice0.
  - intros r Hr. apply in_map_iff in Hr. destruct Hr as (t & <- & Ht).
    apply in_slice0, in_sortDesc, filter_In in Ht. destruct Ht as [Ht _].
    exists (k, c). simpl. auto.
Qed.

Lemma getDefaultRecommendation_shape b :
  (List.length (rec_tools (getDefaultRecommendation db b)) <= 3)%nat
  /\ forall r, In r (rec_tools (getDefaultRecommendation db b)) -> fromCatalog db r.
Proof.
  unfold getDefaultRecommendation. cbn [rec_tools]. split; [apply length_slice0|].
  intros r Hr. apply in_slice0, in_flat_map in Hr. destruct Hr as (i & _ & Hr).
  destruct (findToolById db i) as [t|] eqn:E; [|destruct Hr].
  destruct (negb (isFree b) || free (pricing (base t)))%bool; [|destruct Hr].
  destruct Hr as [<-|[]]. apply findInCategories_base in E.
  destruct E as (kc & Hkc & Hin & Hr & _). exists kc. rewrite Hr. simpl. auto.
Qed.

Lemma categoryScores_in query k z c :
  In (k, (z, c)) (categoryScores db query) -> In (k, c) (categories db).
Proof.
  unfold categoryScores. intros H. apply in_flat_map in H. destruct H as ([k0 c0] & Hin & H).
  simpl in H. destruct (0 <? _); [|destruct H]. destruct H as [[= <- _ <-]|[]]. exact Hin.
Qed.

Lemma getFallbackRecommendation_shape q b :
  (List.length (rec_tools (getFallbackRecommendation db q b)) <= 3)%nat
  /\ forall r, In r (rec_tools (getFallbackRecommendation db q b)) -> fromCatalog db r.
Proof.
  unfold getFallbackRecommendation.
  destruct (JS.sortDesc _ _) as [|[k [z c]] rest] eqn:E.
  - apply getDefaultRecommendation_shape.
  - cbn [rec_tools]. apply (topTools_shape b k c).
    apply (categoryScores_in (JS.toLowerCase q) k z c).
    apply (in_sortDesc (fun e : string * (Z * Category) => fst (snd e))).
    rewrite E. left. reflexivity.
Qed.

Lemma getToolsFromCategory_shape key b q :
  (List.length (rec_tools (getToolsFromCategory db key b q)) <= 3)%nat
  /\ forall r, In r (rec_tools (getToolsFromCategory db key b q)) -> fromCatalog db r.
Proof.
  unfold getToolsFromCategory. destruct (lookupCategory _ key) as [c|] eqn:E.
  - cbn [rec_tools]. apply (topTools_shape b key c). apply lookupCategory_in. exact E.
  - apply getFallbackRecommendation_shape.
Qed.

Lemma enrichRecommendations_shape g b :
  (List.length (rec_tools (enrichRecommendations db g b)) <= 3)%nat
  /\ forall r, In r (rec_tools (enrichRecommendations db g b)) -> fromCatalog db r.
Proof.
  unfold enrichRecommendations. cbn [rec_tools]. split; [apply length_slice0|].
  intros r Hr. apply in_slice0, in_flat_map in Hr. destruct Hr as (kc & Hkc & Hr).
  apply in_flat_map in Hr. destruct Hr as (t & Ht & Hr).
  destruct (JS.arrayIncludes _ _); [|destruct Hr].
  destruct (isFree b && negb (free (pricing t)))%bool; [destruct Hr|].
  destruct Hr as [<-|[]]. exists kc. simpl. auto.
Qed.

(** X3.  Whatever the completion service answers, and for every category
    the caller supplies that is a key of the catalog or no inherited
    property name, [getRecommendations] returns at most three tools, and
    each of them is a tool of the catalog with the name and icon of the
    category that holds it.  (On an inherited property name that is no
    key of the catalog the code throws instead of returning.) *)
Theorem getRecommendations_at_most_three_catalog_tools gemini q b cat :
  ownOrPlain db cat = true ->
  (List.length (rec_tools (getRecommendations db gemini q b cat)) <= 3)%nat
  /\ forall r, In r (rec_tools (getRecommendations db gemini q b cat)) -> fromCatalog db r.
Proof.
  intros _.
  assert (Hai : let r := match gemini with
                         | Some o =>
                             match getGeminiRecommendation db o b with
                             | Some r => match rec_tools r with
                                         | [] => getFallbackRecommendation db q b
                                         | _ => r
                                         end
                             | None => getFallbackRecommendation db q b
                             end
                         | None => getFallbackRecommendation db q b
                         end in
                (List.length (rec_tools r) <= 3)%nat
                /\ forall t, In t (rec_tools r) -> fromCatalog db t).
  { destruct gemini as [[| |g]|]; cbn [getGeminiRecommendation];
      try apply getFallbackRecommendation_shape.
    destruct (rec_tools (enrichRecommendations db g b)) eqn:E.
    - apply getFallbackRecommendation_shape.
    - apply enrichRecommendations_shape. }
  unfold getRecommendations. destruct cat as [key|]; [|exact Hai].
  destruct (String.eqb key EmptyString); [exact Hai|].
  destruct (lookupCategory _ key); [|exact Hai].
  apply getToolsFromCategory_shape.
Qed.

End Shape.

Lemma getRecommendations_at_most_three_catalog_tools_witness :
  fromCatalog demoCatalog
    (RecommendationEngine.enrich
       {| cat_name := "Design"; cat_icon := "D"; keywords := ["design"; "graphic"];
          tools := [looka; canva_design; figma] |} figma).
Proof.
  apply (proj2 (getRecommendations_at_most_three_catalog_tools demoCatalog None
                  "design an app" "free" (Some "design") eq_refl)).
  vm_compute. tauto.
Defined.

Section EaseOrder.

Import RecommendationEngine.

Context {A : Type} (key : A -> Z).

Lemma insertDesc_sorted x l :
  StronglySorted (fun a b => key b <= key a) l ->
  StronglySorted (fun a b => key b <= key a) (JS.insertDesc key x l).
Proof.
  induction 1 as [|y l Hl IH Hy]; simpl.
  - constructor; constructor.
  - destruct (key x <? key y) eqn:C.
    + apply Z.ltb_lt in C. constructor; [exact IH|].
      apply List.Forall_forall. intros z Hz. apply in_insertDesc in Hz.
      destruct Hz as [->|Hz]; [lia|].
      rewrite List.Forall_forall in Hy. exact (Hy _ Hz).
    + apply Z.ltb_ge in C. constructor; [constructor; assumption|].
      constructor; [exact C|].
      rewrite List.Forall_forall in Hy. apply List.Forall_forall. intros z Hz.
      specialize (Hy _ Hz). simpl in Hy. lia.
Qed.

Lemma sortDesc_sorted l : StronglySorted (fun a b => key b <= key a) (JS.sortDesc key l).
Proof.
  induction l as [|x l IH]; simpl; [constructor|]. apply insertDesc_sorted. exact IH.
Qed.

Lemma length_insertDesc x l : List.length (JS.insertDesc key x l) = S (List.length l).
Proof.
  induction l as [|y l IH]; simpl; [reflexivity|].
  destruct (key x <? key y); simpl; rewrite ?IH; reflexivity.
Qed.

Lemma length_sortDesc l : List.length (JS.sortDesc key l) = List.length l.
Proof.
  induction l as [|x l IH]; simpl; [reflexivity|]. rewrite length_insertDesc, IH. reflexivity.
Qed.

Lemma sorted_app_inv (R : A -> A -> Prop) l1 l2 :
  StronglySorted R (l1 ++ l2) ->
  StronglySorted R l1 /\ forall x y, In x l1 -> In y l2 -> R x y.
Proof.
  induction l1 as [|a l1 IH]; simpl; intros H.
  - split; [constructor|]. intros x y [].
  - inversion H as [|? ? Hs Hf]; subst. destruct (IH Hs) as [H1 H2].
    rewrite List.Forall_forall in Hf. split.
    + constructor; [exact H1|]. apply List.Forall_forall. intros z Hz.
      apply Hf. apply in_or_app. left. exact Hz.
    + intros x y [<-|Hx] Hy; [|auto]. apply Hf. apply in_or_app. right. exact Hy.
Qed.

Lemma sorted_map {B} (f : B -> A) (R : A -> A -> Prop) l :
  StronglySorted R (map f l) -> StronglySorted (fun x y => R (f x) (f y)) l.
Proof.
  induction l as [|b l IH]; simpl; intros H; [constructor|].
  inversion H as [|? ? Hs Hf]; subst. constructor; [auto|].
  rewrite List.Forall_forall in Hf. apply List.Forall_forall. intros z Hz.
  apply Hf. apply in_map. exact Hz.
Qed.

End EaseOrder.

Section BestThree.

Import RecommendationEngine.

Variable db : Catalog.

(** X4.  For a category of the catalog, [getToolsFromCategory] returns the
    easiest tools within the budget: the list is ordered by non-increasing
    ease, holds only tools of that category within the budget, has three
    entries unless fewer qualify, and every qualifying tool left out is at
    most as easy as each tool returned. *)
Theorem getToolsFromCategory_three_easiest key c b q :
  lookupCategory (categories db) key = Some c ->
  let r := rec_tools (getToolsFromCategory db key b q) in
  StronglySorted easierFirst r
  /\ (forall x, In x r -> In (base x) (tools c) /\ budgetOk b (base x) = true)
  /\ List.length r = Nat.min 3 (List.length (List.filter (budgetOk b) (tools c)))
  /\ (forall t, In t (tools c) -> budgetOk b t = true ->
                In t (map base r) \/ forall x, In x r -> easeOr3 t <= easeOr3 (base x)).
Proof.
  intros Hc. unfold getToolsFromCategory. rewrite Hc. cbn [rec_tools]. unfold topTools, JS.slice0.
  set (l := JS.sortDesc easeOr3 (List.filter (budgetOk b) (tools c))).
  pose proof (sortDesc_sorted easeOr3 (List.filter (budgetOk b) (tools c))) as Hs.
  fold l in Hs. rewrite <- (firstn_skipn 3 l) in Hs.
  apply sorted_app_inv in Hs. destruct Hs as [Hs Hrest].
  assert (Hbase : map base (map (enrich c) (firstn 3 l)) = firstn 3 l).
  { rewrite List.map_map. simpl. apply List.map_id. }
  split; [|split; [|split]].
  - apply (sorted_map base (fun a b => easeOr3 b <= easeOr3 a)). rewrite Hbase. exact Hs.
  - intros x Hx. apply in_map_iff in Hx. destruct Hx as (t & <- & Ht). simpl.
    apply (in_slice0 t 3 l), in_sortDesc, filter_In in Ht. exact Ht.
  - rewrite length_map, length_firstn. unfold l. rewrite length_sortDesc. reflexivity.
  - intros t Ht Hb. rewrite Hbase.
    assert (Hl : In t l) by (apply in_sortDesc, filter_In; auto).
    rewrite <- (firstn_skipn 3 l) in Hl. apply in_app_or in Hl.
    destruct Hl as [Hl|Hl]; [left; exact Hl|right].
    intros x Hx. apply in_map_iff in Hx. destruct Hx as (u & <- & Hu). simpl.
    exact (Hrest u t Hu Hl).
Qed.

Lemma kept_sublist g b (c : Category) ts :
  sublist (map base (flat_map (fun t =>
                       if JS.arrayIncludes (g_tools g) (tool_id t)
                       then (if (isFree b && negb (free (pricing t)))%bool
                             then [] else [enrich c t])
                       else []) ts)) ts.
Proof.
  induction ts as [|t ts IH]; simpl; [constructor|].
  destruct (JS.arrayIncludes _ _); [|constructor; exact IH].
  destruct (isFree b && negb (free (pricing t)))%bool; simpl; constructor; exact IH.
Qed.

(** X5.  [enrichRecommendations] keeps the order of the catalog, not the
    order of the ids in the answer of the completion service: the tools it
    returns appear in catalog order, and two answers that name the same
    ids, in any order and with any repetition, give the same tools. *)
Theorem enrichRecommendations_in_catalog_order g b :
  sublist (map base (rec_tools (enrichRecommendations db g b))) (allTools db)
  /\ (forall g', (forall i, In i (g_tools g) <-> In i (g_tools g')) ->
                 rec_tools (enrichRecommendations db g' b)
                 = rec_tools (enrichRecommendations db g b)).
Proof.
  split.
  - unfold enrichRecommendations, allTools, JS.slice0. cbn [rec_tools].
    rewrite <- firstn_map. etransitivity; [apply sublist_take|].
    induction (categories db) as [|kc cats IH]; simpl; [constructor|].
    rewrite List.map_app. apply sublist_app; [apply kept_sublist|exact IH].
  - intros g' Hg. unfold enrichRecommendations. cbn [rec_tools]. f_equal.
    apply flat_map_ext. intros kc. apply flat_map_ext. intros t.
    assert (E : JS.arrayIncludes (g_tools g') (tool_id t)
                = JS.arrayIncludes (g_tools g) (tool_id t)).
    { unfold JS.arrayIncludes.
      destruct (existsb (String.eqb (tool_id t)) (g_tools g)) eqn:E1;
        destruct (existsb (String.eqb (tool_id t)) (g_tools g')) eqn:E2; try reflexivity; exfalso.
      - apply existsb_exists in E1. destruct E1 as (i & Hi & He). apply String.eqb_eq in He.
        subst i. apply Hg in Hi.
        assert (existsb (String.eqb (tool_id t)) (g_tools g') = true).
        { apply existsb_exists. exists (tool_id t). split; [exact Hi|apply String.eqb_refl]. }
        congruence.
      - apply existsb_exists in E2. destruct E2 as (i & Hi & He). apply String.eqb_eq in He.
        subst i. apply Hg in Hi.
        assert (existsb (String.eqb (tool_id t)) (g_tools g) = true).
        { apply existsb_exists. exists (tool_id t). split; [exact Hi|apply String.eqb_refl]. }
        congruence. }
    rewrite E. reflexivity.
Qed.

(** X6.  A category key of the catalog supplied by the caller decides the
    result alone, whatever the completion service would answer; and a
    result is attributed to the completion service only when it holds at
    least one tool. *)
Theorem getRecommendations_category_first gemini q b cat :
  (forall key c, cat = Some key -> key <> EmptyString ->
                 lookupCategory (categories db) key = Some c ->
                 getRecommendations db gemini q b cat = getToolsFromCategory db key b q
                 /\ source (getRecommendations db gemini q b cat) = "ai_category")
  /\ (source (getRecommendations db gemini q b cat) = "gemini" ->
      rec_tools (getRecommendations db gemini q b cat) <> []).
Proof.
  split.
  - intros key c -> Hne Hc. unfold getRecommendations.
    apply String.eqb_neq in Hne. rewrite Hne, Hc. split; [reflexivity|].
    unfold getToolsFromCategory. rewrite Hc. reflexivity.
  - assert (Hfb : source (getFallbackRecommendation db q b) <> "gemini").
    { unfold getFallbackRecommendation. destruct (JS.sortDesc _ _) as [|[k [z c]] rest];
        simpl; discriminate. }
    assert (Htc : forall key, source (getToolsFromCategory db key b q) <> "gemini").
    { intros key. unfold getToolsFromCategory. destruct (lookupCategory _ key);
        [simpl; discriminate|exact Hfb]. }
    assert (Hai : let r := match gemini with
                           | Some o =>
                               match getGeminiRecommendation db o b with
                               | Some r => match rec_tools r with
                                           | [] => getFallbackRecommendation db q b
                                           | _ => r
                                           end
                               | None => getFallbackRecommendation db q b
                               end
                           | None => getFallbackRecommendation db q b
                           end in
                  source r = "gemini" -> rec_tools r <> []).
    { destruct gemini as [[| |g]|]; cbn [getGeminiRecommendation];
        try (intros H; exfalso; exact (Hfb H)).
      destruct (rec_tools (enrichRecommendations db g b)) eqn:E.
      - intros H. exfalso. exact (Hfb H).
      - intros _. rewrite E. discriminate. }
    unfold getRecommendations. destruct cat as [key|]; [|exact Hai].
    destruct (String.eqb key EmptyString); [exact Hai|].
    destruct (lookupCategory _ key); [|exact Hai].
    intros H. exfalso. exact (Htc key H).
Qed.

End BestThree.

Lemma getToolsFromCategory_three_easiest_witness :
  StronglySorted easierFirst
    (RecommendationEngine.rec_tools
       (RecommendationEngine.getToolsFromCategory demoCatalog "design" "premium" "a logo")).
Proof.
  apply (proj1 (getToolsFromCategory_three_easiest demoCatalog "design"
                  {| cat_name := "Design"; cat_icon := "D"; keywords := ["design"; "graphic"];
                     tools := [looka; canva_design; figma] |} "premium" "a logo" eq_refl)).
Defined.

Lemma enrichRecommendations_in_catalog_order_witness :
  RecommendationEngine.rec_tools
    (RecommendationEngine.enrichRecommendations demoCatalog
       {| RecommendationEngine.g_category := Some "Design";
          RecommendationEngine.g_tools := ["lovable"; "figma"; "figma"];
          RecommendationEngine.g_reasoning := "picked" |} "free")
  = RecommendationEngine.rec_tools
      (RecommendationEngine.enrichRecommendations demoCatalog
         {| RecommendationEngine.g_category := Some "Design";
            RecommendationEngine.g_tools := ["figma"; "lovable"];
            RecommendationEngine.g_reasoning := "picked" |} "free").
Proof.
  apply (proj2 (enrichRecommendations_in_catalog_order demoCatalog _ "free")).
  intros i. simpl. tauto.
Defined.

Lemma getRecommendations_category_first_witness :
  RecommendationEngine.source
    (RecommendationEngine.getRecommendations demoCatalog
       (Some RecommendationEngine.GeminiThrows) "a logo" "free" (Some "design"))
  = "ai_category".
Proof.
  apply (proj1 (getRecommendations_category_first demoCatalog
                  (Some RecommendationEngine.GeminiThrows) "a logo" "free" (Some "design"))
           "design"
           {| cat_name := "Design"; cat_icon := "D"; keywords := ["design"; "graphic"];
              tools := [looka; canva_design; figma] |});
    [reflexivity|discriminate|reflexivity].
Defined.

(** ** The flat index and the keyword search *)

Section FlatIndex.

Import DecyIntelligence.

Variable db : Catalog.

Lemma startsWith_app w s r : JS.startsWith w s = true -> JS.startsWith w (s ++ r) = true.
Proof.
  revert s. induction w as [|a w IH]; intros s H; [reflexivity|].
  destruct s as [|c s]; [discriminate|]. simpl in *.
  apply andb_prop in H. destruct H as [-> H]. simpl. apply IH. exact H.
Qed.

Lemma includes_nil s : JS.includes s EmptyString = true.
Proof. destruct s; reflexivity. Qed.

Lemma includes_app_l s r w : JS.includes s w = true -> JS.includes (s ++ r) w = true.
Proof.
  induction s as [|c s IH]; intros H.
  - destruct w; [apply includes_nil|discriminate].
  - simpl in H. apply orb_prop in H.
    change (JS.includes (String c s ++ r) w)
      with (JS.startsWith w (String c (s ++ r)) || JS.includes (s ++ r) w)%bool.
    destruct H as [H|H].
    + pose proof (startsWith_app w (String c s) r H) as H'.
      change (String c s ++ r) with (String c (s ++ r)) in H'. rewrite H'. reflexivity.
    + rewrite (IH H). apply orb_true_r.
Qed.

Lemma toLowerCase_app a b :
  JS.toLowerCase (a ++ b) = JS.toLowerCase a ++ JS.toLowerCase b.
Proof. induction a as [|c a IH]; simpl; [reflexivity|]. rewrite IH. reflexivity. Qed.

Lemma flatten_text_has_name k c t w :
  JS.includes (JS.toLowerCase (tool_name t)) w = true ->
  JS.includes (searchText (flatten k c t)) w = true.
Proof.
  intros H. unfold flatten. cbn [searchText]. unfold JS.join.
  change (String.concat " " ([tool_name t; bestFor t; JS.orOpt (whySuitsYou t) EmptyString;
                               JS.orOpt (limits t) EmptyString] ++ keywords c))
    with (tool_name t ++ " " ++ String.concat " "
            ([bestFor t; JS.orOpt (whySuitsYou t) EmptyString;
              JS.orOpt (limits t) EmptyString] ++ keywords c)).
  rewrite toLowerCase_app. apply includes_app_l. exact H.
Qed.

Lemma in_allToolsFlat t :
  In t (allToolsFlat db) ->
  exists kc u, In kc (categories db) /\ In u (tools (snd kc)) /\ t = flatten (fst kc) (snd kc) u.
Proof.
  unfold allToolsFlat, flattenTools. intros H. apply in_flat_map in H.
  destruct H as (kc & Hkc & H). apply in_map_iff in H. destruct H as (u & <- & Hu). eauto.
Qed.

Lemma base_allToolsFlat : map base (allToolsFlat db) = allTools db.
Proof.
  unfold allToolsFlat, flattenTools, allTools.
  induction (categories db) as [|kc cats IH]; simpl; [reflexivity|].
  rewrite List.map_app, IH, List.map_map. simpl. rewrite List.map_id. reflexivity.
Qed.

Lemma searchText_has_name t w :
  In t (allToolsFlat db) ->
  JS.includes (JS.toLowerCase (tool_name (base t))) w = true ->
  JS.includes (searchText t) w = true.
Proof.
  intros Ht Hw. apply in_allToolsFlat in Ht. destruct Ht as (kc & u & _ & _ & ->).
  apply flatten_text_has_name. exact Hw.
Qed.

(** X7.  The flat index holds every tool of the catalog once, in catalog
    order, each under the key, name and keywords of its category; and its
    search text contains every string the lowercased tool name contains,
    so a query word found in a name is found in the search text too. *)
Theorem allToolsFlat_is_the_catalog :
  map base (allToolsFlat db) = allTools db
  /\ (forall t, In t (allToolsFlat db) ->
        exists c, In (categoryKey t, c) (categories db) /\ In (base t) (tools c)
                  /\ categoryName t = cat_name c /\ categoryKeywords t = keywords c
                  /\ matchScore t = None)
  /\ (forall t w, In t (allToolsFlat db) ->
        JS.includes (JS.toLowerCase (tool_name (base t))) w = true ->
        JS.includes (searchText t) w = true).
Proof.
  split; [apply base_allToolsFlat|split].
  - intros t Ht. apply in_allToolsFlat in Ht. destruct Ht as ([k c] & u & Hkc & Hu & ->).
    exists c. simpl. auto 6.
  - apply searchText_has_name.
Qed.

(** The word loop of the keyword search adds 0, 5 or 20 for a word, never
    15 alone. *)
Lemma wordScore_steps query t s w :
  In t (allToolsFlat db) ->
  wordScore query t s w = s \/ wordScore query t s w = s + 5 \/ wordScore query t s w = s + 20.
Proof.
  intros Ht. unfold wordScore. destruct (String.length w <? 3)%nat; [auto|].
  destruct (JS.includes (JS.toLowerCase (tool_name (base t))) w) eqn:E.
  - rewrite (searchText_has_name t w Ht E). right. right. lia.
  - destruct (JS.includes (searchText t) w); auto.
Qed.

End FlatIndex.

Lemma allToolsFlat_is_the_catalog_witness :
  JS.includes (DecyIntelligence.searchText
                 (DecyIntelligence.flatten "design"
                    {| cat_name := "Design"; cat_icon := "D"; keywords := ["design"; "graphic"];
                       tools := [looka; canva_design; figma] |} figma)) "fig" = true.
Proof.
  apply (proj2 (proj2 (allToolsFlat_is_the_catalog demoCatalog))).
  - vm_compute. tauto.
  - reflexivity.
Defined.

Section KeywordSearch.

Import DecyIntelligence.

Variable db : Catalog.

Lemma wordScore_fold_steps query t ws s :
  In t (allToolsFlat db) -> 0 <= s -> s mod 5 = 0 ->
  s <= fold_left (wordScore query t) ws s /\ fold_left (wordScore query t) ws s mod 5 = 0.
Proof.
  intros Ht. revert s. induction ws as [|w ws IH]; intros s Hs Hm; simpl; [split; [lia|exact Hm]|].
  destruct (wordScore_steps db query t s w Ht) as [E|[E|E]]; rewrite E.
  - apply IH; assumption.
  - destruct (IH (s + 5)) as [H1 H2]; [lia| |split; [lia|exact H2]].
    rewrite <- Z.add_mod_idemp_l, Hm by lia. reflexivity.
  - destruct (IH (s + 20)) as [H1 H2]; [lia| |split; [lia|exact H2]].
    rewrite <- Z.add_mod_idemp_l, Hm by lia. reflexivity.
Qed.


Lemma length_dedupIds seen l : (List.length (IntentSpec.dedupIds seen l) <= List.length l)%nat.
Proof.
  revert seen. induction l as [|t l IH]; intros seen; simpl; [lia|].
  destruct (existsb _ seen); simpl; [specialize (IH seen)|specialize (IH (tool_id (base t) :: seen))];
    lia.
Qed.

Lemma length_resolve ids : (List.length (IntentSpec.resolve db ids) <= List.length ids)%nat.
Proof.
  induction ids as [|i ids IH]; simpl; [lia|].
  rewrite List.length_app. destruct (find _ _); simpl; lia.
Qed.

Lemma getRelevantTools_at_most pattern query :
  (List.length (getRelevantTools db pattern query)
   <= Nat.max 6 (List.length (priority pattern)))%nat.
Proof.
  rewrite getRelevantTools_spec. unfold IntentSpec.relevantToolsSpec.
  rewrite List.length_app, length_firstn.
  pose proof (length_dedupIds [] (IntentSpec.resolve db (priority pattern))).
  pose proof (length_resolve (priority pattern)). lia.
Qed.

(** X9.  For every message and every catalog, [analyzeIntent] returns at
    most six tools, with a confidence between 0 and 1. *)
Theorem analyzeIntent_at_most_six userMessage :
  (List.length (int_tools (analyzeIntent db userMessage)) <= 6)%nat
  /\ (0 <= confidence (analyzeIntent db userMessage))%Q
  /\ (confidence (analyzeIntent db userMessage) <= 1)%Q.
Proof.
  unfold analyzeIntent. set (query := JS.trim (JS.toLowerCase userMessage)).
  destruct (detectToolGuidance db query) as [g|] eqn:Hg.
  - destruct (detectToolGuidance_shape db query g Hg) as (_ & _ & Hc & t & _ & _ & Ht).
    rewrite Ht, Hc. simpl. repeat split; try lia; discriminate.
  - unfold intentMap. rewrite scoreStep_fold.
    assert (Hk : let r := match searchAllTools db query with
                          | [] => {| matched := false; isGuidance := false;
                                     int_category := None; int_tool := None;
                                     int_context :=
                                       "Could not determine specific tool needs from the message.";
                                     confidence := 0; int_tools := [] |}
                          | _ :: _ => {| matched := true; isGuidance := false;
                                         int_category := Some "mixed"; int_tool := None;
                                         int_context :=
                                           "The user is looking for: " ++ JS.dquote ++ query
                                           ++ JS.dquote ++ ". Found tools by keyword match.";
                                         confidence := 3 # 10;
                                         int_tools := JS.slice0 6 (searchAllTools db query) |}
                          end in
                  (List.length (int_tools r) <= 6)%nat
                  /\ (0 <= confidence r)%Q /\ (confidence r <= 1)%Q).
    { destruct (searchAllTools db query) as [|t l] eqn:E.
      - simpl. repeat split; try lia; discriminate.
      - cbn [int_tools confidence]. split; [apply length_slice0|].
        split; discriminate. }
    destruct (IntentSpec.firstArgmax _ buildIntentMap) as [best|] eqn:E; [|exact Hk].
    destruct (0 <? IntentSpec.patternScoreSpec query best) eqn:C; [|exact Hk].
    destruct (5 <=? IntentSpec.patternScoreSpec query best) eqn:C5; [|exact Hk].
    cbn [int_tools confidence]. apply Z.ltb_lt in C. split; [|split].
    + pose proof (getRelevantTools_at_most best query) as H.
      assert (Hp : (List.length (priority best) <= 6)%nat).
      { assert (Hall : forallb (fun p => (List.length (priority p) <=? 6)%nat) buildIntentMap
                       = true) by (vm_compute; reflexivity).
        rewrite forallb_forall in Hall. apply Nat.leb_le. apply Hall.
        eapply firstArgmax_in. exact E. }
      lia.
    + apply Q.min_glb; [unfold Qle; simpl; lia|discriminate].
    + apply Q.le_min_r.
Qed.

Lemma no_score_for_empty_query (l : list FlatTool) :
  flat_map (fun t => let score := fold_left (wordScore EmptyString t)
                                    (JS.splitWs (JS.toLowerCase EmptyString)) 0 in
                     if 0 <? score then [withScore t score] else []) l = [].
Proof. induction l as [|t l IH]; simpl; [reflexivity|exact IH]. Qed.

(** X10.  An empty or whitespace-only message is never matched, whatever
    the catalog holds: no guidance, no pattern and no keyword search
    result, confidence 0 and no tools. *)
Theorem analyzeIntent_blank_message userMessage :
  JS.trim (JS.toLowerCase userMessage) = EmptyString ->
  analyzeIntent db userMessage
  = {| matched := false; isGuidance := false; int_category := None; int_tool := None;
       int_context := "Could not determine specific tool needs from the message.";
       confidence := 0; int_tools := [] |}.
Proof.
  intros H. unfold analyzeIntent. rewrite H.
  assert (Hg : detectToolGuidance db EmptyString = None).
  { unfold detectToolGuidance.
    assert (existsb (fun signal => JS.includes EmptyString signal) guidanceSignals = false) as ->
      by (vm_compute; reflexivity).
    reflexivity. }
  rewrite Hg.
  assert (Hf : fold_left (scoreStep EmptyString (JS.splitWs EmptyString)) intentMap (None, 0)
               = (None, 0)) by (vm_compute; reflexivity).
  rewrite Hf.
  assert (Hs : searchAllTools db EmptyString = []).
  { unfold searchAllTools. rewrite no_score_for_empty_query. reflexivity. }
  rewrite Hs. reflexivity.
Qed.

End KeywordSearch.

Lemma analyzeIntent_blank_message_witness :
  DecyIntelligence.matched (DecyIntelligence.analyzeIntent demoCatalog "   ") = false.
Proof.
  rewrite (analyzeIntent_blank_message demoCatalog "   " eq_refl). reflexivity.
Defined.

(** ** No tool twice in a result *)

Section Distinct.

Import DecyIntelligence.

Context {A B : Type} (f : A -> B).

Lemma in_map_filter (p : A -> bool) l y : In y (map f (List.filter p l)) -> In y (map f l).
Proof.
  intros H. apply in_map_iff in H. destruct H as (x & <- & Hx).
  apply filter_In in Hx. apply in_map. tauto.
Qed.

Lemma NoDup_map_filter (p : A -> bool) l : NoDup (map f l) -> NoDup (map f (List.filter p l)).
Proof.
  induction l as [|x l IH]; simpl; intros H; [constructor|].
  inversion H as [|? ? Hx Hl]; subst. destruct (p x); simpl; [|auto].
  constructor; [|auto]. intros Hin. apply Hx. apply list_elem_of_In.
  apply list_elem_of_In in Hin. eapply in_map_filter. exact Hin.
Qed.

Lemma NoDup_map_firstn n l : NoDup (map f l) -> NoDup (map f (firstn n l)).
Proof.
  revert l. induction n as [|n IH]; intros [|x l] H; simpl; try constructor.
  - inversion H as [|? ? Hx Hl]; subst. intros Hin. apply Hx.
    apply list_elem_of_In. apply list_elem_of_In in Hin.
    apply in_map_iff in Hin. destruct Hin as (y & <- & Hy). apply in_map.
    exact (in_slice0 y n l Hy).
  - inversion H; subst. auto.
Qed.

Lemma insertDesc_permutation (key : A -> Z) x l : Permutation (JS.insertDesc key x l) (x :: l).
Proof.
  induction l as [|y l IH]; simpl; [reflexivity|].
  destruct (key x <? key y); [|reflexivity].
  etransitivity; [apply perm_skip; exact IH|apply perm_swap].
Qed.

Lemma sortDesc_permutation (key : A -> Z) l : Permutation (JS.sortDesc key l) l.
Proof.
  induction l as [|x l IH]; simpl; [reflexivity|].
  etransitivity; [apply insertDesc_permutation|apply perm_skip; exact IH].
Qed.

Lemma NoDup_map_sortDesc (key : A -> Z) l :
  NoDup (map f l) -> NoDup (map f (JS.sortDesc key l)).
Proof.
  intros H. rewrite (Permutation_map f (sortDesc_permutation key l)). exact H.
Qed.

End Distinct.

Section DistinctResults.

Import DecyIntelligence.

Variable db : Catalog.

Lemma flat_ids : map flatId (allToolsFlat db) = catalogIds db.
Proof.
  unfold catalogIds. rewrite <- (base_allToolsFlat db), List.map_map.
  reflexivity.
Qed.

Lemma dedupIds_distinct seen l :
  NoDup (map flatId (IntentSpec.dedupIds seen l))
  /\ forall x, In x (map flatId (IntentSpec.dedupIds seen l)) -> ~ In x seen.
Proof.
  revert seen. induction l as [|t l IH]; intros seen; simpl; [split; [constructor|tauto]|].
  destruct (existsb (String.eqb (tool_id (base t))) seen) eqn:E; [apply IH|].
  destruct (IH (tool_id (base t) :: seen)) as [Hn Hs]. simpl. split.
  - constructor; [|exact Hn]. intros Hin. apply list_elem_of_In in Hin.
    apply (Hs _ Hin). left. reflexivity.
  - intros x [<-|Hx].
    + intros Hin. assert (existsb (String.eqb (flatId t)) seen = true).
      { apply existsb_exists. exists (flatId t). split; [exact Hin|apply String.eqb_refl]. }
      unfold flatId in *. congruence.
    + intros Hin. apply (Hs _ Hx). right. exact Hin.
Qed.

Lemma getRelevantTools_distinct pattern query :
  NoDup (catalogIds db) -> NoDup (map flatId (getRelevantTools db pattern query)).
Proof.
  intros Hdb. rewrite getRelevantTools_spec. unfold IntentSpec.relevantToolsSpec.
  set (picks := IntentSpec.dedupIds [] (IntentSpec.resolve db (priority pattern))).
  rewrite List.map_app. apply NoDup_app.
  split; [apply dedupIds_distinct|]. split.
  - intros x Hx Hin. apply list_elem_of_In in Hx, Hin.
    apply in_map_iff in Hin. destruct Hin as (t & <- & Ht).
    apply (in_slice0 t), in_sortDesc, filter_In in Ht. destruct Ht as [_ Ht].
    apply andb_prop in Ht. destruct Ht as [_ Ht]. apply negb_true_iff in Ht.
    assert (existsb (String.eqb (tool_id (base t))) (map (fun u => tool_id (base u)) picks)
            = true).
    { apply existsb_exists. exists (flatId t). split; [exact Hx|apply String.eqb_refl]. }
    congruence.
  - apply NoDup_map_firstn, NoDup_map_sortDesc, NoDup_map_filter.
    rewrite flat_ids. exact Hdb.
Qed.

Lemma searchAllTools_distinct query :
  NoDup (catalogIds db) -> NoDup (map flatId (searchAllTools db query)).
Proof.
  intros Hdb. unfold searchAllTools.
  rewrite (flat_map_if_singleton
             (fun t => 0 <? fold_left (wordScore query t) (JS.splitWs (JS.toLowerCase query)) 0)
             (fun t => withScore t (fold_left (wordScore query t)
                                      (JS.splitWs (JS.toLowerCase query)) 0))).
  apply NoDup_map_firstn, NoDup_map_sortDesc. rewrite List.map_map. simpl.
  apply (NoDup_map_filter flatId). rewrite flat_ids. exact Hdb.
Qed.

(** X11.  When the ids of the catalog are pairwise distinct, no tool occurs
    twice in what [analyzeIntent] returns: the priority picks are
    deduplicated, the tools filling up the list exclude them, and the
    keyword search lists each tool once. *)
Theorem analyzeIntent_no_tool_twice userMessage :
  NoDup (catalogIds db) ->
  NoDup (map flatId (int_tools (analyzeIntent db userMessage))).
Proof.
  intros Hdb. unfold analyzeIntent. set (query := JS.trim (JS.toLowerCase userMessage)).
  destruct (detectToolGuidance db query) as [g|] eqn:Hg.
  - destruct (detectToolGuidance_shape db query g Hg) as (_ & _ & _ & t & _ & _ & Ht).
    rewrite Ht. simpl. apply NoDup_singleton.
  - unfold intentMap. rewrite scoreStep_fold.
    assert (Hk : NoDup (map flatId (int_tools
                  match searchAllTools db query with
                  | [] => {| matched := false; isGuidance := false;
                             int_category := None; int_tool := None;
                             int_context :=
                               "Could not determine specific tool needs from the message.";
                             confidence := 0; int_tools := [] |}
                  | _ :: _ => {| matched := true; isGuidance := false;
                                 int_category := Some "mixed"; int_tool := None;
                                 int_context :=
                                   "The user is looking for: " ++ JS.dquote ++ query
                                   ++ JS.dquote ++ ". Found tools by keyword match.";
                                 confidence := 3 # 10;
                                 int_tools := JS.slice0 6 (searchAllTools db query) |}
                  end))).
    { pose proof (searchAllTools_distinct query Hdb) as H.
      destruct (searchAllTools db query) as [|t l]; [constructor|].
      cbn [int_tools]. apply NoDup_map_firstn. exact H. }
    destruct (IntentSpec.firstArgmax _ buildIntentMap) as [best|]; [|exact Hk].
    destruct (0 <? IntentSpec.patternScoreSpec query best); [|exact Hk].
    destruct (5 <=? IntentSpec.patternScoreSpec query best); [|exact Hk].
    cbn [int_tools]. apply getRelevantTools_distinct. exact Hdb.
Qed.

End DistinctResults.

Lemma analyzeIntent_no_tool_twice_witness :
  NoDup (map flatId (DecyIntelligence.int_tools
                       (DecyIntelligence.analyzeIntent demoCatalog "I need a logo"))).
Proof.
  apply (analyzeIntent_no_tool_twice demoCatalog "I need a logo").
  apply (bool_decide_unpack _). vm_compute. exact I.
Defined.

(** ** The chat handler with all its strategies *)

Section ChatChain.

Import ConversationPolicy ChatFallback.

Variables systemPrompt geminiPrompt : string.

Lemma run_tryCatch {R} (oracle : list Message -> Reply) (p h : Prog R) :
  run oracle (tryCatch p h)
  = match run oracle p with
    | (n, Some r) => (n, Some r)
    | (n, None) => let '(m, r) := run oracle h in ((n + m)%nat, r)
    end.
Proof.
  induction p as [r| |m k IH]; simpl.
  - reflexivity.
  - destruct (run oracle h). reflexivity.
  - rewrite IH. destruct (run oracle (k (oracle m))) as [n [r|]]; [reflexivity|].
    destruct (run oracle h). reflexivity.
Qed.

Lemma question_wellFormed text : wellFormed (question text).
Proof.
  unfold wellFormed, chatTypes. simpl. split; [reflexivity|]. split; [tauto|]. discriminate.
Qed.

Lemma toolRequest_wellFormed text :
  asksBudget (assistantSays text) = true -> wellFormed (toolRequest text).
Proof.
  intros H. unfold wellFormed, chatTypes. simpl. split; [reflexivity|]. split; [tauto|].
  intros _. exists text. split; [reflexivity | exact H].
Qed.

Lemma directRecommendation_wellFormed b q : wellFormed (directRecommendation b q).
Proof.
  unfold wellFormed, chatTypes. simpl. split; [reflexivity|]. split; [tauto|]. discriminate.
Qed.

Lemma getSmartFallback_wellFormed message history :
  wellFormed (getSmartFallback message history).
Proof.
  unfold getSmartFallback. cbv zeta.
  assert (R : wellFormed
    (if startsWithAny greetingStarts (JS.trim (JS.toLowerCase message))
      then question "Hey there! 👋 I'm DECY, an AI assistant that knows 50+ AI tools inside-out. What are you working on today?"
      else if includesAny smallTalk (JS.trim (JS.toLowerCase message))
      then question "I'm doing great, thanks for asking! 😊 Ready to help you find the perfect AI tools. What's on your mind?"
      else if includesAny thanksWords (JS.trim (JS.toLowerCase message))
      then question "You're welcome! 😊 Anything else you'd like to know about AI tools?"
      else if includesAny identityQuestions (JS.trim (JS.toLowerCase message))
      then question "I'm DECY! 🤖 Think of me as your AI-savvy friend who knows 50+ tools like Canva, Midjourney, Bolt, Runway, and more. I can help you find the right tool for any project - just tell me what you're building!"
      else
        match find (fun ta => JS.includes (JS.trim (JS.toLowerCase message)) (fst ta)) toolAnswers with
        | Some ta => question (snd ta)
        | None =>
            if (includesAny requestPhrases (JS.trim (JS.toLowerCase message))
                && includesAny topicWords (JS.trim (JS.toLowerCase message)))%bool
            then toolRequest budgetQuestionText
            else question "I'm here to chat and help! 😊 I know a ton about AI tools - from image generators to app builders. What's on your mind?"
        end)).
  { repeat match goal with
           | |- wellFormed (if ?c then _ else _) => destruct c
           | |- wellFormed (match ?x with Some _ => _ | None => _ end) => destruct x
           end;
      try apply question_wellFormed.
    apply toolRequest_wellFormed. vm_compute. reflexivity. }
  destruct (startsWithAny followUpStarts _); [|exact R].
  destruct (find _ toolInfo); [apply question_wellFormed | exact R].
Qed.

Lemma getGroqResponse_run oracle message history :
  exists n r, run oracle (getGroqResponse systemPrompt message history) = (n, r)
              /\ (n <= 1)%nat /\ (forall x, r = Some x -> wellFormed x).
Proof.
  assert (D : forall b q, exists n r,
            run oracle (Ret (directRecommendation b q)) = (n, r)
            /\ (n <= 1)%nat /\ (forall x, r = Some x -> wellFormed x)).
  { intros b q. exists 0%nat, (Some (directRecommendation b q)).
    split; [reflexivity|]. split; [lia|].
    intros x [= <-]. apply directRecommendation_wellFormed. }
  unfold getGroqResponse. cbv zeta.
  match goal with
  | |- context [match ?sc with Some r => Ret r | None => ?rest end] =>
      assert (R : exists n r, run oracle rest = (n, r)
                  /\ (n <= 1)%nat /\ (forall x, r = Some x -> wellFormed x))
  end.
  { destruct (_ && _)%bool; [apply D|].
    cbn [run]. destruct (oracle _) as [|text]; cbn [run].
    - exists 1%nat, None. split; [reflexivity|]. split; [lia|]. discriminate.
    - eexists 1%nat, (Some _). split; [reflexivity|]. split; [lia|].
      intros x [= <-]. unfold wellFormed, chatTypes. cbn [success type response].
      split; [reflexivity|]. split.
      + destruct (_ && _)%bool; simpl; tauto.
      + destruct (JS.includes (JS.toLowerCase text) "free") eqn:F;
          [|cbn [andb]; discriminate].
        destruct (JS.includes (JS.toLowerCase text) "premium") eqn:P;
          [|cbn [andb]; discriminate].
        intros _. exists text. split; [reflexivity|].
        unfold asksBudget, assistantSays. cbn [content]. rewrite F, P. reflexivity. }
  destruct (isStandaloneBudgetAnswer _ && _)%bool; [|exact R].
  destruct (JS.lastWhere isAssistant history) as [a|]; [|exact R].
  destruct (JS.includes (JS.toLowerCase (content a)) "free" && _)%bool;
    [apply D | exact R].
Qed.

Lemma afterGroq_run oracle genAI message history :
  exists n r, run oracle (afterGroq geminiPrompt genAI message history) = (n, Some r)
              /\ (n <= if genAI then 1 else 0)%nat /\ wellFormed r.
Proof.
  unfold afterGroq. destruct genAI.
  - rewrite run_tryCatch. unfold getSmartResponse. cbv zeta. cbn [run].
    destruct (oracle _) as [|t]; cbn [run].
    + eexists 1%nat, _. split; [reflexivity|]. split; [lia|].
      apply getSmartFallback_wellFormed.
    + eexists 1%nat, _. split; [reflexivity|]. split; [lia|].
      destruct (JS.includes (JS.toLowerCase (JS.trim t)) "free") eqn:F;
        [|apply question_wellFormed].
      destruct (JS.includes (JS.toLowerCase (JS.trim t)) "premium") eqn:P;
        [|apply question_wellFormed].
      destruct (JS.includes (JS.toLowerCase (JS.trim t)) "prefer");
        [|apply question_wellFormed].
      cbn [andb]. apply toolRequest_wellFormed.
      unfold asksBudget, assistantSays. cbn [content]. rewrite F, P. reflexivity.
  - exists 0%nat, (getSmartFallback message history).
    split; [reflexivity|]. split; [lia|]. apply getSmartFallback_wellFormed.
Qed.

Lemma handleChat_run oracle groq genAI message history :
  exists n r,
    run oracle (handleChat systemPrompt groq (afterGroq geminiPrompt genAI) message history)
    = (n, Some r)
    /\ (n <= (if groq then 1 else 0) + (if genAI then 1 else 0))%nat
    /\ wellFormed r.
Proof.
  destruct (afterGroq_run oracle genAI message history) as (m & r2 & E2 & L2 & W2).
  unfold handleChat. destruct groq.
  - rewrite run_tryCatch.
    destruct (getGroqResponse_run oracle message history) as (n & r1 & E1 & L1 & W1).
    rewrite E1. destruct r1 as [x|].
    + exists n, x. split; [reflexivity|]. split; [lia|]. apply W1. reflexivity.
    + rewrite E2. exists (n + m)%nat, r2. split; [reflexivity|]. split; [lia|]. exact W2.
  - exists m, r2. split; [exact E2|]. split; [lia|]. exact W2.
Qed.

(** X12.  [handleChat] with its three strategies (the first provider, the
    second provider, the rule-based responder) always answers: whatever
    the completion services reply or throw, and whichever providers are
    configured, no exception escapes, at most one completion call is made
    per configured provider, and the answer reports success with one of
    the three types, a [tool_request] carrying a text that mentions both
    budgets.  With no provider configured the answer is that of
    [getSmartFallback], without any call. *)
Theorem handleChat_always_answers oracle groq genAI message history :
  (exists n r,
     run oracle (handleChat systemPrompt groq (afterGroq geminiPrompt genAI) message history)
     = (n, Some r)
     /\ (n <= (if groq then 1 else 0) + (if genAI then 1 else 0))%nat
     /\ wellFormed r)
  /\ run oracle (handleChat systemPrompt false (afterGroq geminiPrompt false) message history)
     = (0%nat, Some (getSmartFallback message history)).
Proof.
  split; [apply handleChat_run | reflexivity].
Qed.

(** X13.  Two turns compose: when [handleChat] answers a message with a
    [tool_request] and the client appends the message and the answer's
    text to the history, a following standalone budget answer is resolved
    by [getGroqResponse] at once, without a completion call, into a
    [direct_recommendation] whose original query is the message that was
    answered by the budget question. *)
Theorem tool_request_then_budget_answer oracle groq genAI message history n r answer :
  run oracle (handleChat systemPrompt groq (afterGroq geminiPrompt genAI) message history)
  = (n, Some r) ->
  type r = "tool_request" ->
  isStandaloneBudgetAnswer (JS.trim (JS.toLowerCase answer)) = true ->
  exists text,
    response r = Some text
    /\ getGroqResponse systemPrompt answer
         (history ++ [userSays message; assistantSays text])
       = Ret (directRecommendation
                (if JS.includes (JS.trim (JS.toLowerCase answer)) "free"
                 then "free" else "premium")
                message).
Proof.
  intros Hrun Htype Hans.
  destruct (handleChat_run oracle groq genAI message history) as (n' & r' & E & _ & W).
  rewrite Hrun in E. injection E as _ <-.
  destruct W as (_ & _ & W). destruct (W Htype) as (text & Hresp & Hask).
  exists text. split; [exact Hresp|].
  unfold getGroqResponse. rewrite Hans.
  assert (Hlen : Nat.eqb (List.length (history ++ [userSays message; assistantSays text])) 0
                 = false).
  { rewrite length_app. simpl. apply Nat.eqb_neq. lia. }
  rewrite Hlen. cbn [negb andb].
  change (history ++ [userSays message; assistantSays text])%list
    with (history ++ userSays message :: assistantSays text :: [])%list.
  assert (HA : JS.lastWhere isAssistant
                 (history ++ userSays message :: assistantSays text :: [])
               = Some (assistantSays text)).
  { change (history ++ userSays message :: assistantSays text :: [])%list
      with (history ++ [userSays message] ++ assistantSays text :: [])%list.
    rewrite app_assoc. apply lastWhere_split; reflexivity. }
  rewrite HA. unfold asksBudget in Hask. rewrite Hask.
  assert (HU : List.last (map Some (List.filter isUser
                 (history ++ userSays message :: assistantSays text :: []))) None
               = Some (userSays message)).
  { apply (lastWhere_split isUser history (userSays message) [assistantSays text]);
      reflexivity. }
  rewrite HU. reflexivity.
Qed.

End ChatChain.

Lemma tool_request_then_budget_answer_witness :
  exists text,
    ConversationPolicy.response (ChatFallback.getSmartFallback "I want to build an app" [])
    = Some text
    /\ ConversationPolicy.getGroqResponse "You are DECY" "Free"
         ([] ++ [userSays "I want to build an app"; assistantSays text])
       = ConversationPolicy.Ret
           (ConversationPolicy.directRecommendation "free" "I want to build an app").
Proof.
  apply (tool_request_then_budget_answer "You are DECY" "You are DECY"
           (fun _ => ConversationPolicy.Threw) false false
           "I want to build an app" [] 0%nat
           (ChatFallback.getSmartFallback "I want to build an app" []) "Free");
    vm_compute; reflexivity.
Defined.

(** ** The budget answer in the two revisions of the engine *)

Section BudgetAnswerRevisions.

Import ConversationPolicy ChatFallback.

Variables systemPrompt geminiPrompt : string.
Variable parseJSON : string -> option AIFirstChat.AIResponse.

Lemma run_mapProg {A B} (f : A -> B) (oracle : list Message -> Reply) (p : Prog A) :
  run oracle (ServiceChat.mapProg f p)
  = (fst (run oracle p), option_map f (snd (run oracle p))).
Proof.
  induction p as [r| |m k IH]; simpl; [reflexivity..|].
  rewrite IH. destruct (run oracle (k (oracle m))). reflexivity.
Qed.

Lemma getSmartFallback_type message history :
  type (getSmartFallback message history) = "question"
  \/ type (getSmartFallback message history) = "tool_request".
Proof.
  unfold getSmartFallback. cbv zeta.
  match goal with
  | |- context [match ?f with Some r => r | None => ?rest end] =>
      assert (R : type rest = "question" \/ type rest = "tool_request")
  end.
  { repeat match goal with
           | |- context [if ?c then _ else _] => destruct c
           | |- context [match ?x with Some _ => _ | None => _ end] => destruct x
           end; simpl; auto. }
  destruct (startsWithAny followUpStarts _); [|exact R].
  destruct (find _ toolInfo); [left; reflexivity | exact R].
Qed.

(** The later strategies answer with a question or a budget question,
    never with a list of tools. *)
Lemma afterGroq_type oracle genAI message history :
  exists n r, run oracle (afterGroq geminiPrompt genAI message history) = (n, Some r)
              /\ (type r = "question" \/ type r = "tool_request").
Proof.
  unfold afterGroq. destruct genAI.
  - rewrite run_tryCatch. unfold getSmartResponse. cbv zeta. cbn [run].
    destruct (oracle _) as [|t]; cbn [run].
    + eexists 1%nat, _. split; [reflexivity|]. apply getSmartFallback_type.
    + eexists 1%nat, _. split; [reflexivity|].
      destruct (_ && _)%bool; simpl; auto.
  - exists 0%nat, (getSmartFallback message history).
    split; [reflexivity|]. apply getSmartFallback_type.
Qed.

Lemma not_a_tool_list (r : Response) :
  type r = "question" \/ type r = "tool_request" ->
  type r <> "direct_recommendation" /\ type r <> "show_tools".
Proof. intros [-> | ->]; split; discriminate. Qed.

(** C5, as the code has it.  For a standalone budget answer after a
    history whose most recent assistant turn mentions both 'free' and
    'premium':

    - in the revision of [unnamed/part_001], with the first provider
      configured, [getGroqResponse] and [handleChat] return at once,
      without a completion call, a [direct_recommendation] with the
      budget the message names and, as original query, the content of the
      last user turn of the history (the turn before the budget question
      when no user turn follows it), or the message itself when the
      history has no user turn;
    - in either revision, with the first provider not configured,
      [handleChat] hands the message to the later strategies, which
      answer with a question or a budget question, never with a list of
      tools;
    - in [services/recommendation.js], [getGroqResponse] has no
      short-circuit: it makes one completion call, carrying the system
      prompt, the last eight turns and the message, and its result is
      [show_tools] only when the parsed answer of the service has that
      action, whose budget and tool ids it then carries; [handleChat]
      with the first provider configured therefore consults it. *)
Theorem budget_answer_short_circuits message before a after :
  isStandaloneBudgetAnswer (JS.trim (JS.toLowerCase message)) = true ->
  isAssistant a = true ->
  forallb (fun m => negb (isAssistant m)) after = true ->
  asksBudget a = true ->
  let history := (before ++ a :: after)%list in
  let budget :=
    if JS.includes (JS.trim (JS.toLowerCase message)) "free" then "free" else "premium" in
  let query :=
    match JS.lastWhere isUser history with
    | Some m => content m
    | None => message
    end in
  (getGroqResponse systemPrompt message history = Ret (directRecommendation budget query)
   /\ (forall oracle later,
         run oracle (handleChat systemPrompt true later message history)
         = (0%nat, Some (directRecommendation budget query)))
   /\ (forall u, forallb (fun m => negb (isUser m)) after = true ->
                 JS.lastWhere isUser before = Some u -> query = content u))
  /\ ((forall later, handleChat systemPrompt false later message history
                     = later message history)
      /\ (forall oracle genAI,
            exists n r,
              run oracle (handleChat systemPrompt false (afterGroq geminiPrompt genAI)
                            message history) = (n, Some r)
              /\ type r <> "direct_recommendation")
      /\ (forall oracle genAI,
            exists n r,
              run oracle (ServiceChat.handleChat systemPrompt geminiPrompt parseJSON
                            false genAI message history)
              = (n, Some (ServiceChat.FromLater r))
              /\ type r <> "direct_recommendation" /\ type r <> "show_tools"))
  /\ ((forall oracle,
         exists res,
           run oracle (AIFirstChat.getGroqResponse systemPrompt parseJSON message history)
           = (1%nat, res)
           /\ forall r, res = Some r -> AIFirstChat.chat_type r = "show_tools" ->
                exists t ai,
                  oracle (sentToGroq systemPrompt message history) = Text t
                  /\ parseJSON (JS.orStr t "{}") = Some ai
                  /\ AIFirstChat.action ai = Some "show_tools"
                  /\ AIFirstChat.chat_budget r = AIFirstChat.ai_budget ai
                  /\ AIFirstChat.toolIds r = AIFirstChat.ai_tools ai)
      /\ (forall oracle genAI,
            (1 <= fst (run oracle (ServiceChat.handleChat systemPrompt geminiPrompt parseJSON
                                     true genAI message history)))%nat)).
Proof.
  intros Hmsg Ha Hafter Hask history budget query.
  destruct (getGroqResponse_short_circuit systemPrompt (fun _ _ => Raise) message before a
              after Hmsg Ha Hafter Hask) as (q & Hg & _ & _ & Hu & Hn).
  fold history in Hg, Hn. fold budget in Hg.
  assert (Hq : q = query).
  { assert (E : Ret (directRecommendation budget q)
                = Ret (directRecommendation budget query)).
    { rewrite <- Hg. unfold getGroqResponse. rewrite Hmsg.
      assert (Hlen : Nat.eqb (List.length history) 0 = false).
      { unfold history. rewrite length_app. simpl. apply Nat.eqb_neq. lia. }
      rewrite Hlen. cbn [negb andb].
      unfold history at 1. rewrite (lastWhere_split isAssistant before a after Ha Hafter).
      unfold asksBudget in Hask. rewrite Hask. reflexivity. }
    injection E as E. exact E. }
  subst q. split; [|split].
  - split; [exact Hg|]. split.
    + intros oracle later. unfold handleChat. rewrite Hg. reflexivity.
    + exact Hu.
  - split; [reflexivity|]. split.
    + intros oracle genAI. unfold handleChat.
      destruct (afterGroq_type oracle genAI message history) as (n & r & E & T).
      exists n, r. split; [exact E|]. apply not_a_tool_list. exact T.
    + intros oracle genAI. unfold ServiceChat.handleChat. rewrite run_mapProg.
      destruct (afterGroq_type oracle genAI message history) as (n & r & E & T).
      rewrite E. exists n, r. split; [reflexivity|]. apply not_a_tool_list. exact T.
  - split.
    + intros oracle. unfold AIFirstChat.getGroqResponse. cbv zeta. cbn [run].
      change ({| role := "system"; content := systemPrompt |}
              :: map (fun msg => {| role := if isUser msg then "user" else "assistant";
                                    content := content msg |})
                     (JS.sliceLast 8 history)
              ++ [{| role := "user"; content := message |}])%list
        with (sentToGroq systemPrompt message history).
      destruct (oracle (sentToGroq systemPrompt message history)) as [|t] eqn:O; cbn [run].
      * exists None. split; [reflexivity|]. discriminate.
      * destruct (parseJSON (JS.orStr t "{}")) as [ai|] eqn:P.
        -- destruct (AIFirstChat.action ai) as [act|] eqn:A;
             [destruct (AIFirstChat.ai_budget ai) as [b|] eqn:B;
              [destruct (AIFirstChat.ai_tools ai) as [ids|] eqn:I|]|];
             try (eexists; split; [reflexivity|]; intros r [= <-]; discriminate).
           destruct (String.eqb act "show_tools" && negb (String.eqb b EmptyString))%bool
             eqn:C; cbn [run].
           ++ eexists. split; [reflexivity|]. intros r [= <-] _.
              apply andb_prop in C. destruct C as [C _]. apply String.eqb_eq in C. subst act.
              exists t, ai. rewrite A, B, I. auto.
           ++ eexists. split; [reflexivity|]. intros r [= <-]. discriminate.
        -- eexists. split; [reflexivity|]. intros r [= <-]. discriminate.
    + intros oracle genAI. unfold ServiceChat.handleChat. rewrite run_tryCatch, run_mapProg.
      unfold AIFirstChat.getGroqResponse. cbv zeta. cbn [run fst snd].
      destruct (run oracle _) as [n [r|]]; cbn [fst snd option_map]; [lia|].
      destruct (run oracle (ServiceChat.mapProg _ _)). cbn [fst]. lia.
Qed.

End BudgetAnswerRevisions.

Lemma budget_answer_short_circuits_witness :
  ConversationPolicy.getGroqResponse "You are DECY" "free"
    [userSays "I need a logo for my startup"; budgetQuestion]
  = ConversationPolicy.Ret
      (ConversationPolicy.directRecommendation "free" "I need a logo for my startup").
Proof.
  apply (budget_answer_short_circuits "You are DECY" "You are DECY" demoParse "free"
           [userSays "I need a logo for my startup"] budgetQuestion []
           eq_refl eq_refl eq_refl eq_refl).
Defined.

(** C5, counterexample to the claim as stated.  The message 'free' comes
    right after the budget question that followed 'I need a logo for my
    startup'.  In [services/recommendation.js] the handler consults the
    completion service, and on an answer without an action the result is
    plain chat; with no provider configured the handler of either
    revision answers with a question.  No result lists tools for budget
    'free', and none carries the earlier query. *)
Lemma budget_answer_not_short_circuited :
  let history := [userSays "I need a logo for my startup"; budgetQuestion] in
  ConversationPolicy.isStandaloneBudgetAnswer "free" = true
  /\ asksBudget budgetQuestion = true
  /\ (let '(calls, answer) :=
        ConversationPolicy.run (fun _ => ConversationPolicy.Text "{}")
          (ServiceChat.handleChat "You are DECY" "You are DECY" demoParse true false
             "free" history) in
      calls = 1%nat /\ option_map ServiceChat.answerType answer = Some "chat")
  /\ (let '(calls, answer) :=
        ConversationPolicy.run (fun _ => ConversationPolicy.Threw)
          (ServiceChat.handleChat "You are DECY" "You are DECY" demoParse false false
             "free" history) in
      calls = 0%nat /\ option_map ServiceChat.answerType answer = Some "question")
  /\ (let '(calls, answer) :=
        ConversationPolicy.run (fun _ => ConversationPolicy.Threw)
          (ConversationPolicy.handleChat "You are DECY" false
             (ChatFallback.afterGroq "You are DECY" false) "free" history) in
      calls = 0%nat /\ option_map ConversationPolicy.type answer = Some "question"
      /\ option_map ConversationPolicy.originalQuery answer = Some None).
Proof. vm_compute. repeat split. Qed.

(** ** The catalog and the log under discovery *)

Section Commit.

Import ToolScraper.

Variable stringify : ToolData -> string.

Lemma keys_pushTool cats key entry : map fst (pushTool cats key entry) = map fst cats.
Proof.
  induction cats as [|[k c] cats IH]; simpl; [reflexivity|].
  destruct (String.eqb k key); simpl; [reflexivity|]. rewrite IH. reflexivity.
Qed.

Lemma lookupCategory_pushTool_other cats key entry key' :
  key' <> key -> lookupCategory (pushTool cats key entry) key' = lookupCategory cats key'.
Proof.
  intros Hne. induction cats as [|[k c] cats IH]; simpl; [reflexivity|].
  destruct (String.eqb k key) eqn:E; simpl.
  - apply String.eqb_eq in E. subst k.
    assert (N : String.eqb key key' = false) by (apply String.eqb_neq; congruence).
    rewrite N. reflexivity.
  - rewrite IH. reflexivity.
Qed.

Lemma find_id_none (l : list Tool) i :
  find (fun t => String.eqb (tool_id t) i) l = None <-> ~ In i (map tool_id l).
Proof.
  induction l as [|t l IH]; simpl; [tauto|].
  destruct (String.eqb (tool_id t) i) eqn:E.
  - apply String.eqb_eq in E. split; [discriminate|]. intros H. exfalso. apply H. auto.
  - apply String.eqb_neq in E. rewrite IH. tauto.
Qed.

(** X14.  [addToolToDatabase] reports success exactly when the entry's
    category is a key of the catalog, no tool of that category has the
    entry's id, and the catalog document can be written; when it does not,
    nothing is changed. *)
Theorem addToolToDatabase_succeeds_iff w tool fs :
  (fst (addToolToDatabase w tool fs) = true
   <-> (exists cat, lookupCategory (categories (toolsFile fs)) (e_category tool) = Some cat
                    /\ ~ In (e_id tool) (map tool_id (tools cat)))
       /\ toolsWritable w = true)
  /\ (fst (addToolToDatabase w tool fs) = false -> snd (addToolToDatabase w tool fs) = fs).
Proof.
  split.
  - unfold addToolToDatabase.
    destruct (lookupCategory _ _) as [cat|]; simpl.
    + destruct (find _ (tools cat)) eqn:F; simpl.
      * split; [discriminate|]. intros [(c & [= <-] & Hn) _]. apply find_id_none in Hn.
        congruence.
      * destruct (toolsWritable w); simpl.
        -- split; [|reflexivity]. intros _. split; [|reflexivity].
           exists cat. split; [reflexivity|]. apply find_id_none. exact F.
        -- split; [discriminate|]. intros [_ H]. discriminate.
    + split; [discriminate|]. intros [(c & H & _) _]. discriminate.
  - destruct (addToolToDatabase w tool fs) as [[|] fs'] eqn:E; simpl; [discriminate|].
    intros _. exact (addToolToDatabase_false _ _ _ _ E).
Qed.

(** X15.  A successful commit appends the entry to its category and
    leaves the rest of the catalog as it was: the keys and their order,
    every other category, the name, icon and keywords and the earlier
    tools of the target category, and the discovery log. *)
Theorem commit_appends_to_its_category w tool fs fs' :
  addToolToDatabase w tool fs = (true, fs') ->
  map fst (categories (toolsFile fs')) = map fst (categories (toolsFile fs))
  /\ (exists c,
        lookupCategory (categories (toolsFile fs)) (e_category tool) = Some c
        /\ lookupCategory (categories (toolsFile fs')) (e_category tool)
           = Some {| cat_name := cat_name c; cat_icon := cat_icon c; keywords := keywords c;
                     tools := tools c ++ [toolEntry tool] |})
  /\ (forall key, key <> e_category tool ->
        lookupCategory (categories (toolsFile fs')) key
        = lookupCategory (categories (toolsFile fs)) key)
  /\ discoveredFile fs' = discoveredFile fs.
Proof.
  intros H. apply addToolToDatabase_true in H. destruct H as (c & Hl & _ & Hc & _ & Hd).
  rewrite Hc. split; [apply keys_pushTool|]. split.
  - exists c. split; [exact Hl|]. apply lookupCategory_pushTool. exact Hl.
  - split; [|exact Hd]. intros key Hne. apply lookupCategory_pushTool_other. exact Hne.
Qed.

Lemma find_app_id (l : list Tool) e i :
  find (fun t => String.eqb (tool_id t) i) (l ++ [e])
  = match find (fun t => String.eqb (tool_id t) i) l with
    | Some t => Some t
    | None => if String.eqb (tool_id e) i then Some e else None
    end.
Proof.
  induction l as [|t l IH]; simpl; [reflexivity|].
  destruct (String.eqb (tool_id t) i); [reflexivity|exact IH].
Qed.

Lemma findInCategories_pushTool_other cats key entry i :
  tool_id entry <> i ->
  RecommendationEngine.findInCategories (pushTool cats key entry) i
  = RecommendationEngine.findInCategories cats i.
Proof.
  intros Hne. apply String.eqb_neq in Hne.
  induction cats as [|[k c] cats IH]; simpl; [reflexivity|].
  destruct (String.eqb k key); simpl.
  - rewrite find_app_id, Hne. destruct (find _ (tools c)); reflexivity.
  - rewrite IH. reflexivity.
Qed.

Lemma findInCategories_pushTool_fresh cats key entry c :
  lookupCategory cats key = Some c ->
  ~ In (tool_id entry) (map tool_id (flat_map (fun kc : string * Category => tools (snd kc)) cats)) ->
  RecommendationEngine.findInCategories (pushTool cats key entry) (tool_id entry)
  = Some (RecommendationEngine.enrich c entry).
Proof.
  induction cats as [|[k c0] cats IH]; simpl; [discriminate|].
  rewrite List.map_app, in_app_iff. intros Hl Hfresh.
  assert (F : find (fun t => String.eqb (tool_id t) (tool_id entry)) (tools c0) = None).
  { apply find_id_none. tauto. }
  destruct (String.eqb k key); simpl.
  - injection Hl as ->. rewrite find_app_id, F, String.eqb_refl. reflexivity.
  - rewrite F. apply IH; [exact Hl|tauto].
Qed.

Lemma in_ids_pushTool cats key entry c :
  lookupCategory cats key = Some c ->
  In (tool_id entry)
     (map tool_id (flat_map (fun kc : string * Category => tools (snd kc))
                            (pushTool cats key entry))).
Proof.
  intros H. apply in_map. exact (in_pushTool cats key entry c {| totalTools := 0; lastUpdated := EmptyString |} H).
Qed.

(** X16.  What is committed can be looked up: on the catalog a successful
    commit wrote, [findToolById] finds a tool under the committed id, and
    it is the committed entry, under the name and icon of its category,
    when no tool had that id before; the look-up of every other id is
    unchanged. *)
Theorem committed_tool_is_found w tool fs fs' :
  addToolToDatabase w tool fs = (true, fs') ->
  (exists t, RecommendationEngine.findToolById (toolsFile fs') (e_id tool) = Some t
             /\ tool_id (RecommendationEngine.base t) = e_id tool)
  /\ (~ In (e_id tool) (catalogIds (toolsFile fs)) ->
      exists c, lookupCategory (categories (toolsFile fs)) (e_category tool) = Some c
                /\ RecommendationEngine.findToolById (toolsFile fs') (e_id tool)
                   = Some (RecommendationEngine.enrich c (toolEntry tool)))
  /\ (forall i, i <> e_id tool ->
        RecommendationEngine.findToolById (toolsFile fs') i
        = RecommendationEngine.findToolById (toolsFile fs) i).
Proof.
  intros H. apply addToolToDatabase_true in H. destruct H as (c & Hl & _ & Hc & _ & _).
  unfold RecommendationEngine.findToolById. rewrite Hc. split; [|split].
  - destruct (RecommendationEngine.findInCategories
                (pushTool (categories (toolsFile fs)) (e_category tool) (toolEntry tool))
                (e_id tool)) as [t|] eqn:E.
    + exists t. split; [reflexivity|].
      apply findInCategories_base in E. destruct E as (_ & _ & _ & _ & E). exact E.
    + exfalso. apply findInCategories_none in E. apply E.
      exact (in_ids_pushTool _ _ (toolEntry tool) c Hl).
  - intros Hfresh. exists c. split; [exact Hl|].
    exact (findInCategories_pushTool_fresh _ _ (toolEntry tool) c Hl Hfresh).
  - intros i Hne. apply findInCategories_pushTool_other. simpl. congruence.
Qed.

Lemma pushTool_permutation cats key entry c :
  lookupCategory cats key = Some c ->
  flat_map (fun kc : string * Category => tools (snd kc)) (pushTool cats key entry)
  ≡ₚ entry :: flat_map (fun kc : string * Category => tools (snd kc)) cats.
Proof.
  induction cats as [|[k c0] cats IH]; simpl; [discriminate|].
  destruct (String.eqb k key); simpl; intros Hl.
  - rewrite <- app_assoc. simpl.
    symmetry. apply Permutation_middle.
  - rewrite (IH Hl). symmetry. apply Permutation_middle.
Qed.

Lemma distinct_pushTool cats key entry c :
  lookupCategory cats key = Some c ->
  ~ In (tool_id entry) (map tool_id (tools c)) ->
  Forall (fun kc : string * Category => NoDup (map tool_id (tools (snd kc)))) cats ->
  Forall (fun kc : string * Category => NoDup (map tool_id (tools (snd kc))))
         (pushTool cats key entry).
Proof.
  intros Hl Hfresh. induction cats as [|[k c0] cats IH]; simpl in *; [discriminate|].
  intros HF. apply List.Forall_cons_iff in HF. destruct HF as [H0 HF].
  destruct (String.eqb k key); simpl.
  - injection Hl as ->. constructor; [|exact HF]. simpl in *.
    rewrite List.map_app. apply NoDup_app. split; [exact H0|]. split.
    + intros x Hx Hx'. simpl in Hx'. apply list_elem_of_In in Hx, Hx'.
      destruct Hx' as [<-|[]]. exact (Hfresh Hx).
    + apply NoDup_singleton.
  - constructor; [exact H0|]. exact (IH Hl HF).
Qed.

(** X17.  A successful commit keeps the ids of each category pairwise
    distinct; it keeps the ids of the whole catalog pairwise distinct
    when no tool of the catalog had the committed id before. *)
Theorem commit_keeps_ids_distinct w tool fs fs' :
  addToolToDatabase w tool fs = (true, fs') ->
  (distinctWithin (toolsFile fs) -> distinctWithin (toolsFile fs'))
  /\ (NoDup (catalogIds (toolsFile fs)) -> ~ In (e_id tool) (catalogIds (toolsFile fs)) ->
      NoDup (catalogIds (toolsFile fs'))).
Proof.
  intros H. apply addToolToDatabase_true in H. destruct H as (c & Hl & Hf & Hc & _ & _).
  split.
  - unfold distinctWithin. rewrite Hc.
    apply (distinct_pushTool _ _ (toolEntry tool) c Hl).
    apply find_id_none in Hf. exact Hf.
  - intros Hnd Hfresh. unfold catalogIds, allTools in *. rewrite Hc.
    rewrite (Permutation_map tool_id (pushTool_permutation _ _ (toolEntry tool) c Hl)).
    simpl. apply NoDup_cons. split; [|exact Hnd].
    intros Hin. apply list_elem_of_In in Hin. exact (Hfresh Hin).
Qed.

(** Every way in which a discovery by URL ends. *)
Lemma discoverToolByUrl_cases w url fs r fs' :
  discoverToolByUrl stringify w url fs = (r, fs') ->
  (success r = false /\ fs' = fs /\ res_tool r = None
   /\ exists msg, In msg discoveryErrors /\ error r = Some msg)
  \/ (success r = true /\ error r = None
      /\ exists raw e fs0,
           analyzeToolUrl w url = Some raw
           /\ categorizeWithAI stringify w raw = Some e
           /\ addToolToDatabase w e fs = (true, fs0)
           /\ fs' = logDiscovery w e fs0
           /\ res_tool r = Some e).
Proof.
  unfold discoverToolByUrl, discoveryErrors.
  destruct (analyzeToolUrl w url) as [raw|];
    [|intros [= <- <-]; left; simpl; eauto 10].
  destruct (bool_decide _); [intros [= <- <-]; left; simpl; eauto 10|].
  destruct (categorizeWithAI stringify w raw) as [e|] eqn:Hc;
    [|intros [= <- <-]; left; simpl; eauto 10].
  destruct (addToolToDatabase w e fs) as [[|] fs0] eqn:Ha.
  - intros [= <- <-]. right. simpl. eauto 10.
  - intros [= <- <-]. left. simpl. rewrite (addToolToDatabase_false _ _ _ _ Ha). eauto 10.
Qed.

(** X18.  A discovery by URL that reports failure has written nothing:
    both persisted documents are as before, the result carries no tool,
    and the error is one of the four messages of [discoverToolByUrl]. *)
Theorem failed_discovery_writes_nothing w url fs r fs' :
  discoverToolByUrl stringify w url fs = (r, fs') ->
  success r = false ->
  fs' = fs /\ res_tool r = None /\ exists msg, In msg discoveryErrors /\ error r = Some msg.
Proof.
  intros H Hs. destruct (discoverToolByUrl_cases _ _ _ _ _ H) as [(_ & H1)|(H1 & _)].
  - exact H1.
  - congruence.
Qed.

(** Whether the log can be written changes neither the result nor the
    catalog of a discovery. *)
Lemma discoverToolByUrl_whatever_the_log w w' url fs :
  fetched w' = fetched w -> groq w' = groq w -> toolsWritable w' = toolsWritable w ->
  now w' = now w ->
  fst (discoverToolByUrl stringify w' url fs) = fst (discoverToolByUrl stringify w url fs)
  /\ toolsFile (snd (discoverToolByUrl stringify w' url fs))
     = toolsFile (snd (discoverToolByUrl stringify w url fs)).
Proof.
  intros Hf Hg Ht Hn.
  assert (Ha : analyzeToolUrl w' url = analyzeToolUrl w url).
  { unfold analyzeToolUrl. rewrite Hf. reflexivity. }
  assert (Hc : forall raw, categorizeWithAI stringify w' raw = categorizeWithAI stringify w raw).
  { intros raw. unfold categorizeWithAI. rewrite Hg. reflexivity. }
  assert (Hd : forall e, addToolToDatabase w' e fs = addToolToDatabase w e fs).
  { intros e. unfold addToolToDatabase. rewrite Ht, Hn. reflexivity. }
  unfold discoverToolByUrl. rewrite Ha.
  destruct (analyzeToolUrl w url) as [raw|]; [|split; reflexivity].
  destruct (bool_decide _); [split; reflexivity|].
  rewrite Hc. destruct (categorizeWithAI stringify w raw) as [e|]; [|split; reflexivity].
  rewrite Hd. destruct (addToolToDatabase w e fs) as [[|] fs1]; [|split; reflexivity].
  split; [reflexivity|]. cbn [snd]. rewrite !toolsFile_logDiscovery. reflexivity.
Qed.

(** X19.  The discovery log is append-only and its count stays right: a
    discovery by URL leaves the log as it was or appends one record, the
    latter only on success and then the record of the committed entry,
    stamped with the time of the call; when the stored count was the
    number of records before, it is so afterwards.  A log that cannot be
    written does not undo the commit: the result and the catalog written
    are the same whether or not the log can be written, and a success
    without a writable log leaves the log as it was. *)
Theorem discovery_log_append_only w url fs r fs' :
  discoverToolByUrl stringify w url fs = (r, fs') ->
  (logCounted fs -> logCounted fs')
  /\ (d_tools (discoveredFile fs') = d_tools (discoveredFile fs)
      \/ exists e, success r = true /\ res_tool r = Some e /\ logWritable w = true
                   /\ d_tools (discoveredFile fs')
                      = (d_tools (discoveredFile fs) ++ [recordOf w e])%list
                   /\ lastScrape (discoveredFile fs') = Some (now w))
  /\ (success r = true -> logWritable w = false ->
      discoveredFile fs' = discoveredFile fs /\ toolsFile fs' <> toolsFile fs)
  /\ (forall w', fetched w' = fetched w -> groq w' = groq w ->
                 toolsWritable w' = toolsWritable w -> now w' = now w ->
                 fst (discoverToolByUrl stringify w' url fs) = r
                 /\ toolsFile (snd (discoverToolByUrl stringify w' url fs)) = toolsFile fs').
Proof.
  intros H.
  assert (Hlog : forall w', fetched w' = fetched w -> groq w' = groq w ->
                   toolsWritable w' = toolsWritable w -> now w' = now w ->
                   fst (discoverToolByUrl stringify w' url fs) = r
                   /\ toolsFile (snd (discoverToolByUrl stringify w' url fs)) = toolsFile fs').
  { intros w' Hf Hg Ht Hn.
    pose proof (discoverToolByUrl_whatever_the_log w w' url fs Hf Hg Ht Hn) as Hw.
    rewrite H in Hw. exact Hw. }
  destruct (discoverToolByUrl_cases _ _ _ _ _ H) as [(Hs & -> & _)|(Hs & _ & H1)].
  - split; [tauto|]. split; [left; reflexivity|]. split; [congruence|exact Hlog].
  - destruct H1 as (raw & e & fs0 & _ & _ & Ha & -> & Hr).
    pose proof (addToolToDatabase_true _ _ _ _ Ha) as (c & Hl & _ & Hc & _ & Hd).
    split; [|split; [|split; [|exact Hlog]]].
    + unfold logCounted, logDiscovery. destruct (logWritable w); simpl.
      * intros _. reflexivity.
      * rewrite Hd. tauto.
    + unfold logDiscovery. destruct (logWritable w) eqn:Hw; simpl.
      * right. exists e. rewrite Hd. unfold recordOf. auto.
      * left. rewrite Hd. reflexivity.
    + intros _ Hw. unfold logDiscovery. rewrite Hw. split; [exact Hd|]. intros E.
      pose proof (length_pushTool _ _ (toolEntry e) c (metadata (toolsFile fs))
                    (metadata (toolsFile fs)) Hl) as L.
      rewrite <- Hc in L.
      assert (E' : allTools (toolsFile fs0) = allTools (toolsFile fs)) by (rewrite E; reflexivity).
      unfold allTools in *. simpl in L. rewrite E' in L. lia.
Qed.

End Commit.

Lemma commit_appends_to_its_category_witness :
  let fs' := snd (ToolScraper.addToolToDatabase welcomeWorld
                    (mkEntry "foo" "Foo" "design" true) demoFiles) in
  map fst (categories (ToolScraper.toolsFile fs'))
  = ["app_building"; "design"; "coding_assistance"]
  /\ lookupCategory (categories (ToolScraper.toolsFile fs')) "coding_assistance"
     = lookupCategory (categories demoCatalog) "coding_assistance".
Proof.
  intros fs'.
  destruct (commit_appends_to_its_category welcomeWorld (mkEntry "foo" "Foo" "design" true)
              demoFiles fs' eq_refl) as (K & _ & F & _).
  split; [exact K | apply F; discriminate].
Defined.

Lemma committed_tool_is_found_witness :
  let fs' := snd (ToolScraper.addToolToDatabase welcomeWorld
                    (mkEntry "foo" "Foo" "design" true) demoFiles) in
  exists c, lookupCategory (categories demoCatalog) "design" = Some c
            /\ RecommendationEngine.findToolById (ToolScraper.toolsFile fs') "foo"
               = Some (RecommendationEngine.enrich c
                         (ToolScraper.toolEntry (mkEntry "foo" "Foo" "design" true))).
Proof.
  intros fs'.
  apply (proj1 (proj2 (committed_tool_is_found welcomeWorld (mkEntry "foo" "Foo" "design" true)
                         demoFiles fs' eq_refl))).
  vm_compute. intuition discriminate.
Defined.

Lemma commit_keeps_ids_distinct_witness :
  NoDup (catalogIds (ToolScraper.toolsFile
                       (snd (ToolScraper.addToolToDatabase welcomeWorld
                               (mkEntry "foo" "Foo" "design" true) demoFiles)))).
Proof.
  apply (proj2 (commit_keeps_ids_distinct welcomeWorld (mkEntry "foo" "Foo" "design" true)
                  demoFiles _ eq_refl)).
  - apply (bool_decide_unpack _). vm_compute. exact I.
  - vm_compute. intuition discriminate.
Defined.

Lemma failed_discovery_writes_nothing_witness :
  snd (ToolScraper.discoverToolByUrl demoStringify blogWorld "https://blog.example" demoFiles)
  = demoFiles.
Proof.
  apply (failed_discovery_writes_nothing demoStringify blogWorld "https://blog.example"
           demoFiles _ _ (surjective_pairing _)).
  vm_compute. reflexivity.
Defined.

Lemma discovery_log_append_only_witness :
  logCounted
    (snd (ToolScraper.discoverToolByUrl demoStringify welcomeWorld "https://foo.example"
            demoFiles)).
Proof.
  apply (proj1 (discovery_log_append_only demoStringify welcomeWorld "https://foo.example"
                  demoFiles _ _ (surjective_pairing _))).
  reflexivity.
Defined.

(** ** The duplicate check and the discovery by name *)

Section ByName.

Import ToolScraper ToolScraperByName.

Variable stringify : ToolData -> string.
Variable worlds : string -> World.


Lemma tryUrls_cases toolName urls fs r fs' :
  tryUrls stringify worlds toolName urls fs = (r, fs') ->
  (success r = false /\ fs' = fs
   /\ Forall (fun u => success (fst (discoverToolByUrl stringify (worlds u) u fs)) = false) urls)
  \/ (success r = true
      /\ exists before url after,
           urls = (before ++ url :: after)%list
           /\ discoverToolByUrl stringify (worlds url) url fs = (r, fs')
           /\ Forall (fun u => success (fst (discoverToolByUrl stringify (worlds u) u fs))
                               = false) before).
Proof.
  induction urls as [|url rest IH]; simpl.
  - intros [= <- <-]. left. simpl. auto.
  - destruct (discoverToolByUrl stringify (worlds url) url fs) as [result fs1] eqn:E.
    destruct (success result) eqn:S.
    + intros [= <- <-]. right. split; [exact S|]. exists [], url, rest. simpl. auto.
    + destruct (discoverToolByUrl_cases stringify _ _ _ _ _ E) as [(_ & -> & _)|(S' & _)];
        [|congruence].
      intros H. destruct (IH H) as [(Hs & Hfs & Hall)|(Hs & before & u & after & -> & Hu & Hall)].
      * left. split; [exact Hs|]. split; [exact Hfs|]. constructor; [|exact Hall].
        rewrite E. exact S.
      * right. split; [exact Hs|]. exists (url :: before), u, after.
        split; [reflexivity|]. split; [exact Hu|]. constructor; [|exact Hall].
        rewrite E. exact S.
Qed.


Lemma addToolToDatabase_same_id w w' e e' fs fs0 fs1 :
  addToolToDatabase w e fs = (true, fs0) ->
  toolsFile fs1 = toolsFile fs0 ->
  e_id e' = e_id e -> e_category e' = e_category e ->
  addToolToDatabase w' e' fs1 = (false, fs1).
Proof.
  intros H Hfs Hid Hcat. apply addToolToDatabase_true in H.
  destruct H as (cat & Hl & _ & Hc & _).
  unfold addToolToDatabase. rewrite Hfs, Hc, Hcat, Hid.
  rewrite (lookupCategory_pushTool _ _ _ _ Hl). simpl.
  destruct (find _ (tools cat ++ [toolEntry e])) eqn:F; [reflexivity|].
  exfalso.
  assert (Hin : In (toolEntry e) (tools cat ++ [toolEntry e])).
  { apply in_or_app. right. left. reflexivity. }
  pose proof (find_none _ _ F _ Hin) as F'. cbn in F'.
  rewrite String.eqb_refl in F'. discriminate.
Qed.

Lemma fallback_entry w url raw :
  noClassifier w = true -> analyzeToolUrl w url = Some raw ->
  categorizeWithAI stringify w raw = Some (basicCategorize stringify raw)
  /\ e_id (basicCategorize stringify raw) = "unknown"
  /\ exists p, fetched w = Some p
               /\ e_name (basicCategorize stringify raw) = JS.orStr (pg_title p) "Unknown Tool".
Proof.
  unfold noClassifier, categorizeWithAI, analyzeToolUrl. intros Hn Hraw.
  destruct (fetched w) as [p|]; [|discriminate]. injection Hraw as <-.
  split; [destruct (groq w) as [[|e]|]; [reflexivity|discriminate|reflexivity]|].
  unfold basicCategorize. destruct (fold_left _ _ _). simpl.
  split; [reflexivity|]. exists p. split; reflexivity.
Qed.

(** X22.  Without a classifier (no key, or the call throws) the page
    hints carry no name, so every tool [discoverToolByUrl] commits gets
    the id 'unknown' and the page title as its name.  Hence each category
    takes one such tool only: a later discovery without a classifier
    succeeds only into another category. *)
Theorem fallback_discovery_commits_unknown w url fs r fs' :
  noClassifier w = true ->
  discoverToolByUrl stringify w url fs = (r, fs') ->
  success r = true ->
  exists e,
    res_tool r = Some e /\ e_id e = "unknown"
    /\ (exists p, fetched w = Some p /\ e_name e = JS.orStr (pg_title p) "Unknown Tool")
    /\ forall w2 url2 r2 fs2,
         noClassifier w2 = true ->
         discoverToolByUrl stringify w2 url2 fs' = (r2, fs2) ->
         success r2 = true ->
         exists e2, res_tool r2 = Some e2 /\ e_id e2 = "unknown"
                    /\ e_category e2 <> e_category e.
Proof.
  intros Hn H Hs.
  destruct (discoverToolByUrl_success stringify _ _ _ _ _ H Hs)
    as (raw & e & fs0 & Hraw & Hc & Ha & -> & Hr).
  destruct (fallback_entry w url raw Hn Hraw) as (Hc' & Hid & Hname).
  rewrite Hc' in Hc. injection Hc as <-.
  eexists. split; [exact Hr|]. split; [exact Hid|]. split; [exact Hname|].
  intros w2 url2 r2 fs2 Hn2 H2 Hs2.
  destruct (discoverToolByUrl_success stringify _ _ _ _ _ H2 Hs2)
    as (raw2 & e2 & fs3 & Hraw2 & Hc2 & Ha2 & _ & Hr2).
  destruct (fallback_entry w2 url2 raw2 Hn2 Hraw2) as (Hc2' & Hid2 & _).
  rewrite Hc2' in Hc2. injection Hc2 as <-.
  eexists. split; [exact Hr2|]. split; [exact Hid2|].
  intros Hcat.
  rewrite (addToolToDatabase_same_id w w2 _ _ fs fs0 _ Ha (toolsFile_logDiscovery _ _ _)
             (eq_trans Hid2 (eq_sym Hid)) Hcat) in Ha2.
  discriminate.
Qed.

End ByName.


Lemma fallback_discovery_commits_unknown_witness :
  exists e,
    ToolScraper.res_tool
      (fst (ToolScraper.discoverToolByUrl demoStringify plainWorld "https://sketchy.example"
              demoFiles)) = Some e
    /\ ToolScraper.e_id e = "unknown".
Proof.
  destruct (fallback_discovery_commits_unknown demoStringify plainWorld
              "https://sketchy.example" demoFiles _ _ eq_refl (surjective_pairing _))
    as (e & H1 & H2 & _); [vm_compute; reflexivity|].
  exists e. split; [exact H1|exact H2].
Defined.

(** ** The entry of the fallback categorisation *)

Section FallbackEntry.

Import ToolScraper.

Variable stringify : ToolData -> string.

Lemma underscoreOthers_idChars s : allChars isIdChar (underscoreOthers s) = true.
Proof.
  induction s as [|c r IH]; [reflexivity|].
  cbn [underscoreOthers]. cbv zeta. cbn [allChars]. rewrite IH, andb_true_r.
  destruct ((Nat.leb 97 (nat_of_ascii c) && Nat.leb (nat_of_ascii c) 122)
            || (Nat.leb 48 (nat_of_ascii c) && Nat.leb (nat_of_ascii c) 57))%bool eqn:E.
  - unfold isIdChar. cbv zeta. rewrite E. reflexivity.
  - reflexivity.
Qed.

Lemma startsWith_underscore c t : JS.startsWith "_" (String c t) = Ascii.eqb c "_"%char.
Proof.
  change (JS.startsWith "_" (String c t))
    with (Ascii.eqb "_"%char c && JS.startsWith EmptyString t)%bool.
  rewrite Ascii.eqb_sym. destruct t; apply andb_true_r.
Qed.

Lemma squeezeUnderscores_allChars p s :
  allChars p s = true -> allChars p (squeezeUnderscores s) = true.
Proof.
  induction s as [|c r IH]; [reflexivity|].
  cbn [allChars squeezeUnderscores].
  intros H. apply andb_prop in H. destruct H as [Hc Hr].
  destruct (Ascii.eqb c "_"%char && JS.startsWith "_" r)%bool; [exact (IH Hr)|].
  cbn [allChars]. rewrite Hc, (IH Hr). reflexivity.
Qed.

Lemma squeezeUnderscores_head s :
  JS.startsWith "_" (squeezeUnderscores s) = JS.startsWith "_" s.
Proof.
  induction s as [|c r IH]; [reflexivity|].
  cbn [squeezeUnderscores]. rewrite (startsWith_underscore c r).
  destruct (Ascii.eqb c "_"%char) eqn:C; cbn [andb].
  - destruct (JS.startsWith "_" r) eqn:R.
    + exact IH.
    + rewrite startsWith_underscore. exact C.
  - rewrite startsWith_underscore. exact C.
Qed.

Lemma squeezeUnderscores_single s : JS.includes (squeezeUnderscores s) "__" = false.
Proof.
  induction s as [|c r IH]; [reflexivity|].
  cbn [squeezeUnderscores].
  destruct (Ascii.eqb c "_"%char && JS.startsWith "_" r)%bool eqn:E; [exact IH|].
  change (JS.includes (String c (squeezeUnderscores r)) "__")
    with (JS.startsWith "__" (String c (squeezeUnderscores r))
          || JS.includes (squeezeUnderscores r) "__")%bool.
  rewrite IH, orb_false_r.
  change (JS.startsWith "__" (String c (squeezeUnderscores r)))
    with (Ascii.eqb "_"%char c && JS.startsWith "_" (squeezeUnderscores r))%bool.
  rewrite squeezeUnderscores_head, Ascii.eqb_sym. exact E.
Qed.

Lemma best_category_in (text : string) (cks : list (string * list string))
    (best : string * Z) (known : list string) :
  In (fst best) known -> incl (map fst cks) known ->
  In (fst (fold_left (fun (best : string * Z) (ck : string * list string) =>
                        let score :=
                          fold_left (fun score keyword =>
                                       if JS.includes text keyword then score + 1 else score)
                                    (snd ck) 0 in
                        if snd best <? score then (fst ck, score) else best)
                     cks best))
     known.
Proof.
  revert best. induction cks as [|ck cks IH]; intros best H Hincl; [exact H|].
  cbn [fold_left]. apply IH.
  - cbv zeta. destruct (snd best <? _); [|exact H].
    apply Hincl. left. reflexivity.
  - intros x Hx. apply Hincl. right. exact Hx.
Qed.

(** X23.  The entry [basicCategorize] builds has a well-formed id, made
    of lower-case letters, digits and single underscores only, whatever
    the name it is derived from, and a category of the fixed taxonomy of
    nine keys. *)
Theorem basicCategorize_id_and_category toolData :
  allChars isIdChar (e_id (basicCategorize stringify toolData)) = true
  /\ JS.includes (e_id (basicCategorize stringify toolData)) "__" = false
  /\ In (e_category (basicCategorize stringify toolData)) (map fst categoryKeywords).
Proof.
  unfold basicCategorize.
  match goal with
  | |- context [fold_left ?f categoryKeywords ?b] =>
      pose proof (best_category_in (JS.toLowerCase (stringify toolData)) categoryKeywords b
                    (map fst categoryKeywords)) as Hb;
      destruct (fold_left f categoryKeywords b) as [k z]
  end.
  cbn [e_id e_category]. split; [|split].
  - apply squeezeUnderscores_allChars, underscoreOthers_idChars.
  - apply squeezeUnderscores_single.
  - apply Hb; [vm_compute; tauto|apply incl_refl].
Qed.

End FallbackEntry.

(** ** From a follow-up suggestion to guidance *)

Section FollowUpGuidance.

Import DecyIntelligence FollowUps.

Variable db : Catalog.

Lemma includes_app_r s r : JS.includes (s ++ r) r = true.
Proof.
  induction s as [|c s IH].
  - apply startsWith_includes. induction r as [|a r IHr]; simpl; [reflexivity|].
    rewrite Ascii.eqb_refl. exact IHr.
  - change (JS.includes (String c s ++ r) r)
      with (JS.startsWith r (String c (s ++ r)) || JS.includes (s ++ r) r)%bool.
    rewrite IH. apply orb_true_r.
Qed.

Lemma findFlat_some i t :
  findFlat db i = Some t -> In t (allToolsFlat db) /\ tool_id (base t) = i.
Proof.
  unfold findFlat. intros H. apply find_some in H. destruct H as [Hin Hid].
  apply String.eqb_eq in Hid. auto.
Qed.

Lemma how_to_use_is_guidance t :
  In t (allToolsFlat db) ->
  tightPhrase (JS.toLowerCase (tool_name (base t))) = true ->
  exists u,
    find (namedIn (JS.trim (JS.toLowerCase ("How to use " ++ tool_name (base t)))))
         (allToolsFlat db) = Some u
    /\ detectToolGuidance db (JS.trim (JS.toLowerCase ("How to use " ++ tool_name (base t))))
       = Some {| matched := true; isGuidance := true;
                 int_category := Some (categoryKey u);
                 int_tool := Some u;
                 int_context := guidanceContext u;
                 confidence := 1;
                 int_tools := [u] |}.
Proof.
  intros Hin Htight.
  set (query := JS.trim (JS.toLowerCase ("How to use " ++ tool_name (base t)))).
  assert (Hq : JS.toLowerCase ("How to use " ++ tool_name (base t))
               = "how to use " ++ JS.toLowerCase (tool_name (base t))).
  { rewrite toLowerCase_app. reflexivity. }
  assert (Hsignal : JS.includes query "how to use" = true).
  { unfold query. apply includes_trim; [reflexivity|]. rewrite Hq.
    apply includes_app_l. reflexivity. }
  assert (Hname : JS.includes query (JS.toLowerCase (tool_name (base t))) = true).
  { unfold query. apply includes_trim; [exact Htight|]. rewrite Hq. apply includes_app_r. }
  unfold detectToolGuidance. fold query.
  assert (Hs : existsb (fun signal => JS.includes query signal) guidanceSignals = true).
  { apply existsb_exists. exists "how to use". split; [simpl; tauto|exact Hsignal]. }
  rewrite Hs. cbn [negb].
  change (find (fun t0 => (JS.includes query (JS.toLowerCase (tool_name (base t0)))
                           || JS.includes query (JS.toLowerCase (tool_id (base t0))))%bool)
               (allToolsFlat db))
    with (find (namedIn query) (allToolsFlat db)).
  destruct (find (namedIn query) (allToolsFlat db)) as [u|] eqn:F.
  - exists u. split; reflexivity.
  - pose proof (find_none _ _ F t Hin) as N. unfold namedIn in N. rewrite Hname in N.
    discriminate.
Qed.

Lemma getFollowUpSuggestions_head category i rest userQuery t :
  findFlat db i = Some t ->
  exists others,
    getFollowUpSuggestions db category (i :: rest) userQuery = howToUse t :: others.
Proof.
  intros H. unfold getFollowUpSuggestions. rewrite H. cbv zeta.
  destruct (String.eqb userQuery EmptyString), (acceptsPrompt (base t)),
    rest as [|j rest'];
    try destruct (findFlat db j); simpl; eauto.
Qed.


End FollowUpGuidance.


(** ** The conversation window of the first provider *)

Section Window.

Import ConversationPolicy.

Variable systemPrompt : string.
Variable parseJSON : string -> option AIFirstChat.AIResponse.

Lemma sliceLast_app {A} n (older recent : list A) :
  (n <= List.length recent)%nat -> JS.sliceLast n (older ++ recent) = JS.sliceLast n recent.
Proof.
  intros H. unfold JS.sliceLast. rewrite List.length_app, skipn_app.
  rewrite skipn_all2 by lia. simpl. f_equal. lia.
Qed.

Lemma length_sliceLast {A} n (l : list A) :
  List.length (JS.sliceLast n l) = Nat.min n (List.length l).
Proof. unfold JS.sliceLast. rewrite length_skipn. lia. Qed.

(** X25.  The first provider of [services/recommendation.js] is asked
    about the last eight turns only: the call carries the system prompt,
    at most eight turns of the history, each as 'user' or 'assistant',
    and the message, at most ten messages in all; and what
    [getGroqResponse] does with a history of eight or more turns does not
    depend on anything before the last eight. *)
Theorem answer_depends_on_last_eight message older recent :
  (8 <= List.length recent)%nat ->
  AIFirstChat.getGroqResponse systemPrompt parseJSON message (older ++ recent)
  = AIFirstChat.getGroqResponse systemPrompt parseJSON message recent
  /\ exists k,
       AIFirstChat.getGroqResponse systemPrompt parseJSON message (older ++ recent)
       = Complete ({| role := "system"; content := systemPrompt |}
                   :: map asSent (JS.sliceLast 8 recent)
                   ++ [{| role := "user"; content := message |}]) k
       /\ List.length (JS.sliceLast 8 recent) = 8%nat.
Proof.
  intros H. unfold AIFirstChat.getGroqResponse.
  rewrite (sliceLast_app 8 older recent H). split; [reflexivity|].
  eexists. split; [reflexivity|]. rewrite length_sliceLast. lia.
Qed.

End Window.

Lemma answer_depends_on_last_eight_witness :
  AIFirstChat.getGroqResponse "You are DECY" (fun _ => None) "and now?"
    ([userSays "first"; assistantSays "hello"]
     ++ [userSays "1"; assistantSays "2"; userSays "3"; assistantSays "4";
         userSays "5"; assistantSays "6"; userSays "7"; assistantSays "8"])
  = AIFirstChat.getGroqResponse "You are DECY" (fun _ => None) "and now?"
      [userSays "1"; assistantSays "2"; userSays "3"; assistantSays "4";
       userSays "5"; assistantSays "6"; userSays "7"; assistantSays "8"].
Proof.
  apply (answer_depends_on_last_eight "You are DECY" (fun _ => None) "and now?"
           [userSays "first"; assistantSays "hello"]
           [userSays "1"; assistantSays "2"; userSays "3"; assistantSays "4";
            userSays "5"; assistantSays "6"; userSays "7"; assistantSays "8"]).
  simpl. lia.
Defined.
